(** * matheditor: document identity, revisions and reconciliation

    A shallow embedding of the parts of the editor that decide how a document
    that lives on the device, in the cloud, or on both sides is presented:

    - [DocumentInfo] (src/components/DocumentInfo.tsx): the divergence flags
      and the merged revision list of the revision drawer;
    - [EditDocumentInfo] (the view page's info drawer): the derived
      collaborator list;
    - [Documents] (src/components/Documents.tsx): import ([tryParseFile],
      [addDocument]) and export ([backup]) of [.me] bundles;
    - [StickyComponent] (the sticky note node): the effect that carries the
      serialized nested editor state into the nested editor.

    React components are modelled as the pure function from props and store
    state to the values they compute; dispatched actions and navigation are
    modelled as the list of effects a call performs, in order.  What the
    platform and the libraries provide ([Date], [JSON.parse],
    [JSON.stringify], the editor framework) is a parameter of the component
    that uses it; [JSONText] is a reference JSON codec to run examples with.

    The definitions come first; the properties follow from
    "Properties" on. *)

From Stdlib Require Import String Ascii List ZArith Bool Lia.
From Stdlib Require Import Permutation Sorted DecimalString DecimalZ.
Import ListNotations.

Set Warnings "-register-all".

Open Scope string_scope.
Open Scope list_scope.

(** ** JavaScript helpers *)

(** [a === b] on values of type [string | undefined]. *)
Definition strict_eq (a b : option string) : bool :=
  match a, b with
  | Some x, Some y => String.eqb x y
  | None, None => true
  | _, _ => false
  end.

(** [Array.prototype.find]. *)
Definition Array_find {A : Type} (p : A -> bool) (l : list A) : option A :=
  List.find p l.

(** [Array.prototype.some]. *)
Definition Array_some {A : Type} (p : A -> bool) (l : list A) : bool :=
  existsb p l.

(** A number that a comparator returns: an integer, or [NaN] ([None]).
    [SortCompare] reads [NaN] as [+0]. *)
Definition sortCompare (v : option Z) : Z :=
  match v with
  | Some n => n
  | None => 0
  end.

(** [Array.prototype.sort] with a comparator.  The language (ES2019) requires
    the sort to be stable, and for a consistent comparator the result is then
    unique; it is computed here by stable insertion.  [insert_sorted cmp x l]
    puts [x], which preceded every element of [l] in the input, in front of
    the first element it does not have to follow.

    A comparator that returns [NaN] for some pairs and a sign for others is
    not consistent, and the language then leaves the order to the engine: of
    such a sort nothing is used below but that its result is a permutation
    of its input. *)
Fixpoint insert_sorted {A : Type} (cmp : A -> A -> option Z) (x : A) (l : list A)
  : list A :=
  match l with
  | [] => [x]
  | y :: l' =>
      if (sortCompare (cmp x y) <=? 0)%Z then x :: y :: l'
      else y :: insert_sorted cmp x l'
  end.

Fixpoint Array_sort {A : Type} (cmp : A -> A -> option Z) (l : list A) : list A :=
  match l with
  | [] => []
  | x :: l' => insert_sorted cmp x (Array_sort cmp l')
  end.

(** The comparator [(a, b) => key(b) - key(a)] of a sort by decreasing key:
    [NaN] as soon as one of the keys is.  (Only the sign of the difference is
    looked at, and that is the sign of the exact difference.) *)
Definition descending {A : Type} (key : A -> option Z) (a b : A) : option Z :=
  match key b, key a with
  | Some kb, Some ka => Some (kb - ka)%Z
  | _, _ => None
  end.

(** Sorted by decreasing key: [a] may stand before [b] when both keys are
    numbers and that of [b] is not the greater. *)
Definition notBelow {A : Type} (key : A -> option Z) (a b : A) : Prop :=
  match key a, key b with
  | Some ka, Some kb => (kb <= ka)%Z
  | _, _ => False
  end.

(** The key of [a] is the number [t]. *)
Definition hasKey {A : Type} (key : A -> option Z) (t : Z) (a : A) : bool :=
  match key a with
  | Some t' => (t' =? t)%Z
  | None => false
  end.

(** Deduplication by key, in the words of the specification: the elements of
    [l] whose key is neither in [seen] nor the key of an earlier element, in
    the order of [l]. *)
Fixpoint firstOccurrences {A : Type} (key : A -> string) (seen : list string)
         (l : list A) : list A :=
  match l with
  | [] => []
  | x :: l' =>
      if existsb (String.eqb (key x)) seen
      then firstOccurrences key seen l'
      else x :: firstOccurrences key (seen ++ [key x]) l'
  end.

(** ** Types (src/types, as the components use them) *)

Module User.
Record t : Type := mk
  { id : string;
    handle : option string;
    name : string;
    image : option string }.
End User.

Module LocalDocument.
Record t : Type := mk
  { id : string;
    name : string;
    head : string;
    createdAt : string;
    updatedAt : string }.
End LocalDocument.

(** A revision kept on the device: [{ id, documentId, createdAt }]. *)
Module LocalDocumentRevision.
Record t : Type := mk
  { id : string;
    documentId : string;
    createdAt : string }.
End LocalDocumentRevision.

(** A revision fetched from the cloud carries its author. *)
Module CloudDocumentRevision.
Record t : Type := mk
  { id : string;
    documentId : string;
    createdAt : string;
    author : User.t }.
End CloudDocumentRevision.

Module CloudDocument.
Record t : Type := mk
  { id : string;
    handle : option string;
    name : string;
    head : string;
    author : User.t;
    coauthors : list User.t;
    revisions : list CloudDocumentRevision.t;
    published : bool;
    collab : bool;
    createdAt : string;
    updatedAt : string }.
End CloudDocument.

(** [UserDocument = { id, local?, cloud? }]. *)
Module UserDocument.
Record t : Type := mk
  { id : string;
    local : option LocalDocument.t;
    cloud : option CloudDocument.t }.
End UserDocument.

(** [UserDocumentRevision = LocalDocumentRevision | CloudDocumentRevision]. *)
Module UserDocumentRevision.
Inductive t : Type :=
| Local (r : LocalDocumentRevision.t)
| Cloud (r : CloudDocumentRevision.t).

Definition id (r : t) : string :=
  match r with
  | Local l => LocalDocumentRevision.id l
  | Cloud c => CloudDocumentRevision.id c
  end.

Definition documentId (r : t) : string :=
  match r with
  | Local l => LocalDocumentRevision.documentId l
  | Cloud c => CloudDocumentRevision.documentId c
  end.

Definition createdAt (r : t) : string :=
  match r with
  | Local l => LocalDocumentRevision.createdAt l
  | Cloud c => CloudDocumentRevision.createdAt c
  end.

Definition author (r : t) : option User.t :=
  match r with
  | Local _ => None
  | Cloud c => Some (CloudDocumentRevision.author c)
  end.
End UserDocumentRevision.

(** A revision object as the drawer lists it.  The entry built on lines 41-45
    of DocumentInfo.tsx is cast to [LocalDocumentRevision] although its fields
    come from optional chaining, so at run time each of them may be
    [undefined] ([None]); it has no [author] field, which is how the drawer
    tells a revision of the local user from a cloud revision. *)
Module RevisionObject.
Record t : Type := mk
  { id : option string;
    documentId : option string;
    createdAt : option string;
    author : option User.t }.

Definition of_revision (r : UserDocumentRevision.t) : t :=
  {| id := Some (UserDocumentRevision.id r);
     documentId := Some (UserDocumentRevision.documentId r);
     createdAt := Some (UserDocumentRevision.createdAt r);
     author := UserDocumentRevision.author r |}.
End RevisionObject.

(** ** DocumentInfo (src/components/DocumentInfo.tsx, lines 15-46) *)

Module DocumentInfo.
Section Component.
(** [new Date(s).getTime()]: the instant a timestamp string denotes, in
    milliseconds, or [NaN] ([None]) for a string that [Date] cannot read. *)
Variable Date_getTime : string -> option Z.
(** The store: [state.user], [state.documents], [state.revisions]. *)
Variable user : option User.t.
Variable documents : list UserDocument.t.
Variable localRevisions : list LocalDocumentRevision.t.
(** The prop. *)
Variable documentId : string.

Definition userDocument : option UserDocument.t :=
  Array_find (fun d => String.eqb (UserDocument.id d) documentId) documents.

Definition localDocument : option LocalDocument.t :=
  match userDocument with Some d => UserDocument.local d | None => None end.

Definition cloudDocument : option CloudDocument.t :=
  match userDocument with Some d => UserDocument.cloud d | None => None end.

Definition isLocalDocument : bool :=
  match localDocument with Some _ => true | None => false end.

Definition isCloudDocument : bool :=
  match cloudDocument with Some _ => true | None => false end.

Definition isUploaded : bool := isLocalDocument && isCloudDocument.

Definition localDocumentRevisions : list LocalDocumentRevision.t :=
  filter (fun r => String.eqb (LocalDocumentRevision.documentId r) documentId)
         localRevisions.

Definition cloudDocumentRevisions : list CloudDocumentRevision.t :=
  match cloudDocument with
  | Some c => CloudDocument.revisions c
  | None => []
  end.

(** [localDocument?.head]. *)
Definition localHead : option string :=
  option_map LocalDocument.head localDocument.

Definition isHeadLocalRevision : bool :=
  Array_some (fun r => strict_eq (Some (LocalDocumentRevision.id r)) localHead)
             localDocumentRevisions.

Definition isHeadCloudRevision : bool :=
  Array_some (fun r => strict_eq (Some (CloudDocumentRevision.id r)) localHead)
             cloudDocumentRevisions.

Definition unsavedChanges : bool :=
  negb isHeadLocalRevision && negb isHeadCloudRevision.

Definition isHeadOutOfSync : bool :=
  match localDocument, cloudDocument with
  | Some l, Some c =>
      negb (String.eqb (LocalDocument.head l) (CloudDocument.head c))
  | _, _ => false
  end.

Definition isAuthor : bool :=
  match cloudDocument with
  | Some c =>
      strict_eq (Some (User.id (CloudDocument.author c))) (option_map User.id user)
  | None => true
  end.

Definition isCoauthor : bool :=
  match cloudDocument with
  | Some c =>
      Array_some (fun u => strict_eq (Some (User.id u)) (option_map User.id user))
                 (CloudDocument.coauthors c)
  | None => false
  end.

(** Lines 38-39: the cloud revisions, then every local revision whose id is
    not in the list yet. *)
Definition pushLocal (revisions : list UserDocumentRevision.t)
           (revision : LocalDocumentRevision.t) : list UserDocumentRevision.t :=
  match Array_find (fun r => String.eqb (UserDocumentRevision.id r)
                                        (LocalDocumentRevision.id revision))
                   revisions with
  | Some _ => revisions
  | None => revisions ++ [UserDocumentRevision.Local revision]
  end.

Definition revisions : list UserDocumentRevision.t :=
  fold_left pushLocal localDocumentRevisions
            (map UserDocumentRevision.Cloud cloudDocumentRevisions).

Definition time (r : UserDocumentRevision.t) : option Z :=
  Date_getTime (UserDocumentRevision.createdAt r).

(** Line 40: [(a, b) => time(b) - time(a)]. *)
Definition byCreatedAtDesc (a b : UserDocumentRevision.t) : option Z :=
  descending time a b.

(** Line 40: the sorted copy, before the entry for unsaved changes. *)
Definition sorted : list UserDocumentRevision.t :=
  Array_sort byCreatedAtDesc revisions.

Definition unsavedRevision : RevisionObject.t :=
  {| RevisionObject.id := localHead;
     RevisionObject.documentId := option_map LocalDocument.id localDocument;
     RevisionObject.createdAt := option_map LocalDocument.updatedAt localDocument;
     RevisionObject.author := None |}.

(** Line 46: [sortedRevisions] as the drawer renders it. *)
Definition sortedRevisions : list RevisionObject.t :=
  if unsavedChanges
  then unsavedRevision :: map RevisionObject.of_revision sorted
  else map RevisionObject.of_revision sorted.

(** *** The reconciliation in the words of the specification *)

(** A revision id is known when a revision of the document, local or
    cloud, has it. *)
Definition known (i : string) : Prop :=
  In i (map LocalDocumentRevision.id localDocumentRevisions)
  \/ In i (map CloudDocumentRevision.id cloudDocumentRevisions).

(** The local revisions that survive deduplication by id against the ids
    [seen] so far. *)
Definition freshLocals (seen : list string) (l : list LocalDocumentRevision.t)
  : list LocalDocumentRevision.t :=
  firstOccurrences LocalDocumentRevision.id seen l.

(** A revision whose [createdAt] denotes an instant. *)
Definition readable (r : UserDocumentRevision.t) : Prop := time r <> None.

(** [a] was created after [b]. *)
Definition later (a b : UserDocumentRevision.t) : Prop :=
  match time a, time b with
  | Some ta, Some tb => (tb < ta)%Z
  | _, _ => False
  end.

(** [a] was created no earlier than [b]. *)
Definition notEarlier (a b : UserDocumentRevision.t) : Prop := notBelow time a b.

(** [r] was created at the instant [t]. *)
Definition createdAtInstant (t : Z) (r : UserDocumentRevision.t) : bool :=
  hasKey time t r.

(** "most-recent first ([createdAt] descending; ties broken by [id])", for
    an order [before] on ids. *)
Definition orderedWithTies (before : string -> string -> Prop)
           (l : list UserDocumentRevision.t) : Prop :=
  StronglySorted
    (fun a b =>
       later a b
       \/ (time a = time b
           /\ before (UserDocumentRevision.id a) (UserDocumentRevision.id b)))
    l.
End Component.
End DocumentInfo.

(** ** EditDocumentInfo (the info drawer of the view page, lines 302-316) *)

Module EditDocumentInfo.
Section Component.
Variable cloudDocument : CloudDocument.t.
Variable user : option User.t.

Definition isAuthor : bool :=
  strict_eq (Some (User.id (CloudDocument.author cloudDocument)))
            (option_map User.id user).

Definition isCoauthor : bool :=
  Array_some (fun u => strict_eq (Some (User.id u)) (option_map User.id user))
             (CloudDocument.coauthors cloudDocument).

Definition showFork : bool :=
  CloudDocument.published cloudDocument || isAuthor || isCoauthor.

Definition isPublished : bool := CloudDocument.published cloudDocument.

Definition isCollab : bool := isPublished && CloudDocument.collab cloudDocument.

(** The callback of [revisions.reduce], lines 309-314. *)
Definition addCollaborator (acc : list User.t) (rev : CloudDocumentRevision.t)
  : list User.t :=
  let author := CloudDocumentRevision.author rev in
  if negb (String.eqb (User.id author)
                      (User.id (CloudDocument.author cloudDocument)))
     && negb (Array_some (fun u => String.eqb (User.id u) (User.id author))
                         (CloudDocument.coauthors cloudDocument))
     && negb (match Array_find (fun u => String.eqb (User.id u) (User.id author)) acc with
              | Some _ => true
              | None => false
              end)
  then acc ++ [author]
  else acc.

Definition collaborators : list User.t :=
  if isCollab
  then fold_left addCollaborator (CloudDocument.revisions cloudDocument) []
  else [].

Definition isEditable : bool := isAuthor || isCoauthor || isCollab.

(** *** The collaborator set in the words of the specification

    "any revision author who is neither the document author nor a listed
    coauthor ..., deduplicated by user id, order of first appearance in the
    revision list". *)
Definition isOutsider (u : User.t) : bool :=
  negb (String.eqb (User.id u) (User.id (CloudDocument.author cloudDocument)))
  && negb (existsb (fun c => String.eqb (User.id c) (User.id u))
                   (CloudDocument.coauthors cloudDocument)).

Definition firstById (seen : list string) (l : list User.t) : list User.t :=
  firstOccurrences User.id seen l.

Definition collaborators_spec : list User.t :=
  firstById [] (filter isOutsider
                       (map CloudDocumentRevision.author
                            (CloudDocument.revisions cloudDocument))).
End Component.
End EditDocumentInfo.

(** ** JSON values

    What [JSON.parse] returns and [JSON.stringify] takes.  An object is the
    list of its own properties in property order.  Numbers are kept to the
    integers: nothing below depends on what a number is. *)

Inductive JSON : Type :=
| JNull
| JBool (b : bool)
| JNumber (n : Z)
| JString (s : string)
| JArray (l : list JSON)
| JObject (m : list (string * JSON)).

(** Induction on a value with the hypothesis for every element of an array
    and every member of an object. *)
Section JSON_induction.
Variable P : JSON -> Prop.
Hypothesis Hnull : P JNull.
Hypothesis Hbool : forall b, P (JBool b).
Hypothesis Hnumber : forall n, P (JNumber n).
Hypothesis Hstring : forall s, P (JString s).
Hypothesis Harray : forall l, Forall P l -> P (JArray l).
Hypothesis Hobject : forall m, Forall (fun kv => P (snd kv)) m -> P (JObject m).

Fixpoint JSON_nested_ind (v : JSON) : P v :=
  match v with
  | JNull => Hnull
  | JBool b => Hbool b
  | JNumber n => Hnumber n
  | JString s => Hstring s
  | JArray l =>
      Harray l ((fix all (l : list JSON) : Forall P l :=
                   match l with
                   | [] => Forall_nil P
                   | x :: l' => Forall_cons x (JSON_nested_ind x) (all l')
                   end) l)
  | JObject m =>
      Hobject m ((fix all (m : list (string * JSON))
                    : Forall (fun kv => P (snd kv)) m :=
                    match m with
                    | [] => Forall_nil _
                    | kv :: m' =>
                        Forall_cons kv (JSON_nested_ind (snd kv)) (all m')
                    end) m)
  end.
End JSON_induction.

Module JS.
(** A computation that may throw. *)
Inductive completion (A : Type) : Type :=
| Normal (a : A)
| Throw.
Arguments Normal {A} a.
Arguments Throw {A}.

Fixpoint lookup (k : string) (m : list (string * JSON)) : option JSON :=
  match m with
  | [] => None
  | (k', v) :: m' => if String.eqb k' k then Some v else lookup k m'
  end.

(** [v.k] for a property name [k] that no built-in prototype defines (the
    components read [id] and [name] only): the own property of an object,
    [undefined] ([None]) on any other value, a [TypeError] on [null]. *)
Definition getProperty (v : JSON) (k : string) : completion (option JSON) :=
  match v with
  | JNull => Throw
  | JObject m => Normal (lookup k m)
  | _ => Normal None
  end.

(** [v.k] where reading it does not throw. *)
Definition prop (v : JSON) (k : string) : option JSON :=
  match getProperty v k with
  | Normal x => x
  | Throw => None
  end.

(** [Object.values(v)]. *)
Definition Object_values (v : JSON) : completion (list JSON) :=
  match v with
  | JNull => Throw
  | JObject m => Normal (map snd m)
  | JArray l => Normal l
  | JString s => Normal (map (fun c => JString (String c EmptyString))
                             (list_ascii_of_string s))
  | JBool _ | JNumber _ => Normal []
  end.

(** Decimal notation of an integer. *)
Definition decimal (n : Z) : string :=
  DecimalString.NilZero.string_of_int (Z.to_int n).

Definition join (sep : string) (l : list string) : string :=
  String.concat sep l.

(** Whether an object has an own property [k]. *)
Definition hasOwn (k : string) (m : list (string * JSON)) : bool :=
  match lookup k m with
  | Some _ => true
  | None => false
  end.

(** [ToString(v)], the conversion a template literal applies.  An object is
    converted through its [toString] and [valueOf]: those of
    [Object.prototype] give ["[object Object]"], but an own [toString]
    member of a parsed value hides the inherited one and is never a function,
    and [valueOf], own or inherited, gives no primitive either, so the
    conversion throws a [TypeError].  An array is joined with commas, each
    element converted in turn ([null] to the empty string), and throws when an
    element does. *)
Fixpoint toString (v : JSON) : completion string :=
  match v with
  | JNull => Normal "null"
  | JBool true => Normal "true"
  | JBool false => Normal "false"
  | JNumber n => Normal (decimal n)
  | JString s => Normal s
  | JArray l =>
      match (fix elements (l : list JSON) : completion (list string) :=
               match l with
               | [] => Normal []
               | x :: l' =>
                   match match x with
                         | JNull => Normal ""
                         | _ => toString x
                         end with
                   | Normal s =>
                       match elements l' with
                       | Normal ss => Normal (s :: ss)
                       | Throw => Throw
                       end
                   | Throw => Throw
                   end
               end) l with
      | Normal ss => Normal (join "," ss)
      | Throw => Throw
      end
  | JObject m => if hasOwn "toString" m then Throw else Normal "[object Object]"
  end.

(** [`${v}`]: the string a template literal puts in place of [v]. *)
Definition template (v : option JSON) : completion string :=
  match v with
  | None => Normal "undefined"
  | Some x => toString x
  end.

(** [s === v] for a string [s] and a value [v] that may be [undefined]. *)
Definition string_strict_eq (s : string) (v : option JSON) : bool :=
  match v with
  | Some (JString s') => String.eqb s s'
  | _ => false
  end.
End JS.

(** ** uuid

    [validate] of the [uuid] package (version 9): a string that matches
    [[0-9a-f]{8}-[0-9a-f]{4}-[1-5][0-9a-f]{3}-[89ab][0-9a-f]{3}-[0-9a-f]{12}]
    without regard to case, or the nil UUID. *)

Module uuid.
Definition inRange (lo hi : nat) (c : ascii) : bool :=
  (lo <=? nat_of_ascii c)%nat && (nat_of_ascii c <=? hi)%nat.

Definition isHex (c : ascii) : bool :=
  inRange 48 57 c || inRange 97 102 c || inRange 65 70 c.

Definition isVersion (c : ascii) : bool := inRange 49 53 c.

Definition isVariant (c : ascii) : bool :=
  inRange 56 57 c || inRange 97 98 c || inRange 65 66 c.

Definition isDash (c : ascii) : bool := Ascii.eqb c "-"%char.

(** The class of the character at position [i] of the 36. *)
Definition classAt (i : nat) : ascii -> bool :=
  if (i =? 8)%nat || (i =? 13)%nat || (i =? 18)%nat || (i =? 23)%nat then isDash
  else if (i =? 14)%nat then isVersion
  else if (i =? 19)%nat then isVariant
  else isHex.

Fixpoint matchFrom (i : nat) (s : string) : bool :=
  match s with
  | EmptyString => (i =? 36)%nat
  | String c s' => (i <? 36)%nat && classAt i c && matchFrom (S i) s'
  end.

Definition NIL : string := "00000000-0000-0000-0000-000000000000".

Definition test (s : string) : bool := matchFrom 0 s || String.eqb s NIL.

(** [typeof v === 'string' && REGEX.test(v)]. *)
Definition validate (v : option JSON) : bool :=
  match v with
  | Some (JString s) => test s
  | _ => false
  end.
End uuid.

(** ** Documents (src/components/Documents.tsx, lines 57-107) *)

Module Documents.
(** The store actions the component dispatches and waits for. *)
Inductive StoreAction : Type :=
| createLocalDocument (document : JSON)
| updateLocalDocument (id : string) (partial : string).

(** [dispatch(action).then(() => { navigate(path) })]; [thenNavigate] is
    [None] when the callback navigates nowhere.  [partial] above is the JSON
    text of the document, as line 80 splices it into the code. *)
Record Dispatch : Type := mkDispatch
  { action : StoreAction;
    thenNavigate : option string }.

(** What a call does to the outside, in order. *)
Inductive Effect : Type :=
| announce (title subtitle : string)
| alert (title content : string) (onConfirm : Dispatch)
| perform (d : Dispatch).

(** Effects performed so far, and how the computation ended. *)
Definition M (A : Type) : Type := (list Effect * JS.completion A)%type.

Definition ret {A : Type} (a : A) : M A := ([], JS.Normal a).

Definition throw {A : Type} : M A := ([], JS.Throw).

Definition bind {A B : Type} (m : M A) (k : A -> M B) : M B :=
  match m with
  | (es, JS.Normal a) => let (es', r) := k a in (es ++ es', r)
  | (es, JS.Throw) => (es, JS.Throw)
  end.

Definition lift {A : Type} (c : JS.completion A) : M A := ([], c).

Definition emit (e : Effect) : M unit := ([e], JS.Normal tt).

Notation "x <- m ;; k" := (bind m (fun x => k))
  (at level 61, m at next level, right associativity).
Notation "m ;;; k" := (bind m (fun _ => k))
  (at level 61, right associativity).

(** [l.forEach(f)]. *)
Fixpoint forEach {A : Type} (l : list A) (f : A -> M unit) : M unit :=
  match l with
  | [] => ret tt
  | x :: l' => f x ;;; forEach l' f
  end.

Section Component.
(** The platform's [JSON.parse] ([None]: it throws) and [JSON.stringify]. *)
Variable JSON_parse : string -> option JSON.
Variable JSON_stringify : JSON -> string.
(** [state.documents] as the component last rendered with it. *)
Variable documents : list UserDocument.t.

Definition hasLocal (d : UserDocument.t) : bool :=
  match UserDocument.local d with Some _ => true | None => false end.

(** Line 76: [documents.find(d => d.id === document.id && d.local)], as a
    truth value.  [document.id] is read once per element visited. *)
Fixpoint findLocal (document : JSON) (ds : list UserDocument.t) : M bool :=
  match ds with
  | [] => ret false
  | d :: ds' =>
      id <- lift (JS.getProperty document "id") ;;
      if JS.string_strict_eq (UserDocument.id d) id && hasLocal d
      then ret true
      else findLocal document ds'
  end.

(** The callback of [then]: [navigate(`/edit/${document.id}`)] when
    [navigateTo]; a callback that throws navigates nowhere.  (Line 80 builds
    the same path while it builds the action; by then [document.id] has been
    converted once already.) *)
Definition navigation (document : JSON) (navigateTo : bool) : option string :=
  if navigateTo
  then match JS.getProperty document "id" with
       | JS.Normal id =>
           match JS.template id with
           | JS.Normal path => Some ("/edit/" ++ path)%string
           | JS.Throw => None
           end
       | JS.Throw => None
       end
  else None.

(** Lines 75-87.  The argument of [actions.alert] is built member by member:
    the template literal of [content] converts [document.name], that of
    [action] converts [document.id]; either conversion may throw, and then
    nothing is dispatched. *)
Definition addDocument (document : JSON) (navigateTo : bool) : M unit :=
  found <- findLocal document documents ;;
  if found
  then
    name <- lift (JS.getProperty document "name") ;;
    shown <- lift (JS.template name) ;;
    id <- lift (JS.getProperty document "id") ;;
    idText <- lift (JS.template id) ;;
    emit (alert "Document already exists"
                ("Do you want to overwrite " ++ shown ++ "?")%string
                {| action := updateLocalDocument idText (JSON_stringify document);
                   thenNavigate := navigation document navigateTo |})
  else
    emit (perform {| action := createLocalDocument document;
                     thenNavigate := navigation document navigateTo |}).

Definition invalidFile : Effect :=
  announce "Invalid file" "Please select a valid .me file".

(** The body of [try], lines 60-68: what it does, and the variable
    [document] when it is left.  Line 62 assigns the variable before line 63
    calls [addDocument]. *)
Definition tryBody (content : string) : M unit * option JSON :=
  match JSON_parse content with
  | None => (throw, None)
  | Some data =>
      match JS.getProperty data "id" with
      | JS.Throw => (throw, None)
      | JS.Normal id =>
          if uuid.validate id
          then (addDocument data true, Some data)
          else
            (values <- lift (JS.Object_values data) ;;
             forEach values (fun document =>
               id <- lift (JS.getProperty document "id") ;;
               if uuid.validate id then addDocument document false else ret tt),
             None)
      end
  end.

(** Lines 57-73: the effects performed and the document returned.  The
    [catch] block announces and falls through to [return document]. *)
Definition tryParseFile (content : string) : list Effect * option JSON :=
  match tryBody content with
  | ((effects, JS.Normal _), document) => (effects, document)
  | ((effects, JS.Throw), document) => (effects ++ [invalidFile], document)
  end.

(** Lines 89-91: the text of the backup, from the result of
    [documentDB.getAll()]. *)
Definition backup (stored : list JSON) : string :=
  JSON_stringify (JArray stored).
End Component.

(** *** What the effects amount to *)

(** The documents an import hands to [createLocalDocument]. *)
Fixpoint created (es : list Effect) : list JSON :=
  match es with
  | perform {| action := createLocalDocument document |} :: es' =>
      document :: created es'
  | _ :: es' => created es'
  | [] => []
  end.

(** The notices announced to the user. *)
Fixpoint notices (es : list Effect) : list Effect :=
  match es with
  | announce t s :: es' => announce t s :: notices es'
  | _ :: es' => notices es'
  | [] => []
  end.

(** The store actions dispatched without asking the user. *)
Fixpoint dispatched (es : list Effect) : list StoreAction :=
  match es with
  | perform d :: es' => action d :: dispatched es'
  | _ :: es' => dispatched es'
  | [] => []
  end.

(** What happens, in order, once a [Dispatch] is run: the [then] callback
    runs when the promise of the dispatched action has resolved. *)
Inductive Event : Type :=
| completed (a : StoreAction)
| navigated (path : string).

Definition run (d : Dispatch) : list Event :=
  completed (action d)
  :: match thenNavigate d with
     | Some path => [navigated path]
     | None => []
     end.

(** Modelled from the spec: the alert dialog, which is not among the source
    files.  "Not auto-resolved: surfaced to the user as a confirmation
    choice (overwrite vs. abort)": confirming runs the action the alert
    carries, declining runs nothing. *)
Definition answer (confirm : bool) (e : Effect) : list Event :=
  match e with
  | alert _ _ onConfirm => if confirm then run onConfirm else []
  | perform d => run d
  | announce _ _ => []
  end.

Definition idOf (document : JSON) : option string :=
  match JS.getProperty document "id" with
  | JS.Normal (Some (JString s)) => Some s
  | _ => None
  end.

(** Modelled from the spec: the local document store, which is not among the
    source files.  "[get(id) -> LocalDocument | not-found]". *)
Definition get (id : string) (store : list JSON) : option JSON :=
  List.find (fun d => strict_eq (idOf d) (Some id)) store.

(** Modelled from the spec: "[put(document)]: idempotent upsert keyed by
    [id]". *)
Fixpoint put (document : JSON) (store : list JSON) : list JSON :=
  match store with
  | [] => [document]
  | d :: store' =>
      if strict_eq (idOf d) (idOf document)
      then document :: store'
      else d :: put document store'
  end.

(** Modelled from the spec: "on overwrite, the existing local document's
    content is replaced".  Where no document has the id there is nothing to
    replace. *)
Fixpoint replace (id : string) (document : JSON) (store : list JSON) : list JSON :=
  match store with
  | [] => []
  | d :: store' =>
      if strict_eq (idOf d) (Some id)
      then document :: store'
      else d :: replace id document store'
  end.

(** Modelled from the spec: [createLocalDocument] puts its document;
    [updateLocalDocument] replaces the document of the given id by the one
    its [partial] denotes.  [partial] is the text line 80 splices into the
    action; [JSON_parse] reads it back. *)
Definition apply (JSON_parse : string -> option JSON) (e : Event)
           (store : list JSON) : list JSON :=
  match e with
  | completed (createLocalDocument document) => put document store
  | completed (updateLocalDocument id partial) =>
      match JSON_parse partial with
      | Some document => replace id document store
      | None => store
      end
  | navigated _ => store
  end.

Definition applyAll (JSON_parse : string -> option JSON) (evs : list Event)
           (store : list JSON) : list JSON :=
  fold_left (fun s e => apply JSON_parse e s) evs store.

(** *** The decoding in the words of the specification *)

(** "a syntactically valid UUID [id]". *)
Definition validId (v : JSON) : bool := uuid.validate (JS.prop v "id").

Definition isNull (v : JSON) : bool :=
  match v with
  | JNull => true
  | _ => false
  end.

(** "an imported ... document's id collides with an existing local
    document". *)
Definition collides (documents : list UserDocument.t) (document : JSON) : bool :=
  existsb (fun d => JS.string_strict_eq (UserDocument.id d) (JS.prop document "id")
                    && hasLocal d)
          documents.

(** A value that a template literal can convert. *)
Definition printable (v : option JSON) : bool :=
  match JS.template v with
  | JS.Normal _ => true
  | JS.Throw => false
  end.

(** A document that cannot be offered for overwrite: its id is valid and
    collides, but its name cannot be put into the question. *)
Definition refused (documents : list UserDocument.t) (document : JSON) : bool :=
  validId document && collides documents document
  && negb (printable (JS.prop document "name")).

(** A value at which the visit of a bundle ends: [null], whose [id] cannot
    be read, or a document that cannot be offered for overwrite. *)
Definition stops (documents : list UserDocument.t) (v : JSON) : bool :=
  isNull v || refused documents v.

(** The values in front of the first one at which the visit ends. *)
Fixpoint untilStop (documents : list UserDocument.t) (values : list JSON)
  : list JSON :=
  match values with
  | [] => []
  | v :: values' =>
      if stops documents v then [] else v :: untilStop documents values'
  end.

(** "treat each value whose [id] is a valid UUID as an independent
    document, silently skipping entries that fail validation". *)
Definition importAll (JSON_stringify : JSON -> string)
           (documents : list UserDocument.t) (values : list JSON) : list Effect :=
  flat_map (fun v => fst (addDocument JSON_stringify documents v false))
           (filter validId values).
End Documents.

(** ** StickyComponent (the sticky note node, lines 57-67) *)

Module StickyComponent.
(** Whether a value counts as true in a condition. *)
Definition truthy (v : JSON) : bool :=
  match v with
  | JNull => false
  | JBool b => b
  | JNumber n => negb (n =? 0)%Z
  | JString s => negb (String.eqb s "")
  | JArray _ | JObject _ => true
  end.

Section Bridge.
(** The editor framework: its states, [editorState.toJSON()] and
    [editor.parseEditorState(text)]; and the platform's [JSON.stringify]. *)
Variable EditorState : Type.
Variable toJSON : EditorState -> JSON.
Variable parseEditorState : string -> EditorState.
Variable JSON_stringify : JSON -> string.

(** The effect, run with the nested editor's current state and the [data]
    prop: the state it hands to [setEditorState], if it does.  (React runs
    it after a render in which [data] is another object than before.) *)
Definition effect (stickyEditor : EditorState) (data : option JSON)
  : option EditorState :=
  match data with
  | Some data =>
      if truthy data
      then
        let oldState := toJSON stickyEditor in
        if String.eqb (JSON_stringify oldState) (JSON_stringify data)
        then None
        else Some (parseEditorState (JSON_stringify data))
      else None
  | None => None
  end.

(** The nested editor's state after the effect. *)
Definition deliver (stickyEditor : EditorState) (data : option JSON)
  : EditorState :=
  match effect stickyEditor data with
  | Some newState => newState
  | None => stickyEditor
  end.

(** The effect run for each payload in turn: the final state and the number
    of calls of [setEditorState]. *)
Fixpoint feed (stickyEditor : EditorState) (payloads : list (option JSON))
  : EditorState * nat :=
  match payloads with
  | [] => (stickyEditor, 0%nat)
  | data :: payloads' =>
      let (final, n) := feed (deliver stickyEditor data) payloads' in
      (final, match effect stickyEditor data with
              | Some _ => S n
              | None => n
              end)
  end.
End Bridge.

(** Modelled from the spec: "deep equality" of two values.  Arrays are equal
    element by element, objects member by member whatever the order of their
    members. *)
Fixpoint deepEqual (a b : JSON) : bool :=
  match a, b with
  | JNull, JNull => true
  | JBool x, JBool y => Bool.eqb x y
  | JNumber x, JNumber y => (x =? y)%Z
  | JString x, JString y => String.eqb x y
  | JArray l, JArray l' =>
      (fix all (l l' : list JSON) : bool :=
         match l, l' with
         | [], [] => true
         | x :: l, y :: l' => deepEqual x y && all l l'
         | _, _ => false
         end) l l'
  | JObject m, JObject m' =>
      (length m =? length m')%nat
      && (fix all (m : list (string * JSON)) : bool :=
            match m with
            | [] => true
            | (k, v) :: m =>
                match JS.lookup k m' with
                | Some v' => deepEqual v v'
                | None => false
                end && all m
            end) m
  | _, _ => false
  end.
End StickyComponent.

(** ** A reference JSON codec

    [JSON.parse] and [JSON.stringify] belong to the platform; the components
    above take them as parameters.  The codec below implements them on the
    fragment of JSON whose numbers are integers, over strings of bytes; it is
    what the examples run with, and nothing else.  It is not the platform's
    codec: it keeps the members of an object in the order of the text (the
    platform moves integer-like keys to the front), it reads a number written
    with leading zeros, and it knows no fractions and no exponents.  The
    examples use none of these. *)

Module JSONText.
Definition quoteChar : ascii := "034"%char.
Definition backslash : ascii := "092"%char.

Definition hexDigit (n : nat) : ascii :=
  ascii_of_nat (if (n <? 10)%nat then 48 + n else 87 + n).

(** *** stringify *)

Definition escapeChar (c : ascii) : string :=
  let n := nat_of_ascii c in
  if (n =? 34)%nat then String backslash (String quoteChar EmptyString)
  else if (n =? 92)%nat then String backslash (String backslash EmptyString)
  else if (n =? 8)%nat then String backslash "b"
  else if (n =? 9)%nat then String backslash "t"
  else if (n =? 10)%nat then String backslash "n"
  else if (n =? 12)%nat then String backslash "f"
  else if (n =? 13)%nat then String backslash "r"
  else if (n <? 32)%nat
       then String backslash
              (String "u" (String "0" (String "0"
                (String (hexDigit (n / 16))
                   (String (hexDigit (n mod 16)) EmptyString)))))
  else String c EmptyString.

Fixpoint escape (s : string) : string :=
  match s with
  | EmptyString => EmptyString
  | String c s' => (escapeChar c ++ escape s')%string
  end.

Definition quote (s : string) : string :=
  String quoteChar (escape s ++ String quoteChar EmptyString)%string.

Fixpoint stringify (v : JSON) : string :=
  match v with
  | JNull => "null"
  | JBool true => "true"
  | JBool false => "false"
  | JNumber n => JS.decimal n
  | JString s => quote s
  | JArray l => ("[" ++ JS.join "," (map stringify l) ++ "]")%string
  | JObject m =>
      ("{" ++ JS.join "," (map (fun kv => quote (fst kv) ++ ":" ++ stringify (snd kv)) m)
       ++ "}")%string
  end.

(** *** parse *)

Definition isWhitespace (c : ascii) : bool :=
  let n := nat_of_ascii c in
  (n =? 32)%nat || (n =? 9)%nat || (n =? 10)%nat || (n =? 13)%nat.

Fixpoint skipWhitespace (s : string) : string :=
  match s with
  | String c s' => if isWhitespace c then skipWhitespace s' else s
  | EmptyString => s
  end.

Definition isDigit (c : ascii) : bool := uuid.inRange 48 57 c.

Definition hexValue (c : ascii) : option nat :=
  let n := nat_of_ascii c in
  if uuid.inRange 48 57 c then Some (n - 48)
  else if uuid.inRange 97 102 c then Some (n - 87)
  else if uuid.inRange 65 70 c then Some (n - 55)
  else None.

(** The bytes (UTF-8) of the character with code [n]. *)
Definition encode (n : nat) : string :=
  if (n <? 128)%nat then String (ascii_of_nat n) EmptyString
  else if (n <? 2048)%nat
       then String (ascii_of_nat (192 + n / 64))
              (String (ascii_of_nat (128 + n mod 64)) EmptyString)
  else String (ascii_of_nat (224 + n / 4096))
         (String (ascii_of_nat (128 + (n / 64) mod 64))
            (String (ascii_of_nat (128 + n mod 64)) EmptyString)).

Definition unescape (c : ascii) : option ascii :=
  let n := nat_of_ascii c in
  if (n =? 34)%nat || (n =? 92)%nat || (n =? 47)%nat then Some c
  else if (n =? 98)%nat then Some (ascii_of_nat 8)
  else if (n =? 116)%nat then Some (ascii_of_nat 9)
  else if (n =? 110)%nat then Some (ascii_of_nat 10)
  else if (n =? 102)%nat then Some (ascii_of_nat 12)
  else if (n =? 114)%nat then Some (ascii_of_nat 13)
  else None.

(** The characters of a string literal after its opening quote, and what
    follows the closing one. *)
Fixpoint parseChars (s : string) : option (string * string) :=
  match s with
  | EmptyString => None
  | String c rest =>
      if Ascii.eqb c quoteChar then Some (EmptyString, rest)
      else if Ascii.eqb c backslash then
        match rest with
        | String "u" (String h1 (String h2 (String h3 (String h4 rest')))) =>
            match hexValue h1, hexValue h2, hexValue h3, hexValue h4,
                  parseChars rest' with
            | Some a, Some b, Some c', Some d, Some (t, rest'') =>
                Some ((encode (((a * 16 + b) * 16 + c') * 16 + d) ++ t)%string,
                      rest'')
            | _, _, _, _, _ => None
            end
        | String e rest' =>
            match unescape e, parseChars rest' with
            | Some c', Some (t, rest'') => Some (String c' t, rest'')
            | _, _ => None
            end
        | EmptyString => None
        end
      else if (nat_of_ascii c <? 32)%nat then None
      else match parseChars rest with
           | Some (t, rest') => Some (String c t, rest')
           | None => None
           end
  end.

Fixpoint spanDigits (s : string) : string * string :=
  match s with
  | String c s' =>
      if isDigit c
      then let (ds, rest) := spanDigits s' in (String c ds, rest)
      else (EmptyString, s)
  | EmptyString => (EmptyString, s)
  end.

Fixpoint stripPrefix (p s : string) : option string :=
  match p, s with
  | EmptyString, _ => Some s
  | String a p', String b s' => if Ascii.eqb a b then stripPrefix p' s' else None
  | String _ _, EmptyString => None
  end.

(** What follows the character [c] at the head of [s]. *)
Definition startsWith (c : ascii) (s : string) : option string :=
  match s with
  | String c' s' => if Ascii.eqb c' c then Some s' else None
  | EmptyString => None
  end.

Definition startsFraction (s : string) : bool :=
  match s with
  | String c _ => Ascii.eqb c "." || Ascii.eqb c "e" || Ascii.eqb c "E"
  | EmptyString => false
  end.

(** An integer literal; a fraction or an exponent is outside the fragment. *)
Definition parseNumber (s : string) : option (Z * string) :=
  let (negative, s') :=
    match startsWith "-" s with
    | Some s' => (true, s')
    | None => (false, s)
    end in
  let (ds, rest) := spanDigits s' in
  match ds, NilEmpty.uint_of_string ds with
  | String _ _, Some u =>
      if startsFraction rest then None
      else Some (if negative then (- Z.of_uint u)%Z else Z.of_uint u, rest)
  | _, _ => None
  end.

(** A member parsed later replaces the value of an earlier one of the same
    name and keeps its place. *)
Fixpoint setMember (k : string) (v : JSON) (m : list (string * JSON))
  : list (string * JSON) :=
  match m with
  | [] => [(k, v)]
  | (k', v') :: m' =>
      if String.eqb k' k then (k', v) :: m' else (k', v') :: setMember k v m'
  end.

Fixpoint parseValue (fuel : nat) (s : string) : option (JSON * string) :=
  match fuel with
  | O => None
  | S fuel' =>
      match skipWhitespace s with
      | EmptyString => None
      | String c rest =>
          if Ascii.eqb c "[" then
            match startsWith "]" (skipWhitespace rest) with
            | Some rest' => Some (JArray [], rest')
            | None =>
                match parseElements fuel' rest with
                | Some (l, rest') => Some (JArray l, rest')
                | None => None
                end
            end
          else if Ascii.eqb c "{" then
            match startsWith "}" (skipWhitespace rest) with
            | Some rest' => Some (JObject [], rest')
            | None =>
                match parseMembers fuel' [] rest with
                | Some (m, rest') => Some (JObject m, rest')
                | None => None
                end
            end
          else if Ascii.eqb c quoteChar then
            match parseChars rest with
            | Some (t, rest') => Some (JString t, rest')
            | None => None
            end
          else if Ascii.eqb c "t" then
            option_map (pair (JBool true)) (stripPrefix "rue" rest)
          else if Ascii.eqb c "f" then
            option_map (pair (JBool false)) (stripPrefix "alse" rest)
          else if Ascii.eqb c "n" then
            option_map (pair JNull) (stripPrefix "ull" rest)
          else
            match parseNumber (String c rest) with
            | Some (n, rest') => Some (JNumber n, rest')
            | None => None
            end
      end
  end
with parseElements (fuel : nat) (s : string) : option (list JSON * string) :=
  match fuel with
  | O => None
  | S fuel' =>
      match parseValue fuel' s with
      | Some (v, rest) =>
          match startsWith "," (skipWhitespace rest) with
          | Some rest' =>
              match parseElements fuel' rest' with
              | Some (l, rest'') => Some (v :: l, rest'')
              | None => None
              end
          | None =>
              match startsWith "]" (skipWhitespace rest) with
              | Some rest' => Some ([v], rest')
              | None => None
              end
          end
      | None => None
      end
  end
with parseMembers (fuel : nat) (acc : list (string * JSON)) (s : string)
  : option (list (string * JSON) * string) :=
  match fuel with
  | O => None
  | S fuel' =>
      match startsWith quoteChar (skipWhitespace s) with
      | Some rest =>
          match parseChars rest with
          | Some (k, rest1) =>
              match startsWith ":" (skipWhitespace rest1) with
              | Some rest2 =>
                  match parseValue fuel' rest2 with
                  | Some (v, rest3) =>
                      match startsWith "," (skipWhitespace rest3) with
                      | Some rest4 =>
                          parseMembers fuel' (setMember k v acc) rest4
                      | None =>
                          match startsWith "}" (skipWhitespace rest3) with
                          | Some rest4 => Some (setMember k v acc, rest4)
                          | None => None
                          end
                      end
                  | None => None
                  end
              | None => None
              end
          | None => None
          end
      | None => None
      end
  end.

Definition parse (s : string) : option JSON :=
  match parseValue (2 * String.length s + 2) s with
  | Some (v, rest) =>
      match skipWhitespace rest with
      | EmptyString => Some v
      | String _ _ => None
      end
  | None => None
  end.

(** *** Values the codec reads back as written *)

(** The names of an object's members are pairwise distinct, at every depth;
    an object of the language is always so. *)
Fixpoint wellFormed (v : JSON) : Prop :=
  match v with
  | JArray l => fold_right (fun x P => wellFormed x /\ P) True l
  | JObject m =>
      NoDup (map fst m) /\ fold_right (fun kv P => wellFormed (snd kv) /\ P) True m
  | _ => True
  end.

(** Fuel that suffices to parse the text of a value. *)
Fixpoint fuelFor (v : JSON) : nat :=
  match v with
  | JArray l => S (fold_right (fun x n => S (fuelFor x + n)) 0%nat l)
  | JObject m => S (fold_right (fun kv n => S (fuelFor (snd kv) + n)) 0%nat m)
  | _ => 1%nat
  end.

(** What may follow a value in a text: nothing, or a delimiter. *)
Definition delimited (rest : string) : Prop :=
  match rest with
  | EmptyString => True
  | String c _ => c = ","%char \/ c = "]"%char \/ c = "}"%char
  end.

(** The first character of the text of a value. *)
Definition valueHead (c : ascii) : Prop :=
  isWhitespace c = false
  /\ Ascii.eqb c "]" = false /\ Ascii.eqb c "}" = false.

(** The parser reads the text of [v] back, whatever delimited text follows. *)
Definition readsBack (v : JSON) : Prop :=
  forall fuel rest,
    (fuelFor v <= fuel)%nat -> delimited rest ->
    parseValue fuel (stringify v ++ rest)%string = Some (v, rest).
End JSONText.

(** ** Example data *)

Module Examples.
Definition U (i : string) : User.t :=
  {| User.id := i; User.handle := None; User.name := i; User.image := None |}.

Definition localRev (i d t : string) : LocalDocumentRevision.t :=
  {| LocalDocumentRevision.id := i;
     LocalDocumentRevision.documentId := d;
     LocalDocumentRevision.createdAt := t |}.

Definition cloudRev (i d t a : string) : CloudDocumentRevision.t :=
  {| CloudDocumentRevision.id := i;
     CloudDocumentRevision.documentId := d;
     CloudDocumentRevision.createdAt := t;
     CloudDocumentRevision.author := U a |}.

Definition localDoc (i h : string) : LocalDocument.t :=
  {| LocalDocument.id := i;
     LocalDocument.name := "Notes";
     LocalDocument.head := h;
     LocalDocument.createdAt := "1";
     LocalDocument.updatedAt := "9" |}.

Definition cloudDoc (i h : string) (published collab : bool)
           (revs : list CloudDocumentRevision.t) : CloudDocument.t :=
  {| CloudDocument.id := i;
     CloudDocument.handle := None;
     CloudDocument.name := "Notes";
     CloudDocument.head := h;
     CloudDocument.author := U "U1";
     CloudDocument.coauthors := [U "U2"];
     CloudDocument.revisions := revs;
     CloudDocument.published := published;
     CloudDocument.collab := collab;
     CloudDocument.createdAt := "1";
     CloudDocument.updatedAt := "9" |}.

(** A stand-in for [new Date(s).getTime()]: timestamps written as one
    decimal digit; any other string is no date. *)
Definition digitTime (s : string) : option Z :=
  match s with
  | String c EmptyString =>
      if uuid.inRange 48 57 c then Some (Z.of_nat (nat_of_ascii c) - 48)%Z else None
  | _ => None
  end.

(** Document "d": local head "A", cloud head "B". *)
Definition bothSides (revs : list CloudDocumentRevision.t) : list UserDocument.t :=
  [ {| UserDocument.id := "d";
       UserDocument.local := Some (localDoc "d" "A");
       UserDocument.cloud := Some (cloudDoc "d" "B" true true revs) |} ].

Definition cloudOnly (revs : list CloudDocumentRevision.t) : list UserDocument.t :=
  [ {| UserDocument.id := "d";
       UserDocument.local := None;
       UserDocument.cloud := Some (cloudDoc "d" "B" true true revs) |} ].

(** Two cloud revisions created at the same instant. *)
Definition tiedA : CloudDocumentRevision.t := cloudRev "a" "d" "5" "U1".
Definition tiedB : CloudDocumentRevision.t := cloudRev "b" "d" "5" "U1".

Definition quoted (s : string) : string :=
  String JSONText.quoteChar (s ++ String JSONText.quoteChar EmptyString)%string.

(** The text [{"foo": {"id": "not-a-uuid"}}]. *)
Definition notAUuidText : string :=
  ("{" ++ quoted "foo" ++ ": {" ++ quoted "id" ++ ": " ++ quoted "not-a-uuid"
   ++ "}}")%string.

Definition notAUuidBundle : JSON :=
  JObject [("foo", JObject [("id", JString "not-a-uuid")])].

Definition notes (i : string) : JSON :=
  JObject [("id", JString i); ("name", JString "Notes");
           ("data", JObject [("root", JObject [("children", JArray []);
                                               ("version", JNumber 1)])])].

Definition uuid1 : string := "123e4567-e89b-42d3-a456-426614174000".
Definition uuid2 : string := "9b2e1c0a-7f3d-4c8e-b1a2-0123456789ab".

(** The text [{"a": null, "b": {"id": "123e4567-...", ...}}]. *)
Definition nullThenNotesText : string :=
  ("{" ++ quoted "a" ++ ": null, " ++ quoted "b" ++ ": "
   ++ JSONText.stringify (notes uuid1) ++ "}")%string.

(** A document list in which [uuid1] is a local document. *)
Definition withLocal : list UserDocument.t :=
  [ {| UserDocument.id := uuid1;
       UserDocument.local := Some (localDoc uuid1 "A");
       UserDocument.cloud := None |} ].

(** A nested editor whose states are their own serialization. *)
Definition parseState (text : string) : JSON :=
  match JSONText.parse text with
  | Some v => v
  | None => JNull
  end.

Definition emptyState : JSON :=
  JObject [("root", JObject [("children", JArray [])])].

Definition payload : JSON :=
  JObject [("root", JObject [("children",
                              JArray [JObject [("type", JString "paragraph");
                                               ("version", JNumber 1)]])])].

(** A document whose name no template literal can convert. *)
Definition nameless (i : string) : JSON :=
  JObject [("id", JString i); ("name", JObject [("toString", JNull)])].

(** The local store of a device that holds [uuid1] under another name. *)
Definition oldNotes : JSON :=
  JObject [("id", JString uuid1); ("name", JString "Old notes")].

(** A nested editor of one line of text, which writes its state out with
    the members in its own order and reads the line whatever their order. *)
Definition lineJSON (line : string) : JSON :=
  JObject [("root", JObject [("text", JString line); ("type", JString "root")])].

Definition parseLine (text : string) : string :=
  match JSONText.parse text with
  | Some v =>
      match JS.prop v "root" with
      | Some root =>
          match JS.prop root "text" with
          | Some (JString line) => line
          | _ => ""
          end
      | None => ""
      end
  | None => ""
  end.

(** The state of the line "hi", its members in another order. *)
Definition reordered : JSON :=
  JObject [("root", JObject [("type", JString "root"); ("text", JString "hi")])].

(** Revisions authored by U1, U2, U3, U3, U1. *)
Definition fiveRevisions : list CloudDocumentRevision.t :=
  [ cloudRev "r1" "d" "1" "U1"; cloudRev "r2" "d" "2" "U2";
    cloudRev "r3" "d" "3" "U3"; cloudRev "r4" "d" "4" "U3";
    cloudRev "r5" "d" "5" "U1" ].
End Examples.

(** ** DocumentInfo: what the drawer offers (DocumentInfo.tsx, lines 96-115) *)

Module DocumentInfoActions.
Section Component.
Variable user : option User.t.
Variable documents : list UserDocument.t.
Variable localRevisions : list LocalDocumentRevision.t.
Variable documentId : string.

(** Line 115: the dot on the toolbar button. *)
Definition showBadge : bool :=
  DocumentInfo.unsavedChanges documents localRevisions documentId
  || DocumentInfo.isHeadOutOfSync documents documentId.

Definition hasUserDocument : bool :=
  match DocumentInfo.userDocument documents documentId with
  | Some _ => true
  | None => false
  end.

(** Line 100: [userDocument && (isAuthor || isCoauthor) && <DownloadDocument>]. *)
Definition showDownload : bool :=
  hasUserDocument
  && (DocumentInfo.isAuthor user documents documentId
      || DocumentInfo.isCoauthor user documents documentId).

(** Line 101: [userDocument && isAuthor && <EditDocument>]. *)
Definition showEdit : bool :=
  hasUserDocument && DocumentInfo.isAuthor user documents documentId.
End Component.
End DocumentInfoActions.

(** ** EditDocumentInfo: the links (lines 302-319) *)

Module EditDocumentLinks.
(** [a || b] for a string [a] that may be [null]: the empty string counts as
    false. *)
Definition orElse (a : option string) (b : string) : string :=
  match a with
  | Some s => if String.eqb s "" then b else s
  | None => b
  end.

Section Component.
Variable cloudDocument : CloudDocument.t.
Variable user : option User.t.
(** [searchParams.get('v')]. *)
Variable revisionId : option string.

(** Line 302. *)
Definition handle : string :=
  orElse (CloudDocument.handle cloudDocument) (CloudDocument.id cloudDocument).

(** Line 319. *)
Definition href : string :=
  if EditDocumentInfo.isEditable cloudDocument user
  then ("/edit/" ++ handle)%string
  else ("/new/" ++ handle
        ++ match revisionId with
           | Some v => if String.eqb v "" then "" else "?v=" ++ v
           | None => ""
           end)%string.

(** Lines 366-368 and 379-383: what is rendered. *)
Definition showForkButton : bool := EditDocumentInfo.showFork cloudDocument user.
Definition showDownload : bool := EditDocumentInfo.isEditable cloudDocument user.
Definition showEditButton : bool := EditDocumentInfo.isEditable cloudDocument user.
Definition showFab : bool := EditDocumentInfo.showFork cloudDocument user.
Definition fabLabel : string :=
  if EditDocumentInfo.isEditable cloudDocument user then "Edit" else "Fork".
End Component.
End EditDocumentLinks.

(** ** DocumentsGrid (src/components/Documents.tsx, lines 161-183) *)

(** [Array.prototype.slice(start, end)]: a negative index counts from the
    end, and both are clamped to the array. *)
Definition Array_slice {A : Type} (start stop : Z) (l : list A) : list A :=
  let len := Z.of_nat (length l) in
  let k := if (start <? 0)%Z then Z.max (len + start) 0 else Z.min start len in
  let final := if (stop <? 0)%Z then Z.max (len + stop) 0 else Z.min stop len in
  firstn (Z.to_nat (final - k)) (skipn (Z.to_nat k) l).

Module DocumentsGrid.
Section Component.
Variable documents : list UserDocument.t.
Variable initialized : bool.
(** [state.ui.page]. *)
Variable savedPage : Z.

Definition empty : bool :=
  match documents with [] => true | _ :: _ => false end.

Definition showSkeletons : bool := negb initialized && empty.

Definition showEmpty : bool := initialized && empty.

Definition pageSize : Z := 12.

(** [Math.ceil(documents.length / pageSize)]: the quotient of two small
    integers, rounded up. *)
Definition pages : Z :=
  ((Z.of_nat (length documents) + pageSize - 1) / pageSize)%Z.

Definition page : Z := Z.min savedPage pages.

Definition pageDocuments : list UserDocument.t :=
  Array_slice ((page - 1) * pageSize) (page * pageSize) documents.

(** Line 181: [pages > 1 && <Pagination>]. *)
Definition showPagination : bool := (1 <? pages)%Z.
End Component.
End DocumentsGrid.

(** ** StickyNode (the sticky note node, lines 42-98 and 141-241) *)

Module StickyNode.
Inductive StickyNoteColor : Type :=
| pink
| yellow.

(** A node: its color, its serialized nested editor state ([undefined] until
    the nested editor changes), and its key ([None]: the framework has yet to
    give it one). *)
Record t : Type := mk
  { __color : StickyNoteColor;
    __data : option JSON;
    __key : option string }.

(** [SerializedStickyNode]. *)
Record Serialized : Type := mkSerialized
  { color : StickyNoteColor;
    data : option JSON;
    type : string;
    version : Z }.

Definition getType : string := "sticky".

Definition clone (node : t) : t :=
  mk (__color node) (__data node) (__key node).

Definition importJSON (serializedNode : Serialized) : t :=
  mk (color serializedNode) (data serializedNode) None.

Definition exportJSON (node : t) : Serialized :=
  {| data := __data node;
     color := __color node;
     type := "sticky";
     version := 1 |}.

(** [getWritable()] hands out the node to assign to; the assignment is
    modelled as the node with the field replaced. *)
Definition setData (data : JSON) (node : t) : t :=
  mk (__color node) (Some data) (__key node).

Definition toggleColor (node : t) : t :=
  mk (match __color node with pink => yellow | yellow => pink end)
     (__data node) (__key node).

(** [$createStickyNode()]. *)
Definition createStickyNode : t := mk yellow None None.

(** The props [decorate] hands to [StickyComponent]. *)
Definition decorate (node : t) : StickyNoteColor * option string * option JSON :=
  (__color node, __key node, __data node).
End StickyNode.

(** The handlers of [StickyComponent] update the parent editor.  Of the
    parent editor's state only the node map is modelled: [$getNodeByKey] looks
    a key up, assigning to a writable node replaces the node under its key,
    and [remove] takes the node out.  The framework's [remove] may take out
    more than the node (a parent that is left empty and may not be empty, for
    one): of a removal nothing is stated below but that the key of the note
    no longer resolves. *)
Module StickyHandlers.
Inductive LexicalNode : Type :=
| sticky (node : StickyNode.t)
| other (type : string).

Definition NodeMap : Type := list (string * LexicalNode).

Fixpoint getNodeByKey (key : string) (nodes : NodeMap) : option LexicalNode :=
  match nodes with
  | [] => None
  | (k, n) :: nodes' => if String.eqb k key then Some n else getNodeByKey key nodes'
  end.

Fixpoint setNode (key : string) (node : LexicalNode) (nodes : NodeMap) : NodeMap :=
  match nodes with
  | [] => []
  | (k, n) :: nodes' =>
      if String.eqb k key then (k, node) :: nodes'
      else (k, n) :: setNode key node nodes'
  end.

Definition removeNode (key : string) (nodes : NodeMap) : NodeMap :=
  filter (fun kn => negb (String.eqb (fst kn) key)) nodes.

(** Lines 69-76. *)
Definition handleDelete (nodeKey : string) (nodes : NodeMap) : NodeMap :=
  match getNodeByKey nodeKey nodes with
  | Some (sticky _) => removeNode nodeKey nodes
  | _ => nodes
  end.

(** Lines 78-85. *)
Definition handleColorChange (nodeKey : string) (nodes : NodeMap) : NodeMap :=
  match getNodeByKey nodeKey nodes with
  | Some (sticky node) =>
      setNode nodeKey (sticky (StickyNode.toggleColor node)) nodes
  | _ => nodes
  end.

Section Bridge.
Variable EditorState : Type.
Variable toJSON : EditorState -> JSON.
Variable parseEditorState : string -> EditorState.
Variable JSON_stringify : JSON -> string.
(** The state of an editor created with no [editorState]. *)
Variable emptyEditorState : EditorState.

(** Lines 89-97, with the nested editor's current state. *)
Definition handleChange (stickyEditor : EditorState) (nodeKey : string)
           (nodes : NodeMap) : NodeMap :=
  match getNodeByKey nodeKey nodes with
  | Some (sticky node) =>
      setNode nodeKey (sticky (StickyNode.setData (toJSON stickyEditor) node)) nodes
  | _ => nodes
  end.

(** Lines 52-54: the state the nested editor is created with. *)
Definition initialState (data : option JSON) : EditorState :=
  match data with
  | Some d =>
      if StickyComponent.truthy d
      then parseEditorState (JSON_stringify d)
      else emptyEditorState
  | None => emptyEditorState
  end.
End Bridge.
End StickyHandlers.

(** ** Page metadata (src/app/(appLayout)/edit/[[...id]]/page.tsx and the
    page for new documents that follows it in the same source file) *)

Module PageMetadata.
(** What [findUserDocument] returns, as far as the pages read it. *)
Record Author : Type := mkAuthor
  { authorName : string;
    authorImage : option string;
    authorEmail : string }.

Record Document : Type := mkDocument
  { name : string;
    updatedAt : string;
    collab : bool;
    published : bool;
    author : Author }.

(** [OgMetadata]; the pages never set its [description]. *)
Record OgMetadata : Type := mkOg
  { id : string;
    title : string;
    subtitle : option string;
    description : option string;
    user : option Author }.

(** The [Metadata] a page returns; [images] is [openGraph.images], absent
    when the page returns no [openGraph]. *)
Record Metadata : Type := mkMetadata
  { pageTitle : string;
    pageDescription : option string;
    images : option (list string) }.

(** [params.id && params.id[0]], when it counts as true. *)
Definition firstId (id : option (list string)) : option string :=
  match id with
  | Some (s :: _) => if String.eqb s "" then None else Some s
  | _ => None
  end.

(** [a ?? b]. *)
Definition nullish (a b : option string) : option string :=
  match a with
  | Some _ => a
  | None => b
  end.

Definition optionalMember (k : string) (v : option JSON) : list (string * JSON) :=
  match v with
  | Some x => [(k, x)]
  | None => []
  end.

(** The object [JSON.stringify] is given: the members in the order the pages
    create them, an absent member left out, a [null] image kept. *)
Definition ogJSON (m : OgMetadata) : JSON :=
  JObject
    ([("id", JString (id m)); ("title", JString (title m))]
     ++ optionalMember "subtitle" (option_map JString (subtitle m))
     ++ optionalMember "user"
          (option_map
             (fun a => JObject [("name", JString (authorName a));
                                ("image", match authorImage a with
                                          | Some i => JString i
                                          | None => JNull
                                          end);
                                ("email", JString (authorEmail a))])
             (user m))).

Section Pages.
Variable JSON_stringify : JSON -> string.
Variable encodeURIComponent : string -> string.
(** [new Date(updatedAt).toLocaleString()]. *)
Variable toLocaleString : string -> string.

(** Lines 26-35 (and 66-75): from the metadata gathered to the result. *)
Definition finish (m : OgMetadata) : Metadata :=
  let image :=
    ("/api/og?metadata=" ++ encodeURIComponent (JSON_stringify (ogJSON m)))%string in
  {| pageTitle := title m;
     pageDescription := nullish (description m) (subtitle m);
     images := Some [image] |}.

Definition shown (i : string) (document : Document) : OgMetadata :=
  {| id := i;
     title := (name document ++ " | Math Editor")%string;
     subtitle := Some ("Last updated: " ++ toLocaleString (updatedAt document))%string;
     description := None;
     user := Some (author document) |}.

Definition private (i : string) (subtitle : string) : OgMetadata :=
  {| id := i;
     title := "Private Document | Math Editor";
     subtitle := Some subtitle;
     description := None;
     user := None |}.

(** The edit page, lines 6-36. *)
Definition generateMetadata_edit
           (findUserDocument : string -> option Document)
           (id : option (list string)) : Metadata :=
  match firstId id with
  | None =>
      {| pageTitle := "Edit Document | Math Editor";
         pageDescription := Some "Edit a document on Math Editor";
         images := None |}
  | Some i =>
      finish
        match findUserDocument i with
        | Some document =>
            if collab document
            then shown i document
            else private i "if you have access, please sign in to edit it"
        | None =>
            {| id := i;
               title := "Edit Document | Math Editor";
               subtitle := Some "Edit a document on Math Editor";
               description := None;
               user := None |}
        end
  end.

(** The page for new documents, lines 47-76; [v] is [searchParams.v]. *)
Definition generateMetadata_new
           (findUserDocument : string -> option string -> option Document)
           (id : option (list string)) (v : option string) : Metadata :=
  match firstId id with
  | None =>
      {| pageTitle := "New Document | Math Editor";
         pageDescription := Some "Create a new document on Math Editor";
         images := None |}
  | Some i =>
      finish
        match findUserDocument i v with
        | Some document =>
            if collab document || published document
            then shown i document
            else private i "if you have access, please sign in to fork it"
        | None =>
            {| id := i;
               title := "Math Editor";
               subtitle := Some "Document not found";
               description := None;
               user := None |}
        end
  end.
End Pages.
End PageMetadata.

(** ** More example data *)

Module MoreExamples.
Definition documentNamed (i : string) : UserDocument.t :=
  {| UserDocument.id := i;
     UserDocument.local := Some (Examples.localDoc i "A");
     UserDocument.cloud := None |}.

(** Thirteen documents: one more than a page holds. *)
Definition thirteen : list UserDocument.t :=
  map documentNamed
      ["a"; "b"; "c"; "d"; "e"; "f"; "g"; "h"; "i"; "j"; "k"; "l"; "m"].

Definition yellowNote : StickyNode.t :=
  StickyNode.mk StickyNode.yellow (Some Examples.payload) (Some "7").

Definition twoNotes : StickyHandlers.NodeMap :=
  [("7", StickyHandlers.sticky yellowNote);
   ("8", StickyHandlers.sticky StickyNode.createStickyNode);
   ("9", StickyHandlers.other "paragraph")].

Definition secret : PageMetadata.Document :=
  {| PageMetadata.name := "Secret plans";
     PageMetadata.updatedAt := "2024-01-01";
     PageMetadata.collab := false;
     PageMetadata.published := false;
     PageMetadata.author :=
       {| PageMetadata.authorName := "Ada";
          PageMetadata.authorImage := None;
          PageMetadata.authorEmail := "ada@example.org" |} |}.
End MoreExamples.

(** ** Documents: reading a file (Documents.tsx, lines 46-55) *)

Module ImportFile.
(** Where an effect navigates, at once or once the user has confirmed. *)
Definition destination (e : Documents.Effect) : option string :=
  match e with
  | Documents.perform d => Documents.thenNavigate d
  | Documents.alert _ _ d => Documents.thenNavigate d
  | Documents.announce _ _ => None
  end.

Section Component.
Variable JSON_parse : string -> option JSON.
Variable JSON_stringify : JSON -> string.
Variable documents : list UserDocument.t.

(** [loadFromFile], once the file has been read as [content]: the effects of
    the import and the value the promise resolves to,
    [tryParseFile(content)?.id]. *)
Definition loadFromFile (content : string) : list Documents.Effect * option JSON :=
  let (effects, document) :=
    Documents.tryParseFile JSON_parse JSON_stringify documents content in
  (effects,
   match document with
   | Some d => JS.prop d "id"
   | None => None
   end).
End Component.
End ImportFile.

(** * Properties *)

(** ** Lists and the sort *)

Lemma existsb_false_forall {A : Type} (p : A -> bool) (l : list A) :
  existsb p l = false <-> (forall x, In x l -> p x = false).
Proof.
  induction l as [|y l IH]; simpl.
  - split; [intros _ x [] | reflexivity].
  - rewrite orb_false_iff, IH. split.
    + intros [Hy Hl] x [<-|Hx]; auto.
    + intros H. split; [apply H; now left | intros x Hx; apply H; now right].
Qed.

Lemma find_none_existsb {A : Type} (p : A -> bool) (l : list A) :
  Array_find p l = None <-> existsb p l = false.
Proof.
  unfold Array_find. induction l as [|y l IH]; simpl; [tauto|].
  destruct (p y); simpl; [split; discriminate | exact IH].
Qed.

Section StableSort.
Context {A : Type}.
Variable key : A -> option Z.

(** A permutation, whatever the comparator makes of the keys. *)
Lemma insert_sorted_perm (x : A) (l : list A) :
  Permutation (insert_sorted (descending key) x l) (x :: l).
Proof.
  induction l as [|y l IH]; simpl; [reflexivity|].
  destruct (sortCompare (descending key x y) <=? 0)%Z; [reflexivity|].
  rewrite IH. apply perm_swap.
Qed.

Lemma Array_sort_perm (l : list A) :
  Permutation (Array_sort (descending key) l) l.
Proof.
  induction l as [|x l IH]; simpl; [reflexivity|].
  rewrite insert_sorted_perm. now constructor.
Qed.

(** Where every key is a number the comparator is consistent, and the
    result is sorted. *)
Lemma insert_sorted_sorted (x : A) (l : list A) :
  key x <> None ->
  Forall (fun a => key a <> None) l ->
  StronglySorted (notBelow key) l ->
  StronglySorted (notBelow key) (insert_sorted (descending key) x l).
Proof.
  intros Hx Hkeys Hsorted.
  destruct (key x) as [kx|] eqn:Ekx; [clear Hx | congruence].
  induction Hsorted as [|y l Hl IH Hy]; simpl.
  - repeat constructor.
  - inversion Hkeys as [|? ? Hky Hkl]; subst.
    destruct (key y) as [ky|] eqn:Eky; [|congruence].
    unfold descending at 1. rewrite Eky, Ekx. cbn [sortCompare].
    destruct (Z.leb_spec (ky - kx) 0) as [Hle|Hgt].
    + constructor; [now constructor|].
      constructor; [unfold notBelow; rewrite Ekx, Eky; lia|].
      eapply Forall_impl; [|exact Hy]. cbn beta. intros z.
      unfold notBelow. rewrite Eky, Ekx.
      destruct (key z); [lia | tauto].
    + constructor; [now apply IH|].
      rewrite Forall_forall. intros z Hz.
      apply (Permutation_in _ (insert_sorted_perm x l)) in Hz.
      destruct Hz as [<-|Hz].
      * unfold notBelow. rewrite Eky, Ekx. lia.
      * rewrite Forall_forall in Hy. now apply Hy.
Qed.

Lemma Array_sort_sorted (l : list A) :
  Forall (fun a => key a <> None) l ->
  StronglySorted (notBelow key) (Array_sort (descending key) l).
Proof.
  induction 1 as [|x l Hx Hl IH]; simpl; [constructor|].
  apply insert_sorted_sorted; [exact Hx | | exact IH].
  rewrite Forall_forall in *. intros a Ha. apply Hl.
  now apply (Permutation_in _ (Array_sort_perm l)).
Qed.

(** Stability: the entries of one key keep the order they had. *)
Lemma insert_sorted_stable (t : Z) (x : A) (l : list A) :
  key x <> None ->
  Forall (fun a => key a <> None) l ->
  filter (hasKey key t) (insert_sorted (descending key) x l)
  = filter (hasKey key t) (x :: l).
Proof.
  intros Hx Hkeys.
  destruct (key x) as [kx|] eqn:Ekx; [clear Hx | congruence].
  induction Hkeys as [|y l Hky Hkl IH]; [reflexivity|].
  destruct (key y) as [ky|] eqn:Eky; [|congruence].
  cbn [insert_sorted]. unfold descending at 1. rewrite Eky, Ekx.
  cbn [sortCompare].
  destruct (Z.leb_spec (ky - kx) 0) as [Hle|Hgt]; [reflexivity|].
  cbn [filter] in *. rewrite IH.
  unfold hasKey. rewrite Ekx, Eky.
  destruct (Z.eqb_spec ky t) as [Hy|Hy];
    destruct (Z.eqb_spec kx t) as [Hx|Hx]; try reflexivity.
  lia.
Qed.

Lemma Array_sort_stable (t : Z) (l : list A) :
  Forall (fun a => key a <> None) l ->
  filter (hasKey key t) (Array_sort (descending key) l)
  = filter (hasKey key t) l.
Proof.
  induction 1 as [|x l Hx Hl IH]; [reflexivity|].
  cbn [Array_sort]. rewrite insert_sorted_stable.
  - cbn [filter]. now rewrite IH.
  - exact Hx.
  - rewrite Forall_forall in *. intros a Ha. apply Hl.
    now apply (Permutation_in _ (Array_sort_perm l)).
Qed.
End StableSort.

(** ** DocumentInfo: divergence and the merged revision list *)

Section FirstOccurrences.
Context {A : Type}.
Variable key : A -> string.

Lemma firstOccurrences_incl (seen : list string) (l : list A) :
  incl (firstOccurrences key seen l) l.
Proof.
  revert seen. induction l as [|r l IH]; intros seen; simpl.
  - apply incl_refl.
  - destruct (existsb _ seen).
    + apply incl_tl, IH.
    + apply incl_cons; [now left | apply incl_tl, IH].
Qed.

Lemma firstOccurrences_keys (seen : list string) (l : list A) (i : string) :
  In i seen \/ In i (map key (firstOccurrences key seen l))
  <-> In i seen \/ In i (map key l).
Proof.
  revert seen. induction l as [|r l IH]; intros seen; simpl; [tauto|].
  destruct (existsb _ seen) eqn:Hex.
  - rewrite IH. apply existsb_exists in Hex as (j & Hj & Heq).
    apply String.eqb_eq in Heq. subst j. intuition (subst; auto).
  - simpl. specialize (IH (seen ++ [key r])).
    rewrite !in_app_iff in IH. simpl in IH.
    split.
    + intros [H|[H|H]]; [now left | right; now left |].
      destruct (proj1 IH (or_intror H)) as [[Hp|[Hq|[]]]|Hs]; auto.
    + intros [H|[H|H]]; [now left | right; now left |].
      destruct (proj2 IH (or_intror H)) as [[Hp|[Hq|[]]]|Hr]; auto.
Qed.

Lemma firstOccurrences_NoDup (seen : list string) (l : list A) :
  NoDup seen ->
  NoDup (seen ++ map key (firstOccurrences key seen l)).
Proof.
  revert seen. induction l as [|r l IH]; intros seen Hseen; simpl.
  - now rewrite app_nil_r.
  - destruct (existsb _ seen) eqn:Hex; [now apply IH|].
    simpl. specialize (IH (seen ++ [key r])).
    rewrite <- app_assoc in IH. apply IH.
    apply NoDup_app; [exact Hseen | repeat constructor; intros [] |].
    intros i Hi [<-|[]].
    rewrite existsb_false_forall in Hex. apply Hex in Hi.
    now rewrite String.eqb_refl in Hi.
Qed.
End FirstOccurrences.

(** Lines 38-39 as one expression. *)
Lemma fold_pushLocal (l : list LocalDocumentRevision.t)
      (acc : list UserDocumentRevision.t) :
  fold_left DocumentInfo.pushLocal l acc
  = acc ++ map UserDocumentRevision.Local
               (DocumentInfo.freshLocals (map UserDocumentRevision.id acc) l).
Proof.
  unfold DocumentInfo.freshLocals. revert acc. induction l as [|r l IH]; intros acc; simpl.
  - now rewrite app_nil_r.
  - rewrite IH. unfold DocumentInfo.pushLocal.
    destruct (Array_find _ acc) eqn:Hfind.
    + assert (Hex : existsb (String.eqb (LocalDocumentRevision.id r))
                            (map UserDocumentRevision.id acc) = true).
      { apply not_false_is_true. intros Hf.
        assert (Hnone : Array_find
                  (fun r0 => String.eqb (UserDocumentRevision.id r0)
                                        (LocalDocumentRevision.id r)) acc = None).
        { apply find_none_existsb, existsb_false_forall. intros x Hx.
          rewrite existsb_false_forall in Hf.
          rewrite String.eqb_sym. apply Hf. now apply in_map. }
        congruence. }
      now rewrite Hex.
    + apply find_none_existsb in Hfind.
      assert (Hex : existsb (String.eqb (LocalDocumentRevision.id r))
                            (map UserDocumentRevision.id acc) = false).
      { apply existsb_false_forall. intros i Hi.
        apply in_map_iff in Hi as (x & <- & Hx).
        rewrite existsb_false_forall in Hfind.
        rewrite String.eqb_sym. now apply Hfind. }
      rewrite Hex, map_app, <- app_assoc. reflexivity.
Qed.

Section DocumentInfoFacts.
Variable documents : list UserDocument.t.
Variable localRevisions : list LocalDocumentRevision.t.
Variable documentId : string.

Lemma localHead_of (d : UserDocument.t) :
  DocumentInfo.userDocument documents documentId = Some d ->
  DocumentInfo.localHead documents documentId
  = option_map LocalDocument.head (UserDocument.local d).
Proof.
  intros Hd. unfold DocumentInfo.localHead, DocumentInfo.localDocument.
  now rewrite Hd.
Qed.

(** The two tests of lines 26-27 fail exactly when the head is unknown. *)
Lemma unsavedChanges_unknown (h : string) :
  DocumentInfo.localHead documents documentId = Some h ->
  DocumentInfo.unsavedChanges documents localRevisions documentId = true
  <-> ~ DocumentInfo.known documents localRevisions documentId h.
Proof.
  intros Hh.
  unfold DocumentInfo.unsavedChanges, DocumentInfo.isHeadLocalRevision,
    DocumentInfo.isHeadCloudRevision, DocumentInfo.known, Array_some.
  rewrite Hh, andb_true_iff, !negb_true_iff, !existsb_false_forall.
  simpl. split.
  - intros [Hl Hc] [Hin|Hin]; apply in_map_iff in Hin as (r & <- & Hr).
    + apply Hl in Hr. now rewrite String.eqb_refl in Hr.
    + apply Hc in Hr. now rewrite String.eqb_refl in Hr.
  - intros Hn. split; intros r Hr; apply String.eqb_neq; intros <-; apply Hn.
    + left. now apply in_map.
    + right. now apply in_map.
Qed.

(** [undefined] is the id of no revision. *)
Lemma unsavedChanges_no_head :
  DocumentInfo.localHead documents documentId = None ->
  DocumentInfo.unsavedChanges documents localRevisions documentId = true.
Proof.
  intros Hh.
  unfold DocumentInfo.unsavedChanges, DocumentInfo.isHeadLocalRevision,
    DocumentInfo.isHeadCloudRevision, Array_some.
  rewrite Hh, andb_true_iff, !negb_true_iff, !existsb_false_forall.
  now split.
Qed.

End DocumentInfoFacts.

(** C1.  When the head of the local document is the id of no revision of the
    document, local or cloud, [unsavedChanges] is true and the revision list
    starts with the entry for the unsaved changes: its id is the local head,
    its documentId the local document's id, its createdAt the local
    document's updatedAt, and it has no author field, which marks it as the
    local user's. *)
Theorem unknown_local_head_is_unsaved
        (Date_getTime : string -> option Z) (documents : list UserDocument.t)
        (localRevisions : list LocalDocumentRevision.t) (documentId : string)
        (d : UserDocument.t) (l : LocalDocument.t) :
  DocumentInfo.userDocument documents documentId = Some d ->
  UserDocument.local d = Some l ->
  ~ DocumentInfo.known documents localRevisions documentId (LocalDocument.head l) ->
  DocumentInfo.unsavedChanges documents localRevisions documentId = true
  /\ DocumentInfo.sortedRevisions Date_getTime documents localRevisions documentId
     = {| RevisionObject.id := Some (LocalDocument.head l);
          RevisionObject.documentId := Some (LocalDocument.id l);
          RevisionObject.createdAt := Some (LocalDocument.updatedAt l);
          RevisionObject.author := None |}
       :: map RevisionObject.of_revision
              (DocumentInfo.sorted Date_getTime documents localRevisions documentId).
Proof.
  intros Hd Hl Hunknown.
  assert (Hhead : DocumentInfo.localHead documents documentId
                  = Some (LocalDocument.head l)).
  { rewrite (localHead_of _ _ _ Hd), Hl. reflexivity. }
  assert (Hunsaved : DocumentInfo.unsavedChanges documents localRevisions documentId
                     = true).
  { now apply (unsavedChanges_unknown _ _ _ _ Hhead). }
  split; [exact Hunsaved|].
  unfold DocumentInfo.sortedRevisions, DocumentInfo.unsavedRevision.
  rewrite Hunsaved, Hhead.
  unfold DocumentInfo.localDocument. rewrite Hd, Hl. reflexivity.
Qed.

Lemma unknown_local_head_is_unsaved_witness :
  let documents := Examples.bothSides [Examples.cloudRev "B" "d" "2" "U1"] in
  let localRevisions := [Examples.localRev "R" "d" "1"] in
  DocumentInfo.unsavedChanges documents localRevisions "d" = true
  /\ DocumentInfo.sortedRevisions Examples.digitTime documents localRevisions "d"
     = [ {| RevisionObject.id := Some "A";
            RevisionObject.documentId := Some "d";
            RevisionObject.createdAt := Some "9";
            RevisionObject.author := None |};
         {| RevisionObject.id := Some "B";
            RevisionObject.documentId := Some "d";
            RevisionObject.createdAt := Some "2";
            RevisionObject.author := Some (Examples.U "U1") |};
         {| RevisionObject.id := Some "R";
            RevisionObject.documentId := Some "d";
            RevisionObject.createdAt := Some "1";
            RevisionObject.author := None |} ].
Proof.
  intros documents localRevisions.
  apply (unknown_local_head_is_unsaved Examples.digitTime documents localRevisions
           "d" _ (Examples.localDoc "d" "A") eq_refl eq_refl).
  intros [[H|[]]|[H|[]]]; discriminate H.
Defined.

(** C2.  When the document has both sides and their heads differ,
    [isHeadOutOfSync] is true whatever the revisions are; [unsavedChanges] is
    decided by the local head alone: false when the local head is a known
    revision (so in particular when both heads are), true when it is not. *)
Theorem differing_heads_are_out_of_sync
        (documents : list UserDocument.t)
        (localRevisions : list LocalDocumentRevision.t) (documentId : string)
        (d : UserDocument.t) (l : LocalDocument.t) (c : CloudDocument.t) :
  DocumentInfo.userDocument documents documentId = Some d ->
  UserDocument.local d = Some l ->
  UserDocument.cloud d = Some c ->
  LocalDocument.head l <> CloudDocument.head c ->
  DocumentInfo.isHeadOutOfSync documents documentId = true
  /\ (DocumentInfo.known documents localRevisions documentId (LocalDocument.head l) ->
      DocumentInfo.unsavedChanges documents localRevisions documentId = false)
  /\ (~ DocumentInfo.known documents localRevisions documentId (LocalDocument.head l) ->
      DocumentInfo.unsavedChanges documents localRevisions documentId = true).
Proof.
  intros Hd Hl Hc Hne.
  assert (Hhead : DocumentInfo.localHead documents documentId
                  = Some (LocalDocument.head l)).
  { rewrite (localHead_of _ _ _ Hd), Hl. reflexivity. }
  pose proof (unsavedChanges_unknown documents localRevisions documentId _ Hhead)
    as Hiff.
  repeat split.
  - unfold DocumentInfo.isHeadOutOfSync, DocumentInfo.localDocument,
      DocumentInfo.cloudDocument.
    rewrite Hd, Hl, Hc. apply negb_true_iff, String.eqb_neq, Hne.
  - intros Hknown. apply not_true_is_false. intros Htrue.
    now apply Hiff in Htrue.
  - intros Hunknown. now apply Hiff.
Qed.

Lemma differing_heads_are_out_of_sync_witness :
  let documents :=
    Examples.bothSides [Examples.cloudRev "A" "d" "1" "U1";
                        Examples.cloudRev "B" "d" "2" "U2"] in
  DocumentInfo.isHeadOutOfSync documents "d" = true
  /\ DocumentInfo.unsavedChanges documents [] "d" = false.
Proof.
  intros documents.
  destruct (differing_heads_are_out_of_sync documents [] "d" _
              (Examples.localDoc "d" "A")
              (Examples.cloudDoc "d" "B" true true
                 [Examples.cloudRev "A" "d" "1" "U1";
                  Examples.cloudRev "B" "d" "2" "U2"])
              eq_refl eq_refl eq_refl) as (Hsync & Hsaved & _).
  - discriminate.
  - split; [exact Hsync|]. apply Hsaved. right. left. reflexivity.
Defined.

(** C10.  When the document has no local side, the local head is
    [undefined], which is the id of no revision: [unsavedChanges] is true and
    the revision list starts with an entry whose id, documentId and createdAt
    are all [undefined]. *)
Theorem cloud_only_document_is_unsaved
        (Date_getTime : string -> option Z) (documents : list UserDocument.t)
        (localRevisions : list LocalDocumentRevision.t) (documentId : string)
        (d : UserDocument.t) (c : CloudDocument.t) :
  DocumentInfo.userDocument documents documentId = Some d ->
  UserDocument.local d = None ->
  UserDocument.cloud d = Some c ->
  DocumentInfo.unsavedChanges documents localRevisions documentId = true
  /\ DocumentInfo.sortedRevisions Date_getTime documents localRevisions documentId
     = {| RevisionObject.id := None;
          RevisionObject.documentId := None;
          RevisionObject.createdAt := None;
          RevisionObject.author := None |}
       :: map RevisionObject.of_revision
              (DocumentInfo.sorted Date_getTime documents localRevisions documentId).
Proof.
  intros Hd Hl _.
  assert (Hhead : DocumentInfo.localHead documents documentId = None).
  { rewrite (localHead_of _ _ _ Hd), Hl. reflexivity. }
  assert (Hunsaved : DocumentInfo.unsavedChanges documents localRevisions documentId
                     = true).
  { now apply unsavedChanges_no_head. }
  split; [exact Hunsaved|].
  unfold DocumentInfo.sortedRevisions, DocumentInfo.unsavedRevision.
  rewrite Hunsaved, Hhead.
  unfold DocumentInfo.localDocument. rewrite Hd, Hl. reflexivity.
Qed.

Lemma cloud_only_document_is_unsaved_witness :
  let documents := Examples.cloudOnly [Examples.cloudRev "B" "d" "2" "U1"] in
  DocumentInfo.unsavedChanges documents [] "d" = true
  /\ DocumentInfo.sortedRevisions Examples.digitTime documents [] "d"
     = [ {| RevisionObject.id := None;
            RevisionObject.documentId := None;
            RevisionObject.createdAt := None;
            RevisionObject.author := None |};
         {| RevisionObject.id := Some "B";
            RevisionObject.documentId := Some "d";
            RevisionObject.createdAt := Some "2";
            RevisionObject.author := Some (Examples.U "U1") |} ].
Proof.
  intros documents.
  exact (cloud_only_document_is_unsaved Examples.digitTime documents [] "d" _
           (Examples.cloudDoc "d" "B" true true [Examples.cloudRev "B" "d" "2" "U1"])
           eq_refl eq_refl eq_refl).
Defined.

(** C3 (as the code has it).  The merged list is the cloud revisions followed
    by the local revisions of the document whose id was not in the list yet:
    its ids are those of the two inputs, and they are pairwise distinct when
    those of the cloud list are.  The sorted list is a permutation of it.
    When every [createdAt] denotes an instant, the sorted list has
    [createdAt] descending, and the sort is stable: revisions created at the
    same instant keep the order of the merged list (cloud before local, each
    in the order given); their ids play no part.  (With a [createdAt] that
    [Date] cannot read the comparator returns [NaN] and the order is the
    engine's.) *)
Theorem merged_revisions_sorted_stably
        (Date_getTime : string -> option Z) (documents : list UserDocument.t)
        (localRevisions : list LocalDocumentRevision.t) (documentId : string) :
  let cloud := DocumentInfo.cloudDocumentRevisions documents documentId in
  let local := DocumentInfo.localDocumentRevisions localRevisions documentId in
  let merged := DocumentInfo.revisions documents localRevisions documentId in
  let sorted := DocumentInfo.sorted Date_getTime documents localRevisions documentId in
  merged = map UserDocumentRevision.Cloud cloud
           ++ map UserDocumentRevision.Local
                  (DocumentInfo.freshLocals (map CloudDocumentRevision.id cloud) local)
  /\ incl (DocumentInfo.freshLocals (map CloudDocumentRevision.id cloud) local) local
  /\ (forall i, In i (map UserDocumentRevision.id merged)
                <-> In i (map CloudDocumentRevision.id cloud)
                    \/ In i (map LocalDocumentRevision.id local))
  /\ (NoDup (map CloudDocumentRevision.id cloud) ->
      NoDup (map UserDocumentRevision.id merged))
  /\ Permutation sorted merged
  /\ (Forall (DocumentInfo.readable Date_getTime) merged ->
      StronglySorted (DocumentInfo.notEarlier Date_getTime) sorted
      /\ forall t, filter (DocumentInfo.createdAtInstant Date_getTime t) sorted
                   = filter (DocumentInfo.createdAtInstant Date_getTime t) merged).
Proof.
  intros cloud local merged sorted.
  assert (Hids : map UserDocumentRevision.id (map UserDocumentRevision.Cloud cloud)
                 = map CloudDocumentRevision.id cloud).
  { rewrite map_map. reflexivity. }
  assert (Hmerged : merged
            = map UserDocumentRevision.Cloud cloud
              ++ map UserDocumentRevision.Local
                   (DocumentInfo.freshLocals (map CloudDocumentRevision.id cloud) local)).
  { unfold merged, DocumentInfo.revisions. fold cloud local.
    rewrite fold_pushLocal, Hids. reflexivity. }
  assert (Hmids : map UserDocumentRevision.id merged
            = map CloudDocumentRevision.id cloud
              ++ map LocalDocumentRevision.id
                   (DocumentInfo.freshLocals (map CloudDocumentRevision.id cloud) local)).
  { rewrite Hmerged, map_app, Hids, map_map. reflexivity. }
  split; [exact Hmerged|].
  split; [apply firstOccurrences_incl|].
  split; [|split; [|split]].
  - intros i. rewrite Hmids, in_app_iff. apply (firstOccurrences_keys LocalDocumentRevision.id).
  - intros Hnodup. rewrite Hmids. now apply (firstOccurrences_NoDup LocalDocumentRevision.id).
  - apply Array_sort_perm.
  - intros Hreadable. split.
    + now apply Array_sort_sorted.
    + intros t. now apply Array_sort_stable.
Qed.

Lemma merged_revisions_sorted_stably_witness :
  let documents :=
    Examples.cloudOnly [Examples.cloudRev "B" "d" "2" "U1";
                        Examples.cloudRev "C" "d" "5" "U2"] in
  let localRevisions := [Examples.localRev "R" "d" "5"; Examples.localRev "S" "d" "3"] in
  Forall (DocumentInfo.readable Examples.digitTime)
         (DocumentInfo.revisions documents localRevisions "d")
  /\ map UserDocumentRevision.id
         (DocumentInfo.sorted Examples.digitTime documents localRevisions "d")
     = ["C"; "R"; "S"; "B"]
  /\ StronglySorted (DocumentInfo.notEarlier Examples.digitTime)
       (DocumentInfo.sorted Examples.digitTime documents localRevisions "d").
Proof.
  intros documents localRevisions.
  assert (Hreadable : Forall (DocumentInfo.readable Examples.digitTime)
                             (DocumentInfo.revisions documents localRevisions "d"))
    by (repeat constructor; discriminate).
  split; [exact Hreadable|]. split; [reflexivity|].
  destruct (merged_revisions_sorted_stably Examples.digitTime documents
              localRevisions "d") as (_ & _ & _ & _ & _ & Hsorted).
  exact (proj1 (Hsorted Hreadable)).
Defined.

(** C3, counterexample.  The same two cloud revisions, created at the same
    instant, come out in the order they went in, whichever that is: no order
    on ids decides between them, whatever the timestamps denote. *)
Lemma ties_are_not_broken_by_id :
  ~ exists (Date_getTime : string -> option Z) (before : string -> string -> Prop),
      (forall a b, before a b -> before b a -> False)
      /\ DocumentInfo.orderedWithTies Date_getTime before
           (DocumentInfo.sorted Date_getTime
              (Examples.cloudOnly [Examples.tiedA; Examples.tiedB]) [] "d")
      /\ DocumentInfo.orderedWithTies Date_getTime before
           (DocumentInfo.sorted Date_getTime
              (Examples.cloudOnly [Examples.tiedB; Examples.tiedA]) [] "d").
Proof.
  intros (Date_getTime & before & Hasym & Hab & Hba).
  assert (Hzero : sortCompare
                    (descending (DocumentInfo.time Date_getTime)
                       (UserDocumentRevision.Cloud Examples.tiedA)
                       (UserDocumentRevision.Cloud Examples.tiedB)) = 0%Z
                  /\ sortCompare
                       (descending (DocumentInfo.time Date_getTime)
                          (UserDocumentRevision.Cloud Examples.tiedB)
                          (UserDocumentRevision.Cloud Examples.tiedA)) = 0%Z).
  { unfold descending, DocumentInfo.time. cbn.
    destruct (Date_getTime "5"); cbn; [rewrite Z.sub_diag|]; auto. }
  destruct Hzero as [Hzab Hzba].
  assert (E1 : DocumentInfo.sorted Date_getTime
                 (Examples.cloudOnly [Examples.tiedA; Examples.tiedB]) [] "d"
               = [UserDocumentRevision.Cloud Examples.tiedA;
                  UserDocumentRevision.Cloud Examples.tiedB]).
  { cbn. unfold DocumentInfo.byCreatedAtDesc. now rewrite Hzab. }
  assert (E2 : DocumentInfo.sorted Date_getTime
                 (Examples.cloudOnly [Examples.tiedB; Examples.tiedA]) [] "d"
               = [UserDocumentRevision.Cloud Examples.tiedB;
                  UserDocumentRevision.Cloud Examples.tiedA]).
  { cbn. unfold DocumentInfo.byCreatedAtDesc. now rewrite Hzba. }
  unfold DocumentInfo.orderedWithTies in Hab, Hba.
  rewrite E1 in Hab. rewrite E2 in Hba.
  apply StronglySorted_inv in Hab as [_ Hab].
  apply StronglySorted_inv in Hba as [_ Hba].
  apply Forall_inv in Hab. apply Forall_inv in Hba.
  assert (Hnever : forall a b,
             UserDocumentRevision.createdAt a = UserDocumentRevision.createdAt b ->
             ~ DocumentInfo.later Date_getTime a b).
  { intros a b Hsame. unfold DocumentInfo.later, DocumentInfo.time.
    rewrite Hsame. destruct (Date_getTime _); [lia | tauto]. }
  destruct Hab as [Hab|[_ Hab]]; [now apply Hnever in Hab|].
  destruct Hba as [Hba|[_ Hba]]; [now apply Hnever in Hba|].
  exact (Hasym _ _ Hab Hba).
Qed.

(** ** EditDocumentInfo: the collaborator list *)

Section CollaboratorFacts.
Variable c : CloudDocument.t.

Lemma find_by_id (i : string) (acc : list User.t) :
  match Array_find (fun u => String.eqb (User.id u) i) acc with
  | Some _ => true
  | None => false
  end = existsb (String.eqb i) (map User.id acc).
Proof.
  unfold Array_find. induction acc as [|u acc IH]; simpl; [reflexivity|].
  rewrite (String.eqb_sym i). destruct (String.eqb (User.id u) i); simpl; auto.
Qed.

(** The reduction of lines 309-314 as filter-then-deduplicate. *)
Lemma fold_addCollaborator (revs : list CloudDocumentRevision.t)
      (acc : list User.t) :
  fold_left (EditDocumentInfo.addCollaborator c) revs acc
  = acc ++ EditDocumentInfo.firstById (map User.id acc)
             (filter (EditDocumentInfo.isOutsider c)
                     (map CloudDocumentRevision.author revs)).
Proof.
  unfold EditDocumentInfo.firstById.
  revert acc. induction revs as [|rev revs IH]; intros acc; simpl.
  - now rewrite app_nil_r.
  - rewrite IH. unfold EditDocumentInfo.addCollaborator.
    rewrite find_by_id.
    change (negb (String.eqb (User.id (CloudDocumentRevision.author rev))
                             (User.id (CloudDocument.author c)))
            && negb (Array_some
                       (fun u => String.eqb (User.id u)
                                   (User.id (CloudDocumentRevision.author rev)))
                       (CloudDocument.coauthors c)))
      with (EditDocumentInfo.isOutsider c (CloudDocumentRevision.author rev)).
    destruct (EditDocumentInfo.isOutsider c (CloudDocumentRevision.author rev));
      simpl; [|reflexivity].
    destruct (existsb _ (map User.id acc)); simpl; [reflexivity|].
    rewrite map_app, <- app_assoc. reflexivity.
Qed.

Lemma isOutsider_spec (u : User.t) :
  EditDocumentInfo.isOutsider c u = true
  <-> User.id u <> User.id (CloudDocument.author c)
      /\ ~ In (User.id u) (map User.id (CloudDocument.coauthors c)).
Proof.
  unfold EditDocumentInfo.isOutsider.
  rewrite andb_true_iff, !negb_true_iff, String.eqb_neq, existsb_false_forall.
  split; intros [Ha Hc]; split; try exact Ha.
  - intros Hin. apply in_map_iff in Hin as (x & Hx & Hin).
    apply Hc in Hin. apply String.eqb_neq in Hin. now apply Hin.
  - intros x Hx. apply String.eqb_neq. intros Heq. apply Hc.
    rewrite <- Heq. now apply in_map.
Qed.
End CollaboratorFacts.

(** C4 (as the code has it).  The collaborator list is derived only for a
    document that is published as well as collaborative, and is empty for any
    other: there it is the list of revision authors who are neither the
    document's author nor a coauthor, one entry per user id, in the order of
    their first revision.  For author U1, coauthors [U2] and revisions by
    U1, U2, U3, U3, U1 of a published collaborative document it is [U3]. *)
Theorem collaborators_of_published_collab (c : CloudDocument.t) :
  EditDocumentInfo.collaborators c
  = (if CloudDocument.published c && CloudDocument.collab c
     then EditDocumentInfo.collaborators_spec c
     else [])
  /\ (forall i,
        In i (map User.id (EditDocumentInfo.collaborators_spec c))
        <-> exists rev,
              In rev (CloudDocument.revisions c)
              /\ User.id (CloudDocumentRevision.author rev) = i
              /\ i <> User.id (CloudDocument.author c)
              /\ ~ In i (map User.id (CloudDocument.coauthors c)))
  /\ NoDup (map User.id (EditDocumentInfo.collaborators_spec c))
  /\ EditDocumentInfo.collaborators
       (Examples.cloudDoc "d" "B" true true Examples.fiveRevisions)
     = [Examples.U "U3"].
Proof.
  split; [|split; [|split]].
  - unfold EditDocumentInfo.collaborators, EditDocumentInfo.isCollab,
      EditDocumentInfo.isPublished.
    destruct (CloudDocument.published c && CloudDocument.collab c); [|reflexivity].
    rewrite fold_addCollaborator. reflexivity.
  - intros i. unfold EditDocumentInfo.collaborators_spec, EditDocumentInfo.firstById.
    pose proof (firstOccurrences_keys User.id []
                  (filter (EditDocumentInfo.isOutsider c)
                          (map CloudDocumentRevision.author (CloudDocument.revisions c)))
                  i) as Hkeys.
    simpl in Hkeys.
    assert (Hiff : forall P Q : Prop, (False \/ P <-> False \/ Q) -> (P <-> Q))
      by tauto.
    apply Hiff in Hkeys. rewrite Hkeys. clear Hkeys Hiff.
    rewrite in_map_iff. split.
    + intros (u & <- & Hu). apply filter_In in Hu as [Hu Hout].
      apply in_map_iff in Hu as (rev & <- & Hrev).
      apply isOutsider_spec in Hout as [Ha Hc].
      exists rev. auto.
    + intros (rev & Hrev & <- & Ha & Hc).
      exists (CloudDocumentRevision.author rev). split; [reflexivity|].
      apply filter_In. split; [now apply in_map|].
      apply isOutsider_spec. auto.
  - unfold EditDocumentInfo.collaborators_spec, EditDocumentInfo.firstById.
    apply (firstOccurrences_NoDup User.id [] _ (NoDup_nil _)).
  - reflexivity.
Qed.

(** C4, counterexample.  A collaborative document that is not published:
    U3 wrote two of its revisions and is neither author nor coauthor, yet the
    list of collaborators is empty. *)
Lemma unpublished_collab_lists_no_collaborators :
  let c := Examples.cloudDoc "d" "B" false true Examples.fiveRevisions in
  CloudDocument.collab c = true
  /\ EditDocumentInfo.collaborators_spec c = [Examples.U "U3"]
  /\ EditDocumentInfo.collaborators c = []
  /\ EditDocumentInfo.collaborators c <> EditDocumentInfo.collaborators_spec c.
Proof.
  repeat split; discriminate.
Qed.

(** ** The reference codec reads back what it writes *)

Lemma length_append (s t : string) :
  String.length (s ++ t)%string = (String.length s + String.length t)%nat.
Proof. induction s; simpl; auto. Qed.

Lemma append_assoc (s t u : string) : ((s ++ t) ++ u = s ++ (t ++ u))%string.
Proof. induction s; simpl; congruence. Qed.

Lemma parseChars_escapeChar (c : ascii) (t : string) :
  JSONText.parseChars (JSONText.escapeChar c ++ t)%string
  = match JSONText.parseChars t with
    | Some (u, rest) => Some (String c u, rest)
    | None => None
    end.
Proof.
  destruct c as [[] [] [] [] [] [] [] []]; reflexivity.
Qed.

Lemma parseChars_escape (s rest : string) :
  JSONText.parseChars (JSONText.escape s ++ String JSONText.quoteChar rest)%string
  = Some (s, rest).
Proof.
  induction s as [|c s IH]; [reflexivity|].
  cbn [JSONText.escape]. rewrite append_assoc, parseChars_escapeChar, IH.
  reflexivity.
Qed.

(** digits *)
Lemma spanDigits_uint (d : Decimal.uint) (rest : string) :
  JSONText.spanDigits rest = (EmptyString, rest) ->
  JSONText.spanDigits (NilEmpty.string_of_uint d ++ rest)%string
  = (NilEmpty.string_of_uint d, rest).
Proof.
  intros Hrest. induction d; simpl; rewrite ?IHd; auto.
Qed.

Lemma delimited_spanDigits rest :
  JSONText.delimited rest -> JSONText.spanDigits rest = (EmptyString, rest).
Proof.
  destruct rest as [|c rest]; [reflexivity|].
  simpl. intros [->|[->| ->]]; reflexivity.
Qed.

Lemma delimited_startsFraction rest :
  JSONText.delimited rest -> JSONText.startsFraction rest = false.
Proof.
  destruct rest as [|c rest]; [reflexivity|].
  simpl. intros [->|[->| ->]]; reflexivity.
Qed.

Lemma parseNumber_uint (d : Decimal.uint) (rest : string) :
  JSONText.delimited rest ->
  JSONText.parseNumber (NilZero.string_of_uint d ++ rest)%string
  = Some (Z.of_uint d, rest).
Proof.
  intros Hrest.
  assert (Hd : exists d', NilZero.string_of_uint d = NilEmpty.string_of_uint d'
                          /\ d' <> Decimal.Nil /\ Z.of_uint d' = Z.of_uint d).
  { destruct d; try (eexists; split; [reflexivity | split; [discriminate | reflexivity]]).
    exists (Decimal.D0 Decimal.Nil). split; [reflexivity | split; [discriminate | reflexivity]]. }
  destruct Hd as (d' & -> & Hnn & <-).
  unfold JSONText.parseNumber.
  assert (Hminus : JSONText.startsWith "-" (NilEmpty.string_of_uint d' ++ rest)%string = None).
  { destruct d'; try reflexivity. now destruct Hnn. }
  rewrite Hminus, (spanDigits_uint _ _ (delimited_spanDigits _ Hrest)).
  cbv beta iota.
  destruct (NilEmpty.string_of_uint d') as [|a s0] eqn:Hs.
  - destruct d'; try discriminate Hs. now destruct Hnn.
  - rewrite <- Hs, NilEmpty.usu, (delimited_startsFraction _ Hrest). reflexivity.
Qed.

Lemma parseNumber_decimal (n : Z) (rest : string) :
  JSONText.delimited rest ->
  JSONText.parseNumber (JS.decimal n ++ rest)%string = Some (n, rest).
Proof.
  intros Hrest. unfold JS.decimal.
  pose proof (DecimalZ.of_to n) as Hof.
  destruct (Z.to_int n) as [d|d]; simpl in Hof.
  - cbn [NilZero.string_of_int]. rewrite parseNumber_uint by assumption.
    now rewrite Hof.
  - cbn [NilZero.string_of_int].
    pose proof (parseNumber_uint d rest Hrest) as Hu.
    unfold JSONText.parseNumber in *.
    change (JSONText.startsWith "-" (String "-" (NilZero.string_of_uint d) ++ rest)%string)
      with (Some (NilZero.string_of_uint d ++ rest)%string).
    assert (Hminus : JSONText.startsWith "-" (NilZero.string_of_uint d ++ rest)%string = None).
    { destruct d; reflexivity. }
    rewrite Hminus in Hu. cbv beta iota in Hu |- *.
    destruct (JSONText.spanDigits (NilZero.string_of_uint d ++ rest)%string) as [ds r].
    destruct ds; [discriminate|].
    destruct (NilEmpty.uint_of_string (String a ds)); [|discriminate].
    destruct (JSONText.startsFraction r); [discriminate|].
    injection Hu as Hu ->. now rewrite Hu, Hof.
Qed.


Lemma decimal_head (n : Z) :
  exists c t, JS.decimal n = String c t
              /\ (JSONText.isDigit c = true \/ c = "-"%char).
Proof.
  unfold JS.decimal. destruct (Z.to_int n) as [d|d]; cbn [NilZero.string_of_int].
  - destruct d; cbn; eexists _, _; (split; [reflexivity|]); left; reflexivity.
  - eexists _, _. split; [reflexivity|]. now right.
Qed.

Lemma number_head (c : ascii) :
  JSONText.isDigit c = true \/ c = "-"%char ->
  JSONText.valueHead c
  /\ Ascii.eqb c "[" = false /\ Ascii.eqb c "{" = false
  /\ Ascii.eqb c JSONText.quoteChar = false
  /\ Ascii.eqb c "t" = false /\ Ascii.eqb c "f" = false /\ Ascii.eqb c "n" = false.
Proof.
  unfold JSONText.valueHead.
  intros [Hd| ->]; [|repeat split].
  destruct c as [[] [] [] [] [] [] [] []]; try discriminate Hd; repeat split.
Qed.

Lemma stringify_head (v : JSON) :
  exists c t, JSONText.stringify v = String c t /\ JSONText.valueHead c.
Proof.
  destruct v as [|[]|n|s|l|m]; cbn [JSONText.stringify];
    try (eexists _, _; split; [reflexivity | repeat split]).
  destruct (decimal_head n) as (c & t & -> & Hc).
  exists c, t. split; [reflexivity|]. now apply number_head.
Qed.

Lemma skipWhitespace_head (c : ascii) (s : string) :
  JSONText.isWhitespace c = false ->
  JSONText.skipWhitespace (String c s) = String c s.
Proof. intros H. cbn [JSONText.skipWhitespace]. now rewrite H. Qed.

Lemma parseValue_number (fuel : nat) (n : Z) (rest : string) :
  JSONText.delimited rest ->
  JSONText.parseValue (S fuel) (JS.decimal n ++ rest)%string = Some (JNumber n, rest).
Proof.
  intros Hrest.
  pose proof (parseNumber_decimal n rest Hrest) as Hnum.
  destruct (decimal_head n) as (c & t & Heq & Hc).
  rewrite Heq in *. cbn [append] in *.
  destruct (number_head c Hc) as ((Hws & _ & _) & H1 & H2 & H3 & H4 & H5 & H6).
  cbn [JSONText.parseValue]. rewrite (skipWhitespace_head _ _ Hws).
  rewrite H1, H2, H3, H4, H5, H6, Hnum. reflexivity.
Qed.

Lemma setMember_fresh (k : string) (v : JSON) (m : list (string * JSON)) :
  ~ In k (map fst m) -> JSONText.setMember k v m = m ++ [(k, v)].
Proof.
  induction m as [|[k' v'] m IH]; simpl; intros Hfresh; [reflexivity|].
  destruct (String.eqb_spec k' k) as [->|Hne]; [tauto|].
  rewrite IH; tauto.
Qed.

Lemma join_cons (x : string) (l : list string) :
  l <> [] -> JS.join "," (x :: l) = (x ++ "," ++ JS.join "," l)%string.
Proof. destruct l; [congruence | reflexivity]. Qed.

Lemma startsWith_same (c : ascii) (s : string) :
  JSONText.isWhitespace c = false ->
  JSONText.startsWith c (JSONText.skipWhitespace (String c s)) = Some s.
Proof.
  intros Hws. rewrite (skipWhitespace_head _ _ Hws).
  cbn [JSONText.startsWith]. now rewrite Ascii.eqb_refl.
Qed.

Lemma startsWith_other (c d : ascii) (s : string) :
  JSONText.isWhitespace d = false -> Ascii.eqb d c = false ->
  JSONText.startsWith c (JSONText.skipWhitespace (String d s)) = None.
Proof.
  intros Hws Hne. rewrite (skipWhitespace_head _ _ Hws).
  cbn [JSONText.startsWith]. now rewrite Hne.
Qed.

Lemma parseElements_join (l : list JSON) :
  l <> [] -> Forall JSONText.readsBack l ->
  forall fuel rest,
    (fold_right (fun x n => S (JSONText.fuelFor x + n)) 0 l <= fuel)%nat ->
    JSONText.parseElements fuel
      (JS.join "," (map JSONText.stringify l) ++ String "]" rest)%string
    = Some (l, rest).
Proof.
  induction l as [|x l IH]; [congruence|].
  intros _ Hall fuel rest Hfuel.
  apply Forall_cons_iff in Hall as [Hx Hl].
  cbn [fold_right] in Hfuel.
  destruct fuel as [|fuel]; [lia|].
  cbn [JSONText.parseElements].
  destruct l as [|y l].
  - change (JS.join "," (map JSONText.stringify [x])) with (JSONText.stringify x).
    rewrite (Hx fuel (String "]" rest)); [| lia | cbn; auto].
    rewrite startsWith_other, startsWith_same by reflexivity. reflexivity.
  - cbn [map]. rewrite join_cons by discriminate.
    rewrite !append_assoc. cbn [append].
    rewrite (Hx fuel); [| lia | cbn; auto].
    rewrite startsWith_same by reflexivity.
    change (JSONText.stringify y :: map JSONText.stringify l)
      with (map JSONText.stringify (y :: l)).
    rewrite IH; [reflexivity | discriminate | exact Hl | lia].
Qed.

Lemma quote_append (k rest : string) :
  (JSONText.quote k ++ rest)%string
  = String JSONText.quoteChar
      (JSONText.escape k ++ String JSONText.quoteChar rest)%string.
Proof.
  unfold JSONText.quote. cbn [append]. now rewrite append_assoc.
Qed.

Lemma parseMembers_join (m : list (string * JSON)) :
  m <> [] -> Forall (fun kv => JSONText.readsBack (snd kv)) m ->
  forall fuel acc rest,
    NoDup (map fst (acc ++ m)) ->
    (fold_right (fun kv n => S (JSONText.fuelFor (snd kv) + n)) 0 m <= fuel)%nat ->
    JSONText.parseMembers fuel acc
      (JS.join ","
         (map (fun kv => JSONText.quote (fst kv) ++ ":" ++ JSONText.stringify (snd kv))
              m)
       ++ String "}" rest)%string
    = Some (acc ++ m, rest).
Proof.
  induction m as [|[k x] m IH]; [congruence|].
  intros _ Hall fuel acc rest Hnodup Hfuel.
  apply Forall_cons_iff in Hall as [Hx Hm]. cbn [snd] in Hx.
  cbn [fold_right snd] in Hfuel.
  destruct fuel as [|fuel]; [lia|].
  assert (Hfresh : ~ In k (map fst acc)).
  { rewrite map_app in Hnodup. cbn [map fst] in Hnodup.
    apply NoDup_remove_2 in Hnodup. rewrite in_app_iff in Hnodup. tauto. }
  cbn [JSONText.parseMembers].
  destruct m as [|kv m].
  - change (JS.join "," (map (fun kv => JSONText.quote (fst kv) ++ ":"
                                        ++ JSONText.stringify (snd kv)) [(k, x)]))%string
      with (JSONText.quote k ++ ":" ++ JSONText.stringify x)%string.
    rewrite !append_assoc, quote_append.
    rewrite startsWith_same by reflexivity.
    rewrite parseChars_escape. cbn [append].
    rewrite startsWith_same by reflexivity.
    rewrite (Hx fuel (String "}" rest)); [| lia | cbn; auto].
    rewrite startsWith_other, startsWith_same by reflexivity.
    now rewrite setMember_fresh.
  - cbn [map fst snd]. rewrite join_cons by discriminate.
    rewrite !append_assoc, quote_append.
    rewrite startsWith_same by reflexivity.
    rewrite parseChars_escape. cbn [append].
    rewrite startsWith_same by reflexivity.
    rewrite (Hx fuel); [| lia | cbn; auto].
    rewrite startsWith_same by reflexivity.
    rewrite setMember_fresh by exact Hfresh.
    change ((JSONText.quote (fst kv) ++ ":" ++ JSONText.stringify (snd kv))%string
            :: map (fun kv0 => JSONText.quote (fst kv0) ++ ":"
                               ++ JSONText.stringify (snd kv0))%string m)
      with (map (fun kv0 => JSONText.quote (fst kv0) ++ ":"
                            ++ JSONText.stringify (snd kv0))%string (kv :: m)).
    rewrite IH; [| discriminate | exact Hm | | lia].
    + now rewrite <- app_assoc.
    + now rewrite <- app_assoc.
Qed.

Lemma wellFormed_array (l : list JSON) :
  JSONText.wellFormed (JArray l) <-> Forall JSONText.wellFormed l.
Proof.
  cbn [JSONText.wellFormed].
  induction l as [|x l IH]; cbn [fold_right].
  - split; constructor.
  - rewrite Forall_cons_iff, IH. reflexivity.
Qed.

Lemma wellFormed_object (m : list (string * JSON)) :
  JSONText.wellFormed (JObject m)
  <-> NoDup (map fst m) /\ Forall (fun kv => JSONText.wellFormed (snd kv)) m.
Proof.
  cbn [JSONText.wellFormed].
  assert (H : fold_right (fun kv P => JSONText.wellFormed (snd kv) /\ P) True m
              <-> Forall (fun kv => JSONText.wellFormed (snd kv)) m).
  { induction m as [|kv m IH]; cbn [fold_right].
    - split; constructor.
    - rewrite Forall_cons_iff, IH. reflexivity. }
  now rewrite H.
Qed.

Lemma parseValue_stringify (v : JSON) :
  JSONText.wellFormed v -> JSONText.readsBack v.
Proof.
  induction v as [|b|n|s|l IH|m IH] using JSON_nested_ind;
    intros Hwf fuel rest Hfuel Hrest;
    (destruct fuel as [|fuel]; [cbn in Hfuel; lia|]).
  - reflexivity.
  - destruct b; reflexivity.
  - now apply parseValue_number.
  - cbn [JSONText.stringify]. rewrite quote_append.
    cbn [JSONText.parseValue].
    rewrite skipWhitespace_head by reflexivity.
    change (Ascii.eqb JSONText.quoteChar "[") with false.
    change (Ascii.eqb JSONText.quoteChar "{") with false.
    change (Ascii.eqb JSONText.quoteChar JSONText.quoteChar) with true.
    cbv iota. now rewrite parseChars_escape.
  - apply wellFormed_array in Hwf.
    assert (Hall : Forall JSONText.readsBack l).
    { rewrite Forall_forall in *. auto. }
    cbn [JSONText.stringify JSONText.fuelFor] in *.
    cbn [append]. cbn [JSONText.parseValue].
    rewrite skipWhitespace_head by reflexivity.
    change (Ascii.eqb "[" "[") with true. cbv iota.
    destruct l as [|x l].
    + reflexivity.
    + destruct (stringify_head x) as (c & t & Hhead & Hws & Hclose & _).
      assert (Hstart : JSONText.startsWith "]"
                (JSONText.skipWhitespace
                   ((JS.join "," (map JSONText.stringify (x :: l)) ++ "]") ++ rest)%string)
              = None).
      { cbn [map]. destruct l.
        - change (JS.join "," [JSONText.stringify x]) with (JSONText.stringify x).
          rewrite Hhead. cbn [append]. now apply startsWith_other.
        - rewrite join_cons by discriminate.
          rewrite Hhead. cbn [append]. now apply startsWith_other. }
      rewrite Hstart, append_assoc. cbn [append].
      rewrite parseElements_join; [reflexivity | discriminate | exact Hall | lia].
  - apply wellFormed_object in Hwf as [Hnodup Hwf].
    assert (Hall : Forall (fun kv => JSONText.readsBack (snd kv)) m).
    { rewrite Forall_forall in *. auto. }
    cbn [JSONText.stringify JSONText.fuelFor] in *.
    set (body := JS.join "," _).
    cbn [append]. cbn [JSONText.parseValue].
    rewrite skipWhitespace_head by reflexivity.
    change (Ascii.eqb "{" "[") with false.
    change (Ascii.eqb "{" "{") with true. cbv iota.
    subst body.
    destruct m as [|[k x] m].
    + reflexivity.
    + assert (Hstart : JSONText.startsWith "}"
                (JSONText.skipWhitespace
                   ((JS.join ","
                       (map (fun kv => JSONText.quote (fst kv) ++ ":"
                                       ++ JSONText.stringify (snd kv))%string
                            ((k, x) :: m)) ++ "}") ++ rest)%string)
              = None).
      { cbn [map fst snd]. destruct m.
        - change (JS.join "," [(JSONText.quote k ++ ":" ++ JSONText.stringify x)%string])
            with (JSONText.quote k ++ ":" ++ JSONText.stringify x)%string.
          rewrite !append_assoc, quote_append. now apply startsWith_other.
        - rewrite join_cons by discriminate.
          rewrite !append_assoc, quote_append. now apply startsWith_other. }
      rewrite Hstart, append_assoc. cbn [append].
      rewrite (parseMembers_join ((k, x) :: m));
        [reflexivity | discriminate | exact Hall | exact Hnodup | lia].
Qed.

Lemma append_empty (s : string) : (s ++ "")%string = s.
Proof. induction s; simpl; congruence. Qed.

Lemma fuelElements_length (texts : list string) (fuels : list nat) :
  Forall2 (fun f t => f <= 2 * String.length t)%nat fuels texts ->
  (fold_right (fun f n => S (f + n)) 0 fuels
   <= 2 * String.length (JS.join "," texts) + 1)%nat.
Proof.
  induction 1 as [|f t fuels texts Hft Hall IH]; [cbn; lia|].
  cbn [fold_right].
  destruct Hall as [|f' t' fuels texts Hft' Hall].
  - cbn. lia.
  - rewrite join_cons by discriminate.
    rewrite !length_append. cbn [String.length] in *. lia.
Qed.

Lemma fuel_map {A : Type} (g : A -> nat) (l : list A) :
  fold_right (fun x n => S (g x + n)) 0%nat l
  = fold_right (fun f n => S (f + n)) 0%nat (map g l).
Proof. induction l; simpl; congruence. Qed.

Lemma fuelFor_length (v : JSON) :
  (JSONText.fuelFor v <= 2 * String.length (JSONText.stringify v))%nat.
Proof.
  induction v as [|b|n|s|l IH|m IH] using JSON_nested_ind.
  - cbn. lia.
  - destruct b; cbn; lia.
  - cbn [JSONText.stringify JSONText.fuelFor].
    destruct (decimal_head n) as (c & t & -> & _). cbn. lia.
  - cbn. lia.
  - cbn [JSONText.stringify JSONText.fuelFor].
    rewrite !length_append. cbn [String.length].
    assert (H : (fold_right (fun x n => S (JSONText.fuelFor x + n)) 0 l
                 <= 2 * String.length (JS.join "," (map JSONText.stringify l)) + 1)%nat).
    { rewrite (fuel_map JSONText.fuelFor).
      apply fuelElements_length.
      induction IH; cbn [map]; constructor; auto. }
    lia.
  - cbn [JSONText.stringify JSONText.fuelFor].
    rewrite !length_append. cbn [String.length].
    assert (H : (fold_right (fun kv n => S (JSONText.fuelFor (snd kv) + n)) 0 m
                 <= 2 * String.length
                          (JS.join ","
                             (map (fun kv => JSONText.quote (fst kv) ++ ":"
                                             ++ JSONText.stringify (snd kv))%string m))
                    + 1)%nat).
    { rewrite (fuel_map (fun kv => JSONText.fuelFor (snd kv))).
      apply fuelElements_length.
      induction IH as [|kv m Hkv _ IHm]; cbn [map]; constructor; auto.
      rewrite !length_append. lia. }
    lia.
Qed.

(** The reference codec reads back what it writes: every well-formed value is
    the result of parsing its own text. *)
Theorem parse_stringify (v : JSON) :
  JSONText.wellFormed v -> JSONText.parse (JSONText.stringify v) = Some v.
Proof.
  intros Hwf. unfold JSONText.parse.
  pose proof (parseValue_stringify v Hwf
                (2 * String.length (JSONText.stringify v) + 2) EmptyString) as H.
  rewrite append_empty in H. rewrite H; [reflexivity | | exact I].
  pose proof (fuelFor_length v). lia.
Qed.

(** ** Documents: import and export *)

Lemma bind_normal {A B : Type} (a : A) (k : A -> Documents.M B) :
  Documents.bind (Documents.lift (JS.Normal a)) k = k a.
Proof.
  unfold Documents.bind, Documents.lift. now destruct (k a).
Qed.

Lemma bind_ret {A B : Type} (a : A) (k : A -> Documents.M B) :
  Documents.bind (Documents.ret a) k = k a.
Proof.
  unfold Documents.bind, Documents.ret. now destruct (k a).
Qed.

Lemma bind_effects {A B : Type} (es : list Documents.Effect) (a : A)
      (k : A -> Documents.M B) :
  Documents.bind (es, JS.Normal a) k = (es ++ fst (k a), snd (k a)).
Proof.
  unfold Documents.bind. now destruct (k a).
Qed.

Lemma getProperty_nonnull (v : JSON) (k : string) :
  Documents.isNull v = false ->
  JS.getProperty v k = JS.Normal (JS.prop v k).
Proof.
  unfold JS.prop. destruct v; simpl; intros H; try reflexivity; discriminate.
Qed.

Lemma validId_nonnull (v : JSON) :
  Documents.validId v = true -> Documents.isNull v = false.
Proof.
  destruct v; simpl; intros H; try reflexivity; discriminate.
Qed.

Lemma validId_inv (v : JSON) :
  Documents.validId v = true ->
  exists i, JS.prop v "id" = Some (JString i) /\ uuid.test i = true.
Proof.
  unfold Documents.validId, uuid.validate.
  destruct (JS.prop v "id") as [[| | |i| |]|]; try discriminate.
  intros H. now exists i.
Qed.

Lemma refused_valid (documents : list UserDocument.t) (v : JSON) :
  Documents.validId v = false -> Documents.refused documents v = false.
Proof.
  intros H. unfold Documents.refused. now rewrite H.
Qed.

Section DocumentsFacts.
Variable JSON_parse : string -> option JSON.
Variable JSON_stringify : JSON -> string.
Variable documents : list UserDocument.t.

Lemma findLocal_nonnull (document : JSON) (ds : list UserDocument.t) :
  Documents.isNull document = false ->
  Documents.findLocal document ds
  = Documents.ret (Documents.collides ds document).
Proof.
  intros Hnn. unfold Documents.collides.
  induction ds as [|d ds IH]; [reflexivity|].
  cbn [Documents.findLocal existsb].
  rewrite (getProperty_nonnull _ _ Hnn), bind_normal, IH.
  now destruct (JS.string_strict_eq _ _ && Documents.hasLocal d).
Qed.

(** Lines 75-87 for a document whose id is a string: one dispatch, or one
    alert, or the exception of a name that cannot be converted. *)
Lemma addDocument_string_id (document : JSON) (navigateTo : bool) (i : string) :
  JS.prop document "id" = Some (JString i) ->
  Documents.addDocument JSON_stringify documents document navigateTo
  = if Documents.collides documents document
    then match JS.template (JS.prop document "name") with
         | JS.Normal shown =>
             ([ Documents.alert
                  "Document already exists"
                  ("Do you want to overwrite " ++ shown ++ "?")%string
                  {| Documents.action :=
                       Documents.updateLocalDocument i (JSON_stringify document);
                     Documents.thenNavigate :=
                       if navigateTo then Some ("/edit/" ++ i)%string else None |} ],
              JS.Normal tt)
         | JS.Throw => ([], JS.Throw)
         end
    else ([ Documents.perform
              {| Documents.action := Documents.createLocalDocument document;
                 Documents.thenNavigate :=
                   if navigateTo then Some ("/edit/" ++ i)%string else None |} ],
          JS.Normal tt).
Proof.
  intros Hid.
  assert (Hnn : Documents.isNull document = false).
  { destruct document; try reflexivity. discriminate Hid. }
  assert (Hnav : Documents.navigation document navigateTo
                 = if navigateTo then Some ("/edit/" ++ i)%string else None).
  { unfold Documents.navigation.
    now rewrite (getProperty_nonnull _ _ Hnn), Hid. }
  unfold Documents.addDocument.
  rewrite (findLocal_nonnull _ _ Hnn), bind_ret, Hnav.
  destruct (Documents.collides documents document); [|reflexivity].
  rewrite !(getProperty_nonnull _ _ Hnn), bind_normal.
  destruct (JS.template (JS.prop document "name")) as [shown|]; [|reflexivity].
  rewrite !bind_normal, Hid. reflexivity.
Qed.

(** A document with a valid id either cannot be offered for overwrite, and
    then nothing is done and the call throws, or it leaves one effect. *)
Lemma addDocument_refused (document : JSON) (navigateTo : bool) :
  Documents.validId document = true ->
  Documents.refused documents document = true ->
  Documents.addDocument JSON_stringify documents document navigateTo
  = ([], JS.Throw).
Proof.
  intros Hvalid Hrefused.
  destruct (validId_inv _ Hvalid) as (i & Hid & _).
  rewrite (addDocument_string_id _ _ _ Hid).
  unfold Documents.refused, Documents.printable in Hrefused.
  rewrite Hvalid in Hrefused. cbn [andb] in Hrefused.
  destruct (Documents.collides documents document); [|discriminate].
  destruct (JS.template (JS.prop document "name")); [discriminate | reflexivity].
Qed.

Lemma addDocument_accepted (document : JSON) (navigateTo : bool) :
  Documents.validId document = true ->
  Documents.refused documents document = false ->
  exists e,
    Documents.addDocument JSON_stringify documents document navigateTo
    = ([e], JS.Normal tt)
    /\ Documents.notices [e] = []
    /\ match e with
       | Documents.perform d =>
           d = {| Documents.action := Documents.createLocalDocument document;
                  Documents.thenNavigate :=
                    Documents.navigation document navigateTo |}
           /\ Documents.collides documents document = false
       | Documents.alert title _ d =>
           title = "Document already exists"
           /\ d = {| Documents.action :=
                       Documents.updateLocalDocument
                         match JS.prop document "id" with
                         | Some (JString i) => i
                         | _ => ""
                         end
                         (JSON_stringify document);
                     Documents.thenNavigate :=
                       Documents.navigation document navigateTo |}
           /\ Documents.collides documents document = true
       | Documents.announce _ _ => False
       end.
Proof.
  intros Hvalid Hrefused.
  destruct (validId_inv _ Hvalid) as (i & Hid & _).
  assert (Hnav : Documents.navigation document navigateTo
                 = if navigateTo then Some ("/edit/" ++ i)%string else None).
  { unfold Documents.navigation.
    now rewrite (getProperty_nonnull _ _ (validId_nonnull _ Hvalid)), Hid. }
  rewrite (addDocument_string_id _ _ _ Hid), Hnav, Hid.
  unfold Documents.refused, Documents.printable in Hrefused.
  rewrite Hvalid in Hrefused. cbn [andb] in Hrefused.
  destruct (Documents.collides documents document).
  - destruct (JS.template (JS.prop document "name")) as [shown|];
      [|discriminate].
    eexists. split; [reflexivity|]. cbn. auto.
  - eexists. split; [reflexivity|]. cbn. auto.
Qed.

(** The loop of lines 65-67. *)
Lemma forEach_values (values : list JSON) :
  Documents.forEach values
    (fun document =>
       Documents.bind (Documents.lift (JS.getProperty document "id"))
         (fun id =>
            if uuid.validate id
            then Documents.addDocument JSON_stringify documents document false
            else Documents.ret tt))
  = (Documents.importAll JSON_stringify documents
       (Documents.untilStop documents values),
     if existsb (Documents.stops documents) values
     then JS.Throw
     else JS.Normal tt).
Proof.
  unfold Documents.importAll.
  induction values as [|v values IH]; [reflexivity|].
  cbn [Documents.forEach Documents.untilStop existsb].
  destruct (Documents.isNull v) eqn:Hnull.
  - assert (Hstops : Documents.stops documents v = true)
      by (unfold Documents.stops; now rewrite Hnull).
    rewrite Hstops. destruct v; try discriminate. reflexivity.
  - rewrite (getProperty_nonnull _ _ Hnull), bind_normal, IH.
    fold (Documents.validId v).
    destruct (Documents.validId v) eqn:Hvalid.
    + destruct (Documents.refused documents v) eqn:Hrefused.
      * assert (Hstops : Documents.stops documents v = true)
          by (unfold Documents.stops; rewrite Hrefused; apply orb_true_r).
        now rewrite Hstops, (addDocument_refused _ _ Hvalid Hrefused).
      * assert (Hstops : Documents.stops documents v = false)
          by (unfold Documents.stops; now rewrite Hnull, Hrefused).
        destruct (addDocument_accepted v false Hvalid Hrefused)
          as (e & He & _).
        rewrite Hstops, He, bind_effects. cbn [filter fst snd orb].
        rewrite Hvalid. cbn [flat_map]. rewrite He. reflexivity.
    + assert (Hstops : Documents.stops documents v = false).
      { unfold Documents.stops.
        now rewrite Hnull, (refused_valid _ _ Hvalid). }
      rewrite Hstops, bind_ret. cbn [filter orb]. now rewrite Hvalid.
Qed.

(** Lines 57-73, case by case. *)
Lemma tryParseFile_cases (content : string) :
  match JSON_parse content with
  | None =>
      Documents.tryParseFile JSON_parse JSON_stringify documents content
      = ([Documents.invalidFile], None)
  | Some data =>
      if Documents.isNull data
      then Documents.tryParseFile JSON_parse JSON_stringify documents content
           = ([Documents.invalidFile], None)
      else if Documents.validId data
      then Documents.tryParseFile JSON_parse JSON_stringify documents content
           = (fst (Documents.addDocument JSON_stringify documents data true)
              ++ (if Documents.refused documents data
                  then [Documents.invalidFile]
                  else []),
              Some data)
      else exists values,
          JS.Object_values data = JS.Normal values
          /\ Documents.tryParseFile JSON_parse JSON_stringify documents content
             = (Documents.importAll JSON_stringify documents
                  (Documents.untilStop documents values)
                ++ (if existsb (Documents.stops documents) values
                    then [Documents.invalidFile]
                    else []),
                None)
  end.
Proof.
  unfold Documents.tryParseFile, Documents.tryBody.
  destruct (JSON_parse content) as [data|]; [|reflexivity].
  destruct (Documents.isNull data) eqn:Hnull.
  - destruct data; try discriminate. reflexivity.
  - rewrite (getProperty_nonnull _ _ Hnull).
    fold (Documents.validId data).
    destruct (Documents.validId data) eqn:Hvalid.
    + destruct (Documents.refused documents data) eqn:Hrefused.
      * now rewrite (addDocument_refused _ _ Hvalid Hrefused).
      * destruct (addDocument_accepted data true Hvalid Hrefused)
          as (e & -> & _).
        reflexivity.
    + assert (Hvalues : exists values, JS.Object_values data = JS.Normal values).
      { destruct data; try discriminate; eexists; reflexivity. }
      destruct Hvalues as [values Hvalues]. exists values.
      split; [exact Hvalues|].
      rewrite Hvalues, bind_normal, forEach_values.
      destruct (existsb (Documents.stops documents) values);
        [reflexivity | now rewrite app_nil_r].
Qed.

(** Every effect of an import is the notice or the one effect of a document
    with a valid id that could be imported. *)
Lemma importAll_in (values : list JSON) (e : Documents.Effect) :
  In e (Documents.importAll JSON_stringify documents values) ->
  exists v, In v values /\ Documents.validId v = true
            /\ Documents.refused documents v = false
            /\ Documents.addDocument JSON_stringify documents v false
               = ([e], JS.Normal tt).
Proof.
  unfold Documents.importAll. intros He.
  apply in_flat_map in He as (v & Hv & He).
  apply filter_In in Hv as [Hv Hvalid]. exists v.
  destruct (Documents.refused documents v) eqn:Hrefused.
  - rewrite (addDocument_refused _ _ Hvalid Hrefused) in He. destruct He.
  - destruct (addDocument_accepted v false Hvalid Hrefused) as (e' & He' & _).
    rewrite He' in He. destruct He as [<-|[]]. auto.
Qed.

Lemma effects_origin (content : string) (e : Documents.Effect) :
  In e (fst (Documents.tryParseFile JSON_parse JSON_stringify documents content)) ->
  e = Documents.invalidFile
  \/ (exists v, Documents.validId v = true
                /\ Documents.refused documents v = false
                /\ Documents.addDocument JSON_stringify documents v false
                   = ([e], JS.Normal tt))
  \/ (exists data, JSON_parse content = Some data
                   /\ Documents.validId data = true
                   /\ Documents.refused documents data = false
                   /\ Documents.addDocument JSON_stringify documents data true
                      = ([e], JS.Normal tt)
                   /\ Documents.tryParseFile JSON_parse JSON_stringify
                        documents content
                      = ([e], Some data)).
Proof.
  pose proof (tryParseFile_cases content) as Hcases.
  destruct (JSON_parse content) as [data|].
  - destruct (Documents.isNull data).
    + rewrite Hcases. intros [<-|[]]. now left.
    + destruct (Documents.validId data) eqn:Hvalid.
      * rewrite Hcases. cbn [fst].
        destruct (Documents.refused documents data) eqn:Hrefused.
        -- rewrite (addDocument_refused _ _ Hvalid Hrefused).
           intros [<-|[]]. now left.
        -- destruct (addDocument_accepted data true Hvalid Hrefused)
             as (e' & He' & _).
           rewrite He'. cbn [fst]. rewrite app_nil_r. intros [<-|[]].
           right. right. exists data. auto.
      * destruct Hcases as (values & _ & ->). cbn [fst].
        rewrite in_app_iff. intros [He|He].
        -- right. left. apply importAll_in in He as (v & _ & Hv & Hr & He).
           now exists v.
        -- left. destruct (existsb (Documents.stops documents) values);
             [destruct He as [<-|[]]; reflexivity | destruct He].
  - rewrite Hcases. intros [<-|[]]. now left.
Qed.
End DocumentsFacts.

Lemma strict_eq_true (a b : option string) : strict_eq a b = true <-> a = b.
Proof.
  destruct a as [x|], b as [y|]; simpl; try (split; [discriminate|discriminate]).
  - rewrite String.eqb_eq. split; congruence.
  - tauto.
Qed.

Lemma notices_app (es es' : list Documents.Effect) :
  Documents.notices (es ++ es') = Documents.notices es ++ Documents.notices es'.
Proof.
  induction es as [|[t s|t s a|d] es IH]; simpl; congruence.
Qed.

Lemma created_app (es1 es2 : list Documents.Effect) :
  Documents.created (es1 ++ es2) = Documents.created es1 ++ Documents.created es2.
Proof.
  induction es1 as [|[t c|t c d|[[v|i p] n]] es1 IH]; simpl; congruence.
Qed.

(** *** The store *)

Lemma put_fresh (document : JSON) (store : list JSON) :
  ~ In (Documents.idOf document) (map Documents.idOf store) ->
  Documents.put document store = store ++ [document].
Proof.
  induction store as [|d store IH]; simpl; intros Hfresh; [reflexivity|].
  destruct (strict_eq (Documents.idOf d) (Documents.idOf document)) eqn:Heq.
  - apply strict_eq_true in Heq. tauto.
  - rewrite IH; tauto.
Qed.

Lemma get_put_same (document : JSON) (i : string) (store : list JSON) :
  Documents.idOf document = Some i ->
  Documents.get i (Documents.put document store) = Some document.
Proof.
  intros Hid. unfold Documents.get.
  induction store as [|d store IH]; cbn [Documents.put List.find].
  - rewrite Hid. cbn. now rewrite String.eqb_refl.
  - rewrite Hid.
    destruct (strict_eq (Documents.idOf d) (Some i)) eqn:Hd; cbn [List.find].
    + rewrite Hid. cbn. now rewrite String.eqb_refl.
    + rewrite Hd. exact IH.
Qed.

Lemma get_put_other (document : JSON) (i j : string) (store : list JSON) :
  Documents.idOf document = Some i ->
  j <> i ->
  Documents.get j (Documents.put document store) = Documents.get j store.
Proof.
  intros Hid Hne. unfold Documents.get.
  assert (Hdoc : strict_eq (Documents.idOf document) (Some j) = false).
  { rewrite Hid. cbn. apply String.eqb_neq. congruence. }
  induction store as [|d store IH]; cbn [Documents.put List.find].
  - now rewrite Hdoc.
  - rewrite Hid.
    destruct (strict_eq (Documents.idOf d) (Some i)) eqn:Hd; cbn [List.find].
    + rewrite Hdoc.
      apply strict_eq_true in Hd. rewrite Hd. cbn.
      assert (Hij : String.eqb i j = false) by (apply String.eqb_neq; congruence).
      now rewrite Hij.
    + now rewrite IH.
Qed.

Lemma get_replace_same (document old : JSON) (i : string) (store : list JSON) :
  Documents.idOf document = Some i ->
  Documents.get i store = Some old ->
  Documents.get i (Documents.replace i document store) = Some document.
Proof.
  intros Hid. unfold Documents.get.
  induction store as [|d store IH]; cbn [Documents.replace List.find];
    [discriminate|].
  destruct (strict_eq (Documents.idOf d) (Some i)) eqn:Hd; cbn [List.find].
  - intros _. rewrite Hid. cbn. now rewrite String.eqb_refl.
  - rewrite Hd. exact IH.
Qed.

Lemma get_replace_other (document : JSON) (i j : string) (store : list JSON) :
  Documents.idOf document = Some i ->
  j <> i ->
  Documents.get j (Documents.replace i document store) = Documents.get j store.
Proof.
  intros Hid Hne. unfold Documents.get.
  assert (Hdoc : strict_eq (Documents.idOf document) (Some j) = false).
  { rewrite Hid. cbn. apply String.eqb_neq. congruence. }
  induction store as [|d store IH]; cbn [Documents.replace List.find];
    [reflexivity|].
  destruct (strict_eq (Documents.idOf d) (Some i)) eqn:Hd; cbn [List.find].
  - rewrite Hdoc.
    apply strict_eq_true in Hd. rewrite Hd. cbn.
    assert (Hij : String.eqb i j = false) by (apply String.eqb_neq; congruence).
    now rewrite Hij.
  - now rewrite IH.
Qed.

Lemma idOf_prop (document : JSON) (i : string) :
  JS.prop document "id" = Some (JString i) -> Documents.idOf document = Some i.
Proof.
  intros Hid. unfold Documents.idOf.
  destruct document; try discriminate Hid.
  unfold JS.prop in Hid. cbn in *. now rewrite Hid.
Qed.

(** Creating documents of pairwise distinct ids, none of them in the store,
    appends them to it. *)
Lemma applyAll_created (JSON_parse : string -> option JSON) (ds store : list JSON) :
  NoDup (map Documents.idOf (store ++ ds)) ->
  Documents.applyAll JSON_parse
    (map (fun d => Documents.completed (Documents.createLocalDocument d)) ds) store
  = store ++ ds.
Proof.
  unfold Documents.applyAll.
  revert store. induction ds as [|d ds IH]; intros store Hnodup; simpl.
  - now rewrite app_nil_r.
  - rewrite put_fresh.
    + rewrite IH; rewrite <- app_assoc; [reflexivity | exact Hnodup].
    + rewrite map_app in Hnodup. simpl in Hnodup.
      apply NoDup_remove_2 in Hnodup. rewrite in_app_iff in Hnodup. tauto.
Qed.

Lemma applyAll_app (JSON_parse : string -> option JSON)
      (evs evs' : list Documents.Event) (store : list JSON) :
  Documents.applyAll JSON_parse (evs ++ evs') store
  = Documents.applyAll JSON_parse evs' (Documents.applyAll JSON_parse evs store).
Proof.
  unfold Documents.applyAll. apply fold_left_app.
Qed.

(** *** Bundles whose documents can all be imported *)

Lemma untilStop_all (documents : list UserDocument.t) (values : list JSON) :
  Forall (fun d => Documents.stops documents d = false) values ->
  Documents.untilStop documents values = values
  /\ existsb (Documents.stops documents) values = false.
Proof.
  induction 1 as [|v values Hv _ [IH1 IH2]]; simpl; [auto|].
  rewrite Hv, IH1, IH2. auto.
Qed.

Lemma untilStop_incl (documents : list UserDocument.t) (values : list JSON) :
  incl (Documents.untilStop documents values) values.
Proof.
  induction values as [|v values IH]; simpl; [apply incl_refl|].
  destruct (Documents.stops documents v); [intros x [] |].
  apply incl_cons; [now left | now apply incl_tl].
Qed.

Lemma filter_all {A : Type} (p : A -> bool) (l : list A) :
  Forall (fun x => p x = true) l -> filter p l = l.
Proof.
  induction 1 as [|x l Hx _ IH]; simpl; [reflexivity|]. now rewrite Hx, IH.
Qed.

(** C5 (as the code has it).  The bundle [{"foo": {"id": "not-a-uuid"}}]
    parses, neither it nor its one value has a valid id, and nothing throws:
    the import performs no effect at all.  No document is created, no store
    action is dispatched, and no notice is announced either; the function
    returns no document. *)
Theorem bundle_without_valid_id_imports_nothing
        (JSON_parse : string -> option JSON) (JSON_stringify : JSON -> string)
        (documents : list UserDocument.t) :
  JSON_parse Examples.notAUuidText = Some Examples.notAUuidBundle ->
  Documents.tryParseFile JSON_parse JSON_stringify documents Examples.notAUuidText
  = ([], None)
  /\ Documents.created
       (fst (Documents.tryParseFile JSON_parse JSON_stringify documents
               Examples.notAUuidText)) = []
  /\ Documents.dispatched
       (fst (Documents.tryParseFile JSON_parse JSON_stringify documents
               Examples.notAUuidText)) = []
  /\ Documents.notices
       (fst (Documents.tryParseFile JSON_parse JSON_stringify documents
               Examples.notAUuidText)) = [].
Proof.
  intros Hparse.
  assert (H : Documents.tryParseFile JSON_parse JSON_stringify documents
                Examples.notAUuidText = ([], None)).
  { unfold Documents.tryParseFile, Documents.tryBody.
    rewrite Hparse. reflexivity. }
  rewrite H. repeat split.
Qed.

Lemma bundle_without_valid_id_imports_nothing_witness :
  JSONText.parse Examples.notAUuidText = Some Examples.notAUuidBundle
  /\ Documents.tryParseFile JSONText.parse JSONText.stringify Examples.withLocal
       Examples.notAUuidText
     = ([], None).
Proof.
  split; [reflexivity|].
  apply (bundle_without_valid_id_imports_nothing
           JSONText.parse JSONText.stringify Examples.withLocal).
  reflexivity.
Defined.

(** C5, counterexample.  Importing [{"foo": {"id": "not-a-uuid"}}] announces
    no notice: the "Invalid file" notice is announced only when the import
    throws. *)
Lemma bundle_without_valid_id_gives_no_notice :
  JSONText.parse Examples.notAUuidText = Some Examples.notAUuidBundle
  /\ ~ exists title subtitle,
         In (Documents.announce title subtitle)
            (fst (Documents.tryParseFile JSONText.parse JSONText.stringify
                    Examples.withLocal Examples.notAUuidText)).
Proof.
  split; [reflexivity|].
  intros (title & subtitle & Hin). exact Hin.
Qed.

(** C6 (as the code has it).  Text that does not parse, or parses to
    [null], yields the "Invalid file" notice alone.  Text that parses to a
    value whose own [id] is a valid UUID is that one document: it is returned,
    and imported (and opened) unless it cannot be offered for overwrite, in
    which case the notice is all there is.  Otherwise the top-level values
    are visited in order: a value whose [id] is a valid UUID is imported as a
    document of its own, any other value that is not [null] is skipped
    without a word, and the visit ends with the "Invalid file" notice at the
    first value that is [null], whose [id] cannot be read, or that cannot be
    offered for overwrite (its id is valid and that of a local document, and
    its name cannot be converted to text).  A document with a valid id that
    is imported is created when its id is that of no local document, and
    offered for overwrite when it is.  In every case each effect other than
    the notice comes from importing a value with a valid id. *)
Theorem tryParseFile_decodes_bundle
        (JSON_parse : string -> option JSON) (JSON_stringify : JSON -> string)
        (documents : list UserDocument.t) (content : string) :
  match JSON_parse content with
  | None =>
      Documents.tryParseFile JSON_parse JSON_stringify documents content
      = ([Documents.invalidFile], None)
  | Some data =>
      if Documents.isNull data
      then Documents.tryParseFile JSON_parse JSON_stringify documents content
           = ([Documents.invalidFile], None)
      else if Documents.validId data
      then Documents.tryParseFile JSON_parse JSON_stringify documents content
           = (fst (Documents.addDocument JSON_stringify documents data true)
              ++ (if Documents.refused documents data
                  then [Documents.invalidFile]
                  else []),
              Some data)
      else exists values,
          JS.Object_values data = JS.Normal values
          /\ Documents.tryParseFile JSON_parse JSON_stringify documents content
             = (Documents.importAll JSON_stringify documents
                  (Documents.untilStop documents values)
                ++ (if existsb (Documents.stops documents) values
                    then [Documents.invalidFile]
                    else []),
                None)
  end
  /\ (forall v navigateTo,
        Documents.validId v = true ->
        if Documents.refused documents v
        then Documents.addDocument JSON_stringify documents v navigateTo
             = ([], JS.Throw)
        else exists e,
            Documents.addDocument JSON_stringify documents v navigateTo
            = ([e], JS.Normal tt)
            /\ match e with
               | Documents.perform d =>
                   Documents.action d = Documents.createLocalDocument v
                   /\ Documents.collides documents v = false
               | Documents.alert _ _ d =>
                   Documents.action d
                   = Documents.updateLocalDocument
                       match JS.prop v "id" with
                       | Some (JString i) => i
                       | _ => ""
                       end
                       (JSON_stringify v)
                   /\ Documents.collides documents v = true
               | Documents.announce _ _ => False
               end)
  /\ forall e,
      In e (fst (Documents.tryParseFile JSON_parse JSON_stringify documents content)) ->
      e = Documents.invalidFile
      \/ exists v navigateTo,
           Documents.validId v = true
           /\ In e (fst (Documents.addDocument JSON_stringify documents v navigateTo)).
Proof.
  split; [apply tryParseFile_cases|]. split.
  - intros v navigateTo Hvalid.
    destruct (Documents.refused documents v) eqn:Hrefused.
    + now apply addDocument_refused.
    + destruct (addDocument_accepted JSON_stringify documents v navigateTo
                  Hvalid Hrefused) as (e & He & _ & Hshape).
      exists e. split; [exact He|].
      destruct e as [t c|t c d|d]; [exact Hshape | |].
      * destruct Hshape as (_ & -> & Hcollides). auto.
      * destruct Hshape as (-> & Hcollides). auto.
  - intros e He.
    destruct (effects_origin _ _ _ _ _ He)
      as [->|[(v & Hvalid & _ & Hv)|(data & _ & Hvalid & _ & Hdata & _)]].
    + now left.
    + right. exists v, false. rewrite Hv. split; [exact Hvalid | now left].
    + right. exists data, true. rewrite Hdata. split; [exact Hvalid | now left].
Qed.

(** C6, counterexample.  In [{"a": null, "b": {"id": "123e4567-...", ...}}]
    the value of "b" has a valid UUID as its id, but reading the id of the
    [null] before it throws: the document is not imported, and the user is
    told the file is invalid. *)
Lemma null_value_stops_the_import :
  JSONText.parse Examples.nullThenNotesText
  = Some (JObject [("a", JNull); ("b", Examples.notes Examples.uuid1)])
  /\ Documents.validId (Examples.notes Examples.uuid1) = true
  /\ Documents.tryParseFile JSONText.parse JSONText.stringify []
       Examples.nullThenNotesText
     = ([Documents.invalidFile], None)
  /\ ~ In (Examples.notes Examples.uuid1)
          (Documents.created
             (fst (Documents.tryParseFile JSONText.parse JSONText.stringify []
                     Examples.nullThenNotesText))).
Proof.
  split; [reflexivity|]. split; [reflexivity|]. split; [reflexivity|].
  intros Hin. exact Hin.
Qed.

Section BackupFacts.
Variable JSON_parse : string -> option JSON.
Variable JSON_stringify : JSON -> string.
Variable documents : list UserDocument.t.

Lemma collides_idOf (d : JSON) :
  Documents.isNull d = false ->
  (forall u, In u documents -> Documents.hasLocal u = true ->
             Documents.idOf d <> Some (UserDocument.id u)) ->
  Documents.collides documents d = false.
Proof.
  intros Hnn Hfresh. unfold Documents.collides.
  apply existsb_false_forall. intros u Hu.
  apply andb_false_iff.
  destruct (Documents.hasLocal u) eqn:Hlocal; [left | now right].
  specialize (Hfresh u Hu Hlocal).
  unfold Documents.idOf in Hfresh.
  rewrite (getProperty_nonnull _ _ Hnn) in Hfresh.
  destruct (JS.prop d "id") as [[| | |s| |]|]; simpl; try reflexivity.
  apply String.eqb_neq. congruence.
Qed.

Lemma importAll_notices (values : list JSON) :
  Documents.notices (Documents.importAll JSON_stringify documents values) = [].
Proof.
  unfold Documents.importAll.
  induction (filter Documents.validId values) as [|v l IH] eqn:Hl
    in values |- *; [reflexivity|].
  assert (Hvalid : Documents.validId v = true).
  { assert (Hin : In v (filter Documents.validId values))
      by (rewrite Hl; now left).
    now apply filter_In in Hin. }
  cbn [flat_map]. rewrite notices_app.
  rewrite (IH l); [|apply filter_all].
  - rewrite app_nil_r.
    destruct (Documents.refused documents v) eqn:Hrefused.
    + now rewrite (addDocument_refused _ _ _ _ Hvalid Hrefused).
    + destruct (addDocument_accepted JSON_stringify documents v false
                  Hvalid Hrefused) as (e & -> & Hnotice & _).
      exact Hnotice.
  - apply Forall_forall. intros x Hx.
    assert (Hin : In x (filter Documents.validId values))
      by (rewrite Hl; now right).
    now apply filter_In in Hin.
Qed.

(** The effects of a list of documents whose ids are valid and none of which
    is refused, one to a document. *)
Lemma importAll_accepted (values : list JSON) :
  Forall (fun d => Documents.validId d = true) values ->
  Forall (fun d => Documents.refused documents d = false) values ->
  Documents.untilStop documents values = values
  /\ existsb (Documents.stops documents) values = false
  /\ Documents.importAll JSON_stringify documents values
     = flat_map (fun d => fst (Documents.addDocument JSON_stringify documents d false))
                values
  /\ length (Documents.importAll JSON_stringify documents values) = length values.
Proof.
  intros Hvalid Hrefused.
  assert (Hstops : Forall (fun d => Documents.stops documents d = false) values).
  { rewrite Forall_forall in *. intros d Hd. unfold Documents.stops.
    now rewrite (validId_nonnull _ (Hvalid d Hd)), (Hrefused d Hd). }
  destruct (untilStop_all _ _ Hstops) as [Huntil Hnone].
  split; [exact Huntil|]. split; [exact Hnone|].
  unfold Documents.importAll. rewrite (filter_all _ _ Hvalid).
  split; [reflexivity|].
  induction Hvalid as [|v values Hv _ IH]; [reflexivity|].
  inversion Hrefused as [|? ? Hr Hrs]; subst.
  inversion Hstops as [|? ? _ Hss]; subst.
  destruct (addDocument_accepted JSON_stringify documents v false Hv Hr)
    as (e & He & _).
  cbn [flat_map]. rewrite He. cbn [fst app length]. f_equal.
  apply IH; [exact Hrs | exact Hss | |].
  - now destruct (untilStop_all _ _ Hss).
  - now destruct (untilStop_all _ _ Hss).
Qed.

Lemma importAll_fresh (values : list JSON) :
  Forall (fun d => Documents.validId d = true) values ->
  (forall d u, In d values -> In u documents -> Documents.hasLocal u = true ->
               Documents.idOf d <> Some (UserDocument.id u)) ->
  flat_map (fun v => fst (Documents.addDocument JSON_stringify documents v false))
           values
  = map (fun d => Documents.perform
                    {| Documents.action := Documents.createLocalDocument d;
                       Documents.thenNavigate := None |})
        values.
Proof.
  induction 1 as [|v values Hv _ IH]; simpl; intros Hfresh; [reflexivity|].
  rewrite IH by (intros d u Hd; apply Hfresh; now right).
  destruct (validId_inv _ Hv) as (i & Hid & _).
  rewrite (addDocument_string_id _ _ _ _ _ Hid).
  rewrite collides_idOf.
  - reflexivity.
  - now apply validId_nonnull.
  - intros u. apply Hfresh. now left.
Qed.

(** Once every alert has been confirmed, the store holds each imported
    document under its id, whatever it held before. *)
Lemma confirmed_import_other (values store : list JSON) (j : string) :
  Forall (fun d => Documents.validId d = true) values ->
  Forall (fun d => JSON_parse (JSON_stringify d) = Some d) values ->
  (forall d, In d values -> Documents.idOf d <> Some j) ->
  Documents.get j
    (Documents.applyAll JSON_parse
       (flat_map (Documents.answer true)
          (flat_map (fun d => fst (Documents.addDocument JSON_stringify documents
                                     d false)) values))
       store)
  = Documents.get j store.
Proof.
  intros Hvalid Hcodec. revert store.
  induction Hvalid as [|v values Hv _ IH]; intros store Hother; [reflexivity|].
  inversion Hcodec as [|? ? Hcv Hcs]; subst.
  destruct (validId_inv _ Hv) as (i & Hid & _).
  assert (Hi : Documents.idOf v = Some i) by now apply idOf_prop.
  assert (Hij : j <> i).
  { intros ->. now apply (Hother v (or_introl eq_refl)). }
  cbn [flat_map]. rewrite flat_map_app, applyAll_app.
  rewrite (IH Hcs) by (intros d Hd; apply Hother; now right).
  rewrite (addDocument_string_id _ _ _ _ _ Hid).
  destruct (Documents.collides documents v).
  - destruct (JS.template (JS.prop v "name")); [|reflexivity].
    cbn. rewrite Hcv. now apply get_replace_other.
  - cbn. now apply (get_put_other v i).
Qed.

Lemma confirmed_import_holds (values store : list JSON) :
  Forall (fun d => Documents.validId d = true) values ->
  Forall (fun d => Documents.refused documents d = false) values ->
  Forall (fun d => JSON_parse (JSON_stringify d) = Some d) values ->
  NoDup (map Documents.idOf values) ->
  (forall d i, In d values -> Documents.idOf d = Some i ->
               Documents.collides documents d = true ->
               Documents.get i store <> None) ->
  forall d i,
    In d values -> Documents.idOf d = Some i ->
    Documents.get i
      (Documents.applyAll JSON_parse
         (flat_map (Documents.answer true)
            (flat_map (fun d => fst (Documents.addDocument JSON_stringify documents
                                       d false)) values))
         store)
    = Some d.
Proof.
  intros Hvalid. revert store.
  induction Hvalid as [|v values Hv Hvs IH];
    intros store Hrefused Hcodec Hnodup Hlisted d i Hd Hdi; [destruct Hd|].
  inversion Hrefused as [|? ? Hr Hrs]; subst.
  inversion Hcodec as [|? ? Hcv Hcs]; subst.
  inversion Hnodup as [|? ? Hfirst Hrest]; subst.
  destruct (validId_inv _ Hv) as (k & Hid & _).
  assert (Hk : Documents.idOf v = Some k) by now apply idOf_prop.
  cbn [flat_map]. rewrite flat_map_app, applyAll_app.
  set (store1 := Documents.applyAll JSON_parse
                   (flat_map (Documents.answer true)
                      (fst (Documents.addDocument JSON_stringify documents v false)))
                   store).
  assert (Hstore1 : Documents.get k store1 = Some v
                    /\ forall j, j <> k ->
                         Documents.get j store1 = Documents.get j store).
  { unfold store1. rewrite (addDocument_string_id _ _ _ _ _ Hid).
    unfold Documents.refused, Documents.printable in Hr.
    rewrite Hv in Hr. cbn [andb] in Hr.
    destruct (Documents.collides documents v) eqn:Hcollides.
    - destruct (JS.template (JS.prop v "name")); [|discriminate].
      cbn. rewrite Hcv. split.
      + destruct (Documents.get k store) as [old|] eqn:Hold.
        * now apply (get_replace_same v old).
        * now destruct (Hlisted v k (or_introl eq_refl) Hk Hcollides).
      + intros j Hj. now apply get_replace_other.
    - cbn. split; [now apply get_put_same|].
      intros j Hj. now apply (get_put_other v k). }
  destruct Hstore1 as [Hsame Hother].
  destruct Hd as [<-|Hd].
  - assert (i = k) by congruence. subst i.
    rewrite (confirmed_import_other values store1 k Hvs Hcs); [exact Hsame|].
    intros d Hd Hdk. apply Hfirst. rewrite Hk, <- Hdk. now apply in_map.
  - apply (IH store1 Hrs Hcs Hrest); [|exact Hd | exact Hdi].
    intros d' i' Hd' Hdi' Hcollides.
    rewrite Hother.
    + now apply (Hlisted d' i' (or_intror Hd')).
    + intros ->. apply Hfirst. rewrite Hk, <- Hdi'. now apply in_map.
Qed.
End BackupFacts.

Lemma created_performed (ds : list JSON) :
  Documents.created
    (map (fun d => Documents.perform
                     {| Documents.action := Documents.createLocalDocument d;
                        Documents.thenNavigate := None |}) ds) = ds.
Proof.
  induction ds as [|d ds IH]; simpl; congruence.
Qed.

Lemma answer_performed (confirm : bool) (ds : list JSON) :
  flat_map (Documents.answer confirm)
    (map (fun d => Documents.perform
                     {| Documents.action := Documents.createLocalDocument d;
                        Documents.thenNavigate := None |}) ds)
  = map (fun d => Documents.completed (Documents.createLocalDocument d)) ds.
Proof.
  induction ds as [|d ds IH]; simpl; congruence.
Qed.




(** C9 (as the code has it).  Importing a document whose id is that of a
    listed local document dispatches no store action, and without a
    confirmation the store is left as it was.  When the document's name can
    be converted to text, the one effect is the alert "Document already
    exists", which carries the overwrite as the action to run on
    confirmation: declining runs nothing; confirming runs
    [updateLocalDocument] with the document's JSON text, which puts the
    imported document in the place of the local one, and, when the import is
    to open the document, navigates to it in the [then] callback, that is,
    once the update has completed.  When the name cannot be converted, the
    call throws before anything is shown. *)
Theorem duplicate_import_asks_before_overwriting
        (JSON_parse : string -> option JSON) (JSON_stringify : JSON -> string)
        (documents : list UserDocument.t)
        (document : JSON) (navigateTo : bool)
        (i : string) (u : UserDocument.t) (l : LocalDocument.t) :
  JS.getProperty document "id" = JS.Normal (Some (JString i)) ->
  In u documents ->
  UserDocument.id u = i ->
  UserDocument.local u = Some l ->
  let result := Documents.addDocument JSON_stringify documents document navigateTo in
  let effects := fst result in
  let overwrite :=
    Documents.updateLocalDocument i (JSON_stringify document) in
  Documents.dispatched effects = []
  /\ (forall store,
        Documents.applyAll JSON_parse (flat_map (Documents.answer false) effects)
          store = store)
  /\ (forall shown,
        JS.template (JS.prop document "name") = JS.Normal shown ->
        result
        = ([ Documents.alert
               "Document already exists"
               ("Do you want to overwrite " ++ shown ++ "?")%string
               {| Documents.action := overwrite;
                  Documents.thenNavigate :=
                    if navigateTo then Some ("/edit/" ++ i)%string else None |} ],
           JS.Normal tt)
        /\ flat_map (Documents.answer false) effects = []
        /\ flat_map (Documents.answer true) effects
           = Documents.completed overwrite
             :: (if navigateTo then [Documents.navigated ("/edit/" ++ i)%string]
                 else [])
        /\ (forall before path after,
              flat_map (Documents.answer true) effects
              = before ++ Documents.navigated path :: after ->
              In (Documents.completed overwrite) before)
        /\ (JSON_parse (JSON_stringify document) = Some document ->
            forall store,
              Documents.applyAll JSON_parse
                (flat_map (Documents.answer true) effects) store
              = Documents.replace i document store
              /\ forall old,
                  Documents.get i store = Some old ->
                  Documents.get i
                    (Documents.applyAll JSON_parse
                       (flat_map (Documents.answer true) effects) store)
                  = Some document))
  /\ (JS.template (JS.prop document "name") = JS.Throw ->
      result = ([], JS.Throw)).
Proof.
  intros Hid Hu Hui Hl result effects overwrite.
  assert (Hprop : JS.prop document "id" = Some (JString i)).
  { unfold JS.prop. now rewrite Hid. }
  assert (Hcollides : Documents.collides documents document = true).
  { unfold Documents.collides. apply existsb_exists. exists u.
    split; [exact Hu|]. rewrite Hprop. cbn.
    rewrite Hui, String.eqb_refl. unfold Documents.hasLocal. now rewrite Hl. }
  assert (Hresult : result
            = match JS.template (JS.prop document "name") with
              | JS.Normal shown =>
                  ([ Documents.alert
                       "Document already exists"
                       ("Do you want to overwrite " ++ shown ++ "?")%string
                       {| Documents.action := overwrite;
                          Documents.thenNavigate :=
                            if navigateTo then Some ("/edit/" ++ i)%string
                            else None |} ],
                   JS.Normal tt)
              | JS.Throw => ([], JS.Throw)
              end).
  { unfold result.
    now rewrite (addDocument_string_id _ _ _ _ _ Hprop), Hcollides. }
  unfold effects. rewrite Hresult. clear Hresult.
  destruct (JS.template (JS.prop document "name")) as [name|].
  - split; [reflexivity|]. split; [reflexivity|]. split; [|discriminate].
    intros shown [= <-].
    assert (Hconfirm : flat_map (Documents.answer true)
                         (fst ([ Documents.alert
                                   "Document already exists"
                                   ("Do you want to overwrite " ++ name ++ "?")%string
                                   {| Documents.action := overwrite;
                                      Documents.thenNavigate :=
                                        if navigateTo
                                        then Some ("/edit/" ++ i)%string
                                        else None |} ],
                               JS.Normal tt))
                       = Documents.completed overwrite
                         :: (if navigateTo
                             then [Documents.navigated ("/edit/" ++ i)%string]
                             else [])).
    { cbn. unfold Documents.run. cbn. destruct navigateTo; reflexivity. }
    split; [reflexivity|]. split; [reflexivity|]. split; [exact Hconfirm|].
    split.
    + intros before path after Hrun. rewrite Hconfirm in Hrun.
      destruct before as [|e before]; [discriminate Hrun|].
      injection Hrun as <- _. now left.
    + intros Hcodec store. rewrite Hconfirm.
      assert (Hstore : Documents.applyAll JSON_parse
                         (Documents.completed overwrite
                          :: (if navigateTo
                              then [Documents.navigated ("/edit/" ++ i)%string]
                              else []))
                         store
                       = Documents.replace i document store).
      { unfold overwrite. destruct navigateTo; cbn; now rewrite Hcodec. }
      rewrite Hstore. split; [reflexivity|].
      intros old Hold. apply (get_replace_same document old); [|exact Hold].
      now apply idOf_prop.
  - split; [reflexivity|]. split; [reflexivity|].
    split; [discriminate | reflexivity].
Qed.

Lemma duplicate_import_asks_before_overwriting_witness :
  let effects :=
    fst (Documents.addDocument JSONText.stringify Examples.withLocal
           (Examples.notes Examples.uuid1) true) in
  Documents.dispatched effects = []
  /\ Documents.applyAll JSONText.parse (flat_map (Documents.answer false) effects)
       [Examples.oldNotes]
     = [Examples.oldNotes]
  /\ flat_map (Documents.answer true) effects
     = [ Documents.completed
           (Documents.updateLocalDocument Examples.uuid1
              (JSONText.stringify (Examples.notes Examples.uuid1)));
         Documents.navigated ("/edit/" ++ Examples.uuid1)%string ]
  /\ Documents.applyAll JSONText.parse (flat_map (Documents.answer true) effects)
       [Examples.oldNotes]
     = [Examples.notes Examples.uuid1].
Proof.
  intros effects.
  destruct (duplicate_import_asks_before_overwriting
              JSONText.parse JSONText.stringify Examples.withLocal
              (Examples.notes Examples.uuid1) true Examples.uuid1 _
              (Examples.localDoc Examples.uuid1 "A")
              eq_refl (or_introl eq_refl) eq_refl eq_refl)
    as (Hnone & Hdecline & Hshown & _).
  destruct (Hshown "Notes" eq_refl) as (_ & _ & Hconfirm & _ & Hstore).
  split; [exact Hnone|]. split; [apply Hdecline|]. split; [exact Hconfirm|].
  exact (proj1 (Hstore eq_refl [Examples.oldNotes])).
Defined.

(** C9, counterexample.  A document whose id is that of a listed local
    document and whose name is an object with a [toString] member of its own:
    building the question throws, so no confirmation is ever presented; the
    user is told the file is invalid instead. *)
Lemma nameless_duplicate_is_not_asked :
  let document := Examples.nameless Examples.uuid1 in
  let result :=
    Documents.tryParseFile JSONText.parse JSONText.stringify Examples.withLocal
      (JSONText.stringify document) in
  Documents.validId document = true
  /\ Documents.collides Examples.withLocal document = true
  /\ JSONText.parse (JSONText.stringify document) = Some document
  /\ Documents.addDocument JSONText.stringify Examples.withLocal document true
     = ([], JS.Throw)
  /\ result = ([Documents.invalidFile], Some document)
  /\ ~ exists title content onConfirm,
         In (Documents.alert title content onConfirm) (fst result).
Proof.
  cbv zeta. split; [reflexivity|]. split; [reflexivity|]. split; [reflexivity|].
  split; [reflexivity|]. split; [reflexivity|].
  intros (title & content & onConfirm & [H|[]]). discriminate H.
Qed.

(** ** StickyComponent: the nested editor state *)

Section BridgeFacts.
Variable EditorState : Type.
Variable toJSON : EditorState -> JSON.
Variable parseEditorState : string -> EditorState.
Variable JSON_stringify : JSON -> string.

(** The state is replaced only when the payload differs from the serialized
    current state, and then by the state parsed from the payload. *)
Lemma effect_only_on_change (stickyEditor newState : EditorState) (data : JSON) :
  StickyComponent.effect EditorState toJSON parseEditorState JSON_stringify
    stickyEditor (Some data) = Some newState ->
  toJSON stickyEditor <> data
  /\ newState = parseEditorState (JSON_stringify data).
Proof.
  unfold StickyComponent.effect.
  destruct (StickyComponent.truthy data); [|discriminate].
  destruct (String.eqb_spec (JSON_stringify (toJSON stickyEditor))
                            (JSON_stringify data)) as [Heq|Hne];
    [discriminate|].
  intros [= <-]. split; [|reflexivity].
  intros Hsame. apply Hne. now rewrite Hsame.
Qed.

Lemma effect_unchanged (stickyEditor : EditorState) (data : JSON) :
  JSON_stringify (toJSON stickyEditor) = JSON_stringify data ->
  StickyComponent.effect EditorState toJSON parseEditorState JSON_stringify
    stickyEditor (Some data) = None.
Proof.
  intros Heq. unfold StickyComponent.effect.
  destruct (StickyComponent.truthy data); [|reflexivity].
  now rewrite Heq, String.eqb_refl.
Qed.
End BridgeFacts.

(** C8 (as the code has it).  The effect compares JSON texts, not values:
    it leaves the nested editor's state alone exactly when the payload does
    not count as true or its JSON text is that of the editor's serialized
    state, member order included, and otherwise replaces the state by the one
    parsed from the payload's text.  So a payload delivered twice in a row
    replaces the state at most once when the editor framework serializes the
    state it parses from the payload back to the payload's text (the second
    delivery then finds the state unchanged and does nothing), and twice when
    it does not and the first delivery replaced the state. *)
Theorem payload_is_compared_as_text
        (EditorState : Type) (toJSON : EditorState -> JSON)
        (parseEditorState : string -> EditorState)
        (JSON_stringify : JSON -> string)
        (stickyEditor : EditorState) (data : JSON) :
  let effect :=
    StickyComponent.effect EditorState toJSON parseEditorState JSON_stringify in
  let deliver :=
    StickyComponent.deliver EditorState toJSON parseEditorState JSON_stringify in
  let feed :=
    StickyComponent.feed EditorState toJSON parseEditorState JSON_stringify in
  let parsed := parseEditorState (JSON_stringify data) in
  (effect stickyEditor (Some data) = None
   <-> StickyComponent.truthy data = false
       \/ JSON_stringify (toJSON stickyEditor) = JSON_stringify data)
  /\ (forall newState,
        effect stickyEditor (Some data) = Some newState ->
        toJSON stickyEditor <> data /\ newState = parsed)
  /\ (toJSON stickyEditor = data -> effect stickyEditor (Some data) = None)
  /\ (JSON_stringify (toJSON parsed) = JSON_stringify data ->
      effect (deliver stickyEditor (Some data)) (Some data) = None
      /\ (snd (feed stickyEditor [Some data; Some data]) <= 1)%nat
      /\ fst (feed stickyEditor [Some data; Some data])
         = deliver stickyEditor (Some data))
  /\ (JSON_stringify (toJSON parsed) <> JSON_stringify data ->
      effect stickyEditor (Some data) <> None ->
      effect (deliver stickyEditor (Some data)) (Some data) = Some parsed
      /\ feed stickyEditor [Some data; Some data] = (parsed, 2%nat)).
Proof.
  cbv zeta.
  set (parsed := parseEditorState (JSON_stringify data)).
  assert (Hnone : StickyComponent.effect EditorState toJSON parseEditorState
                    JSON_stringify stickyEditor (Some data) = None
                  <-> StickyComponent.truthy data = false
                      \/ JSON_stringify (toJSON stickyEditor) = JSON_stringify data).
  { unfold StickyComponent.effect.
    destruct (StickyComponent.truthy data); [|tauto].
    destruct (String.eqb_spec (JSON_stringify (toJSON stickyEditor))
                              (JSON_stringify data)) as [Heq|Hne].
    - tauto.
    - split; [discriminate | intros [H|H]; [discriminate | contradiction]]. }
  split; [exact Hnone|].
  split; [intros newState; apply effect_only_on_change|].
  split; [intros <-; now apply effect_unchanged|].
  split.
  - intros Hround.
    assert (Hsecond :
              StickyComponent.effect EditorState toJSON parseEditorState
                JSON_stringify
                (StickyComponent.deliver EditorState toJSON parseEditorState
                   JSON_stringify stickyEditor (Some data))
                (Some data) = None).
    { unfold StickyComponent.deliver.
      destruct (StickyComponent.effect _ _ _ _ stickyEditor (Some data))
        as [newState|] eqn:Hfirst.
      - apply effect_only_on_change in Hfirst as [_ ->].
        now apply effect_unchanged.
      - exact Hfirst. }
    assert (Hstays :
              StickyComponent.deliver EditorState toJSON parseEditorState
                JSON_stringify
                (StickyComponent.deliver EditorState toJSON parseEditorState
                   JSON_stringify stickyEditor (Some data))
                (Some data)
              = StickyComponent.deliver EditorState toJSON parseEditorState
                  JSON_stringify stickyEditor (Some data)).
    { unfold StickyComponent.deliver at 1. now rewrite Hsecond. }
    split; [exact Hsecond|].
    cbn [StickyComponent.feed]. rewrite Hsecond, Hstays. cbn [fst snd].
    split; [|reflexivity].
    destruct (StickyComponent.effect _ _ _ _ stickyEditor (Some data)); lia.
  - intros Hround Hfirst.
    destruct (StickyComponent.effect EditorState toJSON parseEditorState
                JSON_stringify stickyEditor (Some data))
      as [newState|] eqn:Heffect; [|contradiction].
    pose proof (effect_only_on_change _ _ _ _ _ _ _ Heffect) as [_ Hnew].
    fold parsed in Hnew. subst newState.
    assert (Htruthy : StickyComponent.truthy data = true).
    { destruct (StickyComponent.truthy data) eqn:Ht; [reflexivity|].
      assert (H : Some parsed = @None EditorState) by (apply Hnone; now left).
      discriminate H. }
    assert (Hdelivered :
              StickyComponent.deliver EditorState toJSON parseEditorState
                JSON_stringify stickyEditor (Some data) = parsed).
    { unfold StickyComponent.deliver. now rewrite Heffect. }
    assert (Hsecond :
              StickyComponent.effect EditorState toJSON parseEditorState
                JSON_stringify parsed (Some data) = Some parsed).
    { unfold StickyComponent.effect. rewrite Htruthy.
      apply String.eqb_neq in Hround. now rewrite Hround. }
    rewrite Hdelivered. split; [exact Hsecond|].
    cbn [StickyComponent.feed].
    rewrite Hdelivered, Heffect, Hsecond.
    unfold StickyComponent.deliver. now rewrite Hsecond.
Qed.

Lemma payload_is_compared_as_text_witness :
  JSONText.stringify (Examples.parseState (JSONText.stringify Examples.payload))
  = JSONText.stringify Examples.payload
  /\ StickyComponent.effect JSON (fun s => s) Examples.parseState JSONText.stringify
       (StickyComponent.deliver JSON (fun s => s) Examples.parseState
          JSONText.stringify Examples.emptyState (Some Examples.payload))
       (Some Examples.payload) = None
  /\ (snd (StickyComponent.feed JSON (fun s => s) Examples.parseState
             JSONText.stringify Examples.emptyState
             [Some Examples.payload; Some Examples.payload]) <= 1)%nat.
Proof.
  assert (Hround :
            JSONText.stringify
              (Examples.parseState (JSONText.stringify Examples.payload))
            = JSONText.stringify Examples.payload) by reflexivity.
  split; [exact Hround|].
  destruct (payload_is_compared_as_text
              JSON (fun s => s) Examples.parseState JSONText.stringify
              Examples.emptyState Examples.payload)
    as (_ & _ & _ & Htwice & _).
  destruct (Htwice Hround) as (Hsecond & Hcount & _).
  split; [exact Hsecond | exact Hcount].
Defined.

(** C8, counterexample.  A nested editor that holds the line "hi" and writes
    its state out as [{"root": {"text": "hi", "type": "root"}}].  The payload
    [{"root": {"type": "root", "text": "hi"}}] is deeply equal to that state,
    and yet the effect replaces the state, since the two texts differ; the
    state it parses is the line "hi" again, which serializes as before, so the
    same payload delivered a second time replaces the state a second time. *)
Lemma reordered_payload_resets_every_time :
  StickyComponent.deepEqual (Examples.lineJSON "hi") Examples.reordered = true
  /\ StickyComponent.effect string Examples.lineJSON Examples.parseLine
       JSONText.stringify "hi" (Some Examples.reordered)
     = Some "hi"
  /\ StickyComponent.feed string Examples.lineJSON Examples.parseLine
       JSONText.stringify "hi" [Some Examples.reordered; Some Examples.reordered]
     = ("hi", 2%nat).
Proof.
  split; [reflexivity|]. split; reflexivity.
Qed.

(** ** DocumentsGrid: pages *)

Lemma firstn_skipn_add {A : Type} (a b : nat) (l : list A) :
  firstn (a + b) l = firstn a l ++ firstn b (skipn a l).
Proof.
  revert l. induction a as [|a IH]; intros l; [reflexivity|].
  destruct l as [|x l]; simpl.
  - now rewrite firstn_nil.
  - now rewrite IH.
Qed.

Lemma firstn_clamped {A : Type} (n : nat) (l : list A) :
  firstn (Nat.min n (length l)) l = firstn n l.
Proof.
  destruct (Nat.le_ge_cases n (length l)) as [H|H].
  - now rewrite Nat.min_l.
  - rewrite Nat.min_r by exact H. now rewrite !firstn_all2 by lia.
Qed.

Lemma flat_map_agree {A B : Type} (f g : A -> list B) (l : list A) :
  (forall x, In x l -> f x = g x) -> flat_map f l = flat_map g l.
Proof.
  induction l as [|x l IH]; intros H; simpl; [reflexivity|].
  rewrite (H x) by now left. rewrite IH; [reflexivity|].
  intros y Hy. apply H. now right.
Qed.

(** The chunks of twelve, in order, make up the front of the list. *)
Lemma chunks_firstn {A : Type} (n : nat) (l : list A) :
  flat_map (fun p => firstn 12 (skipn (12 * (p - 1)) l)) (seq 1 n)
  = firstn (12 * n) l.
Proof.
  induction n as [|n IH]; [reflexivity|].
  rewrite seq_S, flat_map_app, IH. cbn [flat_map]. rewrite app_nil_r.
  replace (12 * (1 + n - 1))%nat with (12 * n)%nat by lia.
  replace (12 * S n)%nat with (12 * n + 12)%nat by lia.
  now rewrite firstn_skipn_add.
Qed.

Lemma pages_bounds (documents : list UserDocument.t) :
  let n := Z.of_nat (length documents) in
  let pages := DocumentsGrid.pages documents in
  (n <= 12 * pages /\ 12 * pages < n + 12 /\ 0 <= pages
   /\ (0 < n -> 12 * (pages - 1) < n /\ 1 <= pages)
   /\ (1 <= pages -> 12 * (pages - 1) < n))%Z.
Proof.
  intros n pages. unfold pages, DocumentsGrid.pages, DocumentsGrid.pageSize.
  fold n.
  pose proof (Z.div_mod (n + 12 - 1) 12 ltac:(lia)) as Hdm.
  pose proof (Z.mod_pos_bound (n + 12 - 1) 12 ltac:(lia)) as Hmod.
  assert (0 <= n)%Z by (unfold n; lia).
  lia.
Qed.

(** A page within range is the chunk of twelve at its place. *)
Lemma pageDocuments_chunk (documents : list UserDocument.t) (savedPage : Z) :
  (1 <= savedPage)%Z -> (1 <= DocumentsGrid.pages documents)%Z ->
  DocumentsGrid.pageDocuments documents savedPage
  = firstn 12
      (skipn (12 * (Z.to_nat (Z.min savedPage (DocumentsGrid.pages documents)) - 1))
             documents).
Proof.
  intros Hsaved Hpages.
  destruct (pages_bounds documents) as (Hup & _ & _ & _ & Hlow).
  specialize (Hlow Hpages).
  unfold DocumentsGrid.pageDocuments, DocumentsGrid.page, DocumentsGrid.pageSize,
    Array_slice.
  set (p := Z.min savedPage (DocumentsGrid.pages documents)) in *.
  set (n := Z.of_nat (length documents)) in *.
  assert (Hp : (1 <= p <= DocumentsGrid.pages documents)%Z) by lia.
  destruct (Z.ltb_spec ((p - 1) * 12) 0); [lia|].
  destruct (Z.ltb_spec (p * 12) 0); [lia|].
  assert (Hk : Z.to_nat (Z.min ((p - 1) * 12) n) = (12 * (Z.to_nat p - 1))%nat) by lia.
  rewrite Hk.
  rewrite <- (firstn_clamped 12).
  f_equal. rewrite length_skipn. unfold n in *. lia.
Qed.

(** X1.  Whatever page is saved, the grid shows at most twelve documents;
    with page 0 saved it shows none. *)
Theorem page_holds_at_most_twelve
        (documents : list UserDocument.t) (savedPage : Z) :
  (length (DocumentsGrid.pageDocuments documents savedPage) <= 12)%nat
  /\ (savedPage = 0%Z -> DocumentsGrid.pageDocuments documents savedPage = []).
Proof.
  destruct (pages_bounds documents) as (_ & _ & Hpages & _).
  unfold DocumentsGrid.pageDocuments, DocumentsGrid.page, DocumentsGrid.pageSize,
    Array_slice.
  set (p := Z.min savedPage (DocumentsGrid.pages documents)).
  set (n := Z.of_nat (length documents)).
  split.
  - etransitivity; [apply firstn_le_length|].
    destruct (Z.ltb_spec ((p - 1) * 12) 0); destruct (Z.ltb_spec (p * 12) 0); lia.
  - intros Hzero.
    assert (Hp : p = 0%Z) by (unfold p; lia).
    rewrite Hp.
    destruct (Z.ltb_spec ((0 - 1) * 12) 0); destruct (Z.ltb_spec (0 * 12) 0);
      try lia.
    match goal with
    | |- firstn ?c _ = _ => replace c with 0%nat by (unfold n; lia)
    end.
    reflexivity.
Qed.

(** X2.  The pages 1 to [pages], one after the other, are the documents:
    each document is on exactly one page, in order. *)
Theorem pages_tile_the_documents (documents : list UserDocument.t) :
  flat_map (fun p => DocumentsGrid.pageDocuments documents (Z.of_nat p))
           (seq 1 (Z.to_nat (DocumentsGrid.pages documents)))
  = documents.
Proof.
  destruct (pages_bounds documents) as (Hup & _ & Hpages & _).
  rewrite (flat_map_agree _
             (fun p => firstn 12 (skipn (12 * (p - 1)) documents))).
  - rewrite chunks_firstn. apply firstn_all2. lia.
  - intros p Hp. apply in_seq in Hp.
    rewrite pageDocuments_chunk by lia.
    do 2 f_equal. lia.
Qed.

(** X3.  With a saved page of 1 or more the grid is never blank: when there
    are documents it shows at least one of them and neither placeholder (a
    saved page past the last one shows the last page); when there are none it
    shows no card and exactly one placeholder, the skeletons before the store
    is initialized and the "No documents found" notice after. *)
Theorem grid_is_never_blank
        (documents : list UserDocument.t) (initialized : bool) (savedPage : Z) :
  (1 <= savedPage)%Z ->
  (documents <> [] ->
   DocumentsGrid.pageDocuments documents savedPage <> []
   /\ DocumentsGrid.showSkeletons documents initialized = false
   /\ DocumentsGrid.showEmpty documents initialized = false
   /\ ((DocumentsGrid.pages documents <= savedPage)%Z ->
       DocumentsGrid.pageDocuments documents savedPage
       = skipn (12 * (Z.to_nat (DocumentsGrid.pages documents) - 1)) documents))
  /\ (documents = [] ->
      DocumentsGrid.pageDocuments documents savedPage = []
      /\ DocumentsGrid.showPagination documents = false
      /\ DocumentsGrid.showSkeletons documents initialized = negb initialized
      /\ DocumentsGrid.showEmpty documents initialized = initialized).
Proof.
  intros Hsaved. split.
  - intros Hne.
    destruct (pages_bounds documents) as (Hup & _ & _ & Hpos & _).
    assert (Hlen : (0 < Z.of_nat (length documents))%Z).
    { destruct documents; [congruence | cbn [length]; lia]. }
    destruct (Hpos Hlen) as [Hlow Hpages].
    rewrite pageDocuments_chunk by lia.
    set (p := Z.min savedPage (DocumentsGrid.pages documents)) in *.
    split; [|split; [|split]].
    + intros Hnil. apply (f_equal (@length _)) in Hnil.
      rewrite length_firstn, length_skipn in Hnil. cbn [length] in Hnil. lia.
    + unfold DocumentsGrid.showSkeletons, DocumentsGrid.empty.
      destruct documents; [congruence | apply andb_false_r].
    + unfold DocumentsGrid.showEmpty, DocumentsGrid.empty.
      destruct documents; [congruence | apply andb_false_r].
    + intros Hpast.
      assert (Hp : p = DocumentsGrid.pages documents) by (unfold p; lia).
      rewrite Hp. apply firstn_all2. rewrite length_skipn. lia.
  - intros ->. split; [|split; [|split]].
    + unfold DocumentsGrid.pageDocuments, Array_slice.
      now rewrite skipn_nil, firstn_nil.
    + reflexivity.
    + unfold DocumentsGrid.showSkeletons. cbn. apply andb_true_r.
    + unfold DocumentsGrid.showEmpty. cbn. apply andb_true_r.
Qed.

Lemma grid_is_never_blank_witness :
  (1 <= 5)%Z
  /\ DocumentsGrid.pageDocuments MoreExamples.thirteen 5
     = [MoreExamples.documentNamed "m"].
Proof.
  split; [lia|].
  destruct (grid_is_never_blank MoreExamples.thirteen true 5 ltac:(lia))
    as [Hshown _].
  destruct (Hshown ltac:(discriminate)) as (_ & _ & _ & Hlast).
  apply Hlast. vm_compute. discriminate.
Defined.

(** X4.  The page selector is shown exactly when there are more than twelve
    documents, and [pages] pages hold them all with none to spare. *)
Theorem pagination_from_thirteen (documents : list UserDocument.t) :
  (DocumentsGrid.showPagination documents = true
   <-> (12 < length documents)%nat)
  /\ (Z.of_nat (length documents) <= 12 * DocumentsGrid.pages documents)%Z
  /\ (12 * DocumentsGrid.pages documents < Z.of_nat (length documents) + 12)%Z.
Proof.
  destruct (pages_bounds documents) as (Hup & Hlow & Hpages & _).
  split; [|split; lia].
  unfold DocumentsGrid.showPagination. rewrite Z.ltb_lt. lia.
Qed.

(** ** StickyNode and the handlers of StickyComponent *)

(** X5.  Serializing a sticky note and reading it back gives a note of the
    same color and data (its key is not carried over); reading a serialized
    note and serializing it again gives it back, with type "sticky" and
    version 1 whatever they were.  A clone serializes as the original. *)
Theorem sticky_note_serialization_round_trip
        (node : StickyNode.t) (serialized : StickyNode.Serialized) :
  StickyNode.importJSON (StickyNode.exportJSON node)
  = StickyNode.mk (StickyNode.__color node) (StickyNode.__data node) None
  /\ StickyNode.exportJSON (StickyNode.importJSON (StickyNode.exportJSON node))
     = StickyNode.exportJSON node
  /\ StickyNode.exportJSON (StickyNode.importJSON serialized)
     = {| StickyNode.color := StickyNode.color serialized;
          StickyNode.data := StickyNode.data serialized;
          StickyNode.type := StickyNode.getType;
          StickyNode.version := 1 |}
  /\ StickyNode.exportJSON (StickyNode.clone node) = StickyNode.exportJSON node
  /\ StickyNode.__key (StickyNode.clone node) = StickyNode.__key node.
Proof.
  destruct node, serialized. repeat split.
Qed.

(** X6.  Toggling the color twice gives the note back, and toggling once
    always changes the color; toggling never touches the data, setting the
    data never touches the color, and the two commute.  A new note is yellow
    and has no data. *)
Theorem sticky_note_color_and_data_are_independent
        (node : StickyNode.t) (data : JSON) :
  StickyNode.toggleColor (StickyNode.toggleColor node) = node
  /\ StickyNode.__color (StickyNode.toggleColor node) <> StickyNode.__color node
  /\ StickyNode.__data (StickyNode.toggleColor node) = StickyNode.__data node
  /\ StickyNode.__color (StickyNode.setData data node) = StickyNode.__color node
  /\ StickyNode.toggleColor (StickyNode.setData data node)
     = StickyNode.setData data (StickyNode.toggleColor node)
  /\ StickyNode.exportJSON StickyNode.createStickyNode
     = {| StickyNode.color := StickyNode.yellow;
          StickyNode.data := None;
          StickyNode.type := "sticky";
          StickyNode.version := 1 |}.
Proof.
  destruct node as [[] d k]; repeat split; discriminate.
Qed.

Lemma getNodeByKey_setNode (key key' : string) (node : StickyHandlers.LexicalNode)
      (nodes : StickyHandlers.NodeMap) :
  StickyHandlers.getNodeByKey key' (StickyHandlers.setNode key node nodes)
  = if String.eqb key key'
    then match StickyHandlers.getNodeByKey key nodes with
         | Some _ => Some node
         | None => None
         end
    else StickyHandlers.getNodeByKey key' nodes.
Proof.
  induction nodes as [|[k n] nodes IH]; cbn [StickyHandlers.setNode
                                               StickyHandlers.getNodeByKey].
  - now destruct (String.eqb key key').
  - destruct (String.eqb k key) eqn:Hk; cbn [StickyHandlers.getNodeByKey].
    + apply String.eqb_eq in Hk. subst k.
      now destruct (String.eqb key key').
    + rewrite IH. destruct (String.eqb key key') eqn:Hkey; [|reflexivity].
      apply String.eqb_eq in Hkey. subst key'. now rewrite Hk.
Qed.

Lemma getNodeByKey_removeNode (key key' : string) (nodes : StickyHandlers.NodeMap) :
  StickyHandlers.getNodeByKey key' (StickyHandlers.removeNode key nodes)
  = if String.eqb key key' then None else StickyHandlers.getNodeByKey key' nodes.
Proof.
  unfold StickyHandlers.removeNode.
  induction nodes as [|[k n] nodes IH];
    cbn [filter StickyHandlers.getNodeByKey fst].
  - now destruct (String.eqb key key').
  - destruct (String.eqb k key) eqn:Hk;
      cbn [negb StickyHandlers.getNodeByKey]; rewrite IH.
    + apply String.eqb_eq in Hk. subst k.
      now destruct (String.eqb key key').
    + destruct (String.eqb key key') eqn:Hkey; [|reflexivity].
      apply String.eqb_eq in Hkey. subst key'. now rewrite Hk.
Qed.

Lemma setNode_setNode (key : string) (a b : StickyHandlers.LexicalNode)
      (nodes : StickyHandlers.NodeMap) :
  StickyHandlers.getNodeByKey key nodes = Some a ->
  StickyHandlers.setNode key a (StickyHandlers.setNode key b nodes) = nodes.
Proof.
  induction nodes as [|[k n] nodes IH]; simpl; [discriminate|].
  destruct (String.eqb_spec k key) as [->|Hk]; simpl.
  - intros [= ->]. now rewrite String.eqb_refl.
  - intros H. apply String.eqb_neq in Hk. rewrite Hk. now rewrite IH.
Qed.

(** X7.  The color and change handlers of a sticky note change nothing but
    their own node: every other key of the parent editor resolves as before.
    A handler, the delete handler included, whose key resolves to no sticky
    note leaves the editor as it was. *)
Theorem sticky_handlers_touch_their_own_node_only
        (EditorState : Type) (toJSON : EditorState -> JSON)
        (stickyEditor : EditorState)
        (nodeKey : string) (nodes : StickyHandlers.NodeMap) :
  (forall key,
      key <> nodeKey ->
      StickyHandlers.getNodeByKey key
        (StickyHandlers.handleColorChange nodeKey nodes)
      = StickyHandlers.getNodeByKey key nodes
      /\ StickyHandlers.getNodeByKey key
           (StickyHandlers.handleChange EditorState toJSON stickyEditor nodeKey nodes)
         = StickyHandlers.getNodeByKey key nodes)
  /\ ((forall node,
          StickyHandlers.getNodeByKey nodeKey nodes
          <> Some (StickyHandlers.sticky node)) ->
      StickyHandlers.handleDelete nodeKey nodes = nodes
      /\ StickyHandlers.handleColorChange nodeKey nodes = nodes
      /\ StickyHandlers.handleChange EditorState toJSON stickyEditor nodeKey nodes
         = nodes).
Proof.
  unfold StickyHandlers.handleDelete, StickyHandlers.handleColorChange,
    StickyHandlers.handleChange.
  split.
  - intros key Hne. apply not_eq_sym in Hne. apply String.eqb_neq in Hne.
    destruct (StickyHandlers.getNodeByKey nodeKey nodes) as [[node|t]|];
      rewrite ?getNodeByKey_setNode, ?Hne; auto.
  - intros Hnone.
    destruct (StickyHandlers.getNodeByKey nodeKey nodes) as [[node|t]|]; auto.
    now destruct (Hnone node).
Qed.

(** X8.  On a sticky note, the color button pressed twice leaves the parent
    editor exactly as it was, and once it changes the color of that note
    only; the delete button leaves no node under the note's key. *)
Theorem sticky_color_twice_and_delete
        (nodeKey : string) (nodes : StickyHandlers.NodeMap) (node : StickyNode.t) :
  StickyHandlers.getNodeByKey nodeKey nodes = Some (StickyHandlers.sticky node) ->
  StickyHandlers.handleColorChange nodeKey
    (StickyHandlers.handleColorChange nodeKey nodes) = nodes
  /\ StickyHandlers.getNodeByKey nodeKey
       (StickyHandlers.handleColorChange nodeKey nodes)
     = Some (StickyHandlers.sticky (StickyNode.toggleColor node))
  /\ StickyHandlers.getNodeByKey nodeKey (StickyHandlers.handleDelete nodeKey nodes)
     = None.
Proof.
  intros Hnode.
  assert (Honce : StickyHandlers.getNodeByKey nodeKey
                    (StickyHandlers.handleColorChange nodeKey nodes)
                  = Some (StickyHandlers.sticky (StickyNode.toggleColor node))).
  { unfold StickyHandlers.handleColorChange. rewrite Hnode.
    now rewrite getNodeByKey_setNode, String.eqb_refl, Hnode. }
  split; [|split; [exact Honce|]].
  - unfold StickyHandlers.handleColorChange at 1. rewrite Honce.
    unfold StickyHandlers.handleColorChange. rewrite Hnode.
    replace (StickyNode.toggleColor (StickyNode.toggleColor node)) with node
      by (destruct node as [[] d k]; reflexivity).
    now apply setNode_setNode.
  - unfold StickyHandlers.handleDelete. rewrite Hnode.
    now rewrite getNodeByKey_removeNode, String.eqb_refl.
Qed.

Lemma sticky_color_twice_and_delete_witness :
  StickyHandlers.getNodeByKey "7" MoreExamples.twoNotes
  = Some (StickyHandlers.sticky MoreExamples.yellowNote)
  /\ StickyHandlers.handleColorChange "7"
       (StickyHandlers.handleColorChange "7" MoreExamples.twoNotes)
     = MoreExamples.twoNotes.
Proof.
  split; [reflexivity|].
  apply (sticky_color_twice_and_delete "7" MoreExamples.twoNotes
           MoreExamples.yellowNote eq_refl).
Defined.

(** X9.  What the nested editor writes out comes back without a reset: after
    a change of the nested editor has been written to the note, the note keeps
    its color, its data is the nested editor's serialized state, and the
    effect run with that data leaves the nested editor alone. *)
Theorem written_state_comes_back_without_reset
        (EditorState : Type) (toJSON : EditorState -> JSON)
        (parseEditorState : string -> EditorState)
        (JSON_stringify : JSON -> string)
        (stickyEditor : EditorState)
        (nodeKey : string) (nodes : StickyHandlers.NodeMap) (node : StickyNode.t) :
  StickyHandlers.getNodeByKey nodeKey nodes = Some (StickyHandlers.sticky node) ->
  exists node',
    StickyHandlers.getNodeByKey nodeKey
      (StickyHandlers.handleChange EditorState toJSON stickyEditor nodeKey nodes)
    = Some (StickyHandlers.sticky node')
    /\ StickyNode.__color node' = StickyNode.__color node
    /\ StickyNode.__data node' = Some (toJSON stickyEditor)
    /\ StickyComponent.effect EditorState toJSON parseEditorState JSON_stringify
         stickyEditor (StickyNode.__data node') = None.
Proof.
  intros Hnode.
  exists (StickyNode.setData (toJSON stickyEditor) node).
  split; [|split; [reflexivity | split; [reflexivity|]]].
  - unfold StickyHandlers.handleChange. rewrite Hnode.
    now rewrite getNodeByKey_setNode, String.eqb_refl, Hnode.
  - cbn [StickyNode.setData StickyNode.__data]. now apply effect_unchanged.
Qed.

Lemma written_state_comes_back_without_reset_witness :
  StickyHandlers.getNodeByKey "8" MoreExamples.twoNotes
  = Some (StickyHandlers.sticky StickyNode.createStickyNode)
  /\ exists node',
      StickyHandlers.getNodeByKey "8"
        (StickyHandlers.handleChange JSON (fun s => s) Examples.payload "8"
           MoreExamples.twoNotes)
      = Some (StickyHandlers.sticky node')
      /\ StickyNode.__color node' = StickyNode.yellow
      /\ StickyNode.__data node' = Some Examples.payload
      /\ StickyComponent.effect JSON (fun s => s) Examples.parseState
           JSONText.stringify Examples.payload (StickyNode.__data node') = None.
Proof.
  split; [reflexivity|].
  exact (written_state_comes_back_without_reset
           JSON (fun s => s) Examples.parseState JSONText.stringify
           Examples.payload "8" MoreExamples.twoNotes
           StickyNode.createStickyNode eq_refl).
Defined.

(** X10.  When the editor framework serializes the state it parses from the
    note's data back to the data's text, mounting the note resets nothing:
    the nested editor is created from the data, and the effect that follows
    finds it unchanged.  A note without data is left with the empty state. *)
Theorem mounting_resets_nothing
        (EditorState : Type) (toJSON : EditorState -> JSON)
        (parseEditorState : string -> EditorState)
        (JSON_stringify : JSON -> string) (emptyEditorState : EditorState)
        (data : JSON) :
  JSON_stringify (toJSON (parseEditorState (JSON_stringify data)))
  = JSON_stringify data ->
  StickyComponent.effect EditorState toJSON parseEditorState JSON_stringify
    (StickyHandlers.initialState EditorState parseEditorState JSON_stringify
       emptyEditorState (Some data))
    (Some data) = None
  /\ StickyComponent.deliver EditorState toJSON parseEditorState JSON_stringify
       (StickyHandlers.initialState EditorState parseEditorState JSON_stringify
          emptyEditorState None)
       None = emptyEditorState.
Proof.
  intros Hround. split; [|reflexivity].
  unfold StickyHandlers.initialState, StickyComponent.effect.
  destruct (StickyComponent.truthy data); [|reflexivity].
  now rewrite Hround, String.eqb_refl.
Qed.

Lemma mounting_resets_nothing_witness :
  JSONText.stringify (Examples.parseState (JSONText.stringify Examples.payload))
  = JSONText.stringify Examples.payload
  /\ StickyComponent.effect JSON (fun s => s) Examples.parseState JSONText.stringify
       (StickyHandlers.initialState JSON Examples.parseState JSONText.stringify
          Examples.emptyState (Some Examples.payload))
       (Some Examples.payload) = None.
Proof.
  split; [reflexivity|].
  apply (mounting_resets_nothing JSON (fun s => s) Examples.parseState
           JSONText.stringify Examples.emptyState Examples.payload).
  reflexivity.
Defined.

(** ** EditDocumentInfo: who is offered what *)

Lemma nobody_is_undefined (users : list User.t) :
  Array_some (fun u => strict_eq (Some (User.id u)) None) users = false.
Proof.
  unfold Array_some. apply existsb_false_forall. reflexivity.
Qed.

(** X11.  Whoever may edit a cloud document is also offered the fork button
    and the floating button, which then reads "Edit" and leads to the edit
    page of the document. *)
Theorem editors_are_offered_the_edit_link
        (c : CloudDocument.t) (user : option User.t) (revisionId : option string) :
  EditDocumentInfo.isEditable c user = true ->
  EditDocumentLinks.showFab c user = true
  /\ EditDocumentLinks.showForkButton c user = true
  /\ EditDocumentLinks.fabLabel c user = "Edit"
  /\ EditDocumentLinks.href c user revisionId
     = ("/edit/" ++ EditDocumentLinks.handle c)%string.
Proof.
  intros Heditable.
  unfold EditDocumentLinks.showFab, EditDocumentLinks.showForkButton,
    EditDocumentLinks.fabLabel, EditDocumentLinks.href.
  rewrite Heditable.
  assert (Hfork : EditDocumentInfo.showFork c user = true).
  { unfold EditDocumentInfo.isEditable, EditDocumentInfo.isCollab,
      EditDocumentInfo.isPublished, EditDocumentInfo.showFork in *.
    destruct (CloudDocument.published c), (EditDocumentInfo.isAuthor c user),
      (EditDocumentInfo.isCoauthor c user); try reflexivity; discriminate. }
  now rewrite Hfork.
Qed.

Lemma editors_are_offered_the_edit_link_witness :
  let c := Examples.cloudDoc "d" "B" false false Examples.fiveRevisions in
  EditDocumentInfo.isEditable c (Some (Examples.U "U2")) = true
  /\ EditDocumentLinks.href c (Some (Examples.U "U2")) (Some "r3") = "/edit/d".
Proof.
  intros c. split; [reflexivity|].
  apply (editors_are_offered_the_edit_link c (Some (Examples.U "U2")) (Some "r3")).
  reflexivity.
Defined.

(** X12.  A visitor who is not signed in is neither author nor coauthor: the
    document is editable for them exactly when it is published and
    collaborative, and forkable exactly when it is published. *)
Theorem anonymous_visitor_rights (c : CloudDocument.t) :
  EditDocumentInfo.isAuthor c None = false
  /\ EditDocumentInfo.isCoauthor c None = false
  /\ EditDocumentInfo.isEditable c None
     = CloudDocument.published c && CloudDocument.collab c
  /\ EditDocumentInfo.showFork c None = CloudDocument.published c.
Proof.
  assert (Hco : EditDocumentInfo.isCoauthor c None = false)
    by apply nobody_is_undefined.
  unfold EditDocumentInfo.isEditable, EditDocumentInfo.showFork,
    EditDocumentInfo.isCollab, EditDocumentInfo.isPublished.
  rewrite Hco. cbn. rewrite !orb_false_r. auto.
Qed.

(** X13.  A document that lists collaborators is open to everybody: whoever
    views it, signed in or not, may edit it and is offered the fork. *)
Theorem listed_collaborators_mean_open_to_all
        (c : CloudDocument.t) (user : option User.t) :
  EditDocumentInfo.collaborators c <> [] ->
  EditDocumentInfo.isEditable c user = true
  /\ EditDocumentInfo.showFork c user = true.
Proof.
  unfold EditDocumentInfo.collaborators, EditDocumentInfo.isEditable,
    EditDocumentInfo.showFork, EditDocumentInfo.isCollab,
    EditDocumentInfo.isPublished.
  destruct (CloudDocument.published c); cbn; [|congruence].
  destruct (CloudDocument.collab c); cbn; [|congruence].
  intros _. now rewrite !orb_true_r.
Qed.

Lemma listed_collaborators_mean_open_to_all_witness :
  let c := Examples.cloudDoc "d" "B" true true Examples.fiveRevisions in
  EditDocumentInfo.collaborators c <> []
  /\ EditDocumentInfo.isEditable c None = true.
Proof.
  intros c.
  assert (H : EditDocumentInfo.collaborators c <> []) by discriminate.
  split; [exact H|].
  apply (listed_collaborators_mean_open_to_all c None H).
Defined.

(** X14.  The link target falls back to the document's id when the handle is
    [null] or empty, so with a non-empty id it is never empty; a visitor who
    may not edit is sent to the page for a new document, with the revision
    asked for when there is one. *)
Theorem link_target_is_never_empty
        (c : CloudDocument.t) (user : option User.t) (revisionId : option string) :
  CloudDocument.id c <> "" ->
  EditDocumentLinks.handle c <> ""
  /\ (CloudDocument.handle c = None \/ CloudDocument.handle c = Some "" ->
      EditDocumentLinks.handle c = CloudDocument.id c)
  /\ (EditDocumentInfo.isEditable c user = false ->
      EditDocumentLinks.href c user None
      = ("/new/" ++ EditDocumentLinks.handle c)%string
      /\ EditDocumentLinks.href c user (Some "")
         = ("/new/" ++ EditDocumentLinks.handle c)%string
      /\ forall v, v <> "" ->
           EditDocumentLinks.href c user (Some v)
           = ("/new/" ++ EditDocumentLinks.handle c ++ "?v=" ++ v)%string).
Proof.
  intros Hid. unfold EditDocumentLinks.href, EditDocumentLinks.handle,
    EditDocumentLinks.orElse.
  split; [|split].
  - destruct (CloudDocument.handle c) as [h|]; [|exact Hid].
    destruct (String.eqb_spec h ""); assumption.
  - intros [->| ->]; reflexivity.
  - intros ->. split; [|split].
    + now rewrite append_empty.
    + cbn [String.eqb]. now rewrite append_empty.
    + intros v Hv. apply String.eqb_neq in Hv. now rewrite Hv.
Qed.

Lemma link_target_is_never_empty_witness :
  let c := Examples.cloudDoc "d" "B" true false Examples.fiveRevisions in
  CloudDocument.id c <> ""
  /\ EditDocumentLinks.handle c = "d"
  /\ EditDocumentLinks.href c None (Some "r3") = "/new/d?v=r3".
Proof.
  intros c.
  assert (Hid : CloudDocument.id c <> "") by discriminate.
  split; [exact Hid|].
  destruct (link_target_is_never_empty c None (Some "r3") Hid)
    as (_ & Hhandle & Hhref).
  split.
  - apply Hhandle. now left.
  - destruct (Hhref eq_refl) as (_ & _ & Hv). apply Hv. discriminate.
Defined.

(** ** DocumentInfo: the badge, the keys and the actions *)

Lemma unsavedChanges_known (documents : list UserDocument.t)
      (localRevisions : list LocalDocumentRevision.t) (documentId h : string) :
  DocumentInfo.localHead documents documentId = Some h ->
  DocumentInfo.unsavedChanges documents localRevisions documentId = false
  <-> DocumentInfo.known documents localRevisions documentId h.
Proof.
  intros Hh.
  unfold DocumentInfo.unsavedChanges, DocumentInfo.isHeadLocalRevision,
    DocumentInfo.isHeadCloudRevision, DocumentInfo.known, Array_some.
  rewrite Hh, andb_false_iff, !negb_false_iff, !existsb_exists.
  split.
  - intros [(r & Hr & Heq)|(r & Hr & Heq)]; [left | right];
      apply String.eqb_eq in Heq; rewrite <- Heq; now apply in_map.
  - intros [Hin|Hin]; apply in_map_iff in Hin as (r & <- & Hr); [left | right];
      exists r; (split; [exact Hr | apply String.eqb_refl]).
Qed.

Lemma merged_ids (documents : list UserDocument.t)
      (localRevisions : list LocalDocumentRevision.t) (documentId : string) :
  map UserDocumentRevision.id
      (DocumentInfo.revisions documents localRevisions documentId)
  = map CloudDocumentRevision.id
        (DocumentInfo.cloudDocumentRevisions documents documentId)
    ++ map LocalDocumentRevision.id
         (DocumentInfo.freshLocals
            (map CloudDocumentRevision.id
                 (DocumentInfo.cloudDocumentRevisions documents documentId))
            (DocumentInfo.localDocumentRevisions localRevisions documentId)).
Proof.
  unfold DocumentInfo.revisions.
  rewrite fold_pushLocal, map_app, !map_map. reflexivity.
Qed.

Lemma NoDup_map_Some {A : Type} (l : list A) : NoDup l -> NoDup (map Some l).
Proof.
  induction 1 as [|x l Hx _ IH]; simpl; constructor; [|exact IH].
  intros Hin. apply in_map_iff in Hin as (y & [= ->] & Hy). contradiction.
Qed.

(** X15.  The toolbar button carries no dot exactly when the document has a
    local side whose head is a known revision and, if it has a cloud side as
    well, the two heads are the same. *)
Theorem no_badge_means_in_sync
        (documents : list UserDocument.t)
        (localRevisions : list LocalDocumentRevision.t) (documentId : string) :
  DocumentInfoActions.showBadge documents localRevisions documentId = false
  <-> exists l,
      DocumentInfo.localDocument documents documentId = Some l
      /\ DocumentInfo.known documents localRevisions documentId (LocalDocument.head l)
      /\ forall c, DocumentInfo.cloudDocument documents documentId = Some c ->
                   LocalDocument.head l = CloudDocument.head c.
Proof.
  unfold DocumentInfoActions.showBadge. rewrite orb_false_iff.
  destruct (DocumentInfo.localDocument documents documentId) as [l|] eqn:Hl.
  - assert (Hh : DocumentInfo.localHead documents documentId
                 = Some (LocalDocument.head l)).
    { unfold DocumentInfo.localHead. now rewrite Hl. }
    rewrite (unsavedChanges_known _ _ _ _ Hh).
    unfold DocumentInfo.isHeadOutOfSync. rewrite Hl.
    split.
    + intros [Hknown Hsync]. exists l. split; [reflexivity|]. split; [exact Hknown|].
      intros c Hc. rewrite Hc in Hsync.
      apply negb_false_iff, String.eqb_eq in Hsync. exact Hsync.
    + intros (l' & [= <-] & Hknown & Hsync). split; [exact Hknown|].
      destruct (DocumentInfo.cloudDocument documents documentId) as [c|];
        [|reflexivity].
      apply negb_false_iff, String.eqb_eq. now apply Hsync.
  - assert (Hh : DocumentInfo.localHead documents documentId = None).
    { unfold DocumentInfo.localHead. now rewrite Hl. }
    rewrite (unsavedChanges_no_head _ localRevisions _ Hh).
    split; [intros [Hf _]; discriminate | intros (l & Hf & _); discriminate].
Qed.

(** X16.  When the cloud revisions have pairwise distinct ids, so have the
    entries of the revision list, the entry for unsaved changes included: no
    two cards of the drawer share their key. *)
Theorem revision_keys_are_distinct
        (Date_getTime : string -> option Z) (documents : list UserDocument.t)
        (localRevisions : list LocalDocumentRevision.t) (documentId : string) :
  NoDup (map CloudDocumentRevision.id
             (DocumentInfo.cloudDocumentRevisions documents documentId)) ->
  NoDup (map RevisionObject.id
             (DocumentInfo.sortedRevisions Date_getTime documents localRevisions
                documentId)).
Proof.
  intros Hcloud.
  pose proof (merged_ids documents localRevisions documentId) as Hids.
  assert (Hperm : Permutation
            (map UserDocumentRevision.id
                 (DocumentInfo.sorted Date_getTime documents localRevisions documentId))
            (map UserDocumentRevision.id
                 (DocumentInfo.revisions documents localRevisions documentId))).
  { apply Permutation_map. apply Array_sort_perm. }
  assert (Hnodup : NoDup (map UserDocumentRevision.id
                            (DocumentInfo.sorted Date_getTime documents
                               localRevisions documentId))).
  { apply (Permutation_NoDup (Permutation_sym Hperm)). rewrite Hids.
    now apply (firstOccurrences_NoDup LocalDocumentRevision.id). }
  assert (Hmap : map RevisionObject.id
                   (map RevisionObject.of_revision
                        (DocumentInfo.sorted Date_getTime documents localRevisions
                           documentId))
                 = map Some
                       (map UserDocumentRevision.id
                            (DocumentInfo.sorted Date_getTime documents
                               localRevisions documentId))).
  { rewrite !map_map. reflexivity. }
  unfold DocumentInfo.sortedRevisions.
  destruct (DocumentInfo.unsavedChanges documents localRevisions documentId)
    eqn:Hunsaved.
  - cbn [map]. rewrite Hmap. constructor; [|now apply NoDup_map_Some].
    cbn [DocumentInfo.unsavedRevision RevisionObject.id].
    intros Hin. apply in_map_iff in Hin as (h & Hh & Hin).
    symmetry in Hh.
    apply (unsavedChanges_unknown _ localRevisions _ _ Hh) in Hunsaved.
    apply Hunsaved. unfold DocumentInfo.known.
    apply (Permutation_in _ Hperm) in Hin. rewrite Hids in Hin.
    apply in_app_iff in Hin.
    unfold DocumentInfo.freshLocals in Hin.
    apply (proj1 (firstOccurrences_keys LocalDocumentRevision.id _ _ h)) in Hin.
    tauto.
  - rewrite Hmap. now apply NoDup_map_Some.
Qed.

Lemma revision_keys_are_distinct_witness :
  let documents := Examples.bothSides Examples.fiveRevisions in
  let localRevisions := [Examples.localRev "r3" "d" "9"; Examples.localRev "x" "d" "3"] in
  NoDup (map CloudDocumentRevision.id
             (DocumentInfo.cloudDocumentRevisions documents "d"))
  /\ NoDup (map RevisionObject.id
                (DocumentInfo.sortedRevisions Examples.digitTime documents
                   localRevisions "d")).
Proof.
  intros documents localRevisions.
  assert (H : NoDup (map CloudDocumentRevision.id
                         (DocumentInfo.cloudDocumentRevisions documents "d"))).
  { cbn. repeat constructor; cbn; intuition discriminate. }
  split; [exact H|].
  exact (revision_keys_are_distinct Examples.digitTime documents localRevisions "d" H).
Defined.

(** X17.  A document with no cloud side belongs to whoever has it: the user
    counts as its author, not as a coauthor, and it is never out of sync.  On
    a cloud document a user who is not signed in is neither, and is offered
    neither the download nor the edit action.  The edit action is offered
    only together with the download, and neither without a document. *)
Theorem drawer_actions
        (user : option User.t) (documents : list UserDocument.t)
        (documentId : string) :
  (DocumentInfo.cloudDocument documents documentId = None ->
   DocumentInfo.isAuthor user documents documentId = true
   /\ DocumentInfo.isCoauthor user documents documentId = false
   /\ DocumentInfo.isHeadOutOfSync documents documentId = false)
  /\ (forall c, DocumentInfo.cloudDocument documents documentId = Some c ->
                DocumentInfo.isAuthor None documents documentId = false
                /\ DocumentInfo.isCoauthor None documents documentId = false
                /\ DocumentInfoActions.showDownload None documents documentId = false
                /\ DocumentInfoActions.showEdit None documents documentId = false)
  /\ (DocumentInfoActions.showEdit user documents documentId = true ->
      DocumentInfoActions.showDownload user documents documentId = true)
  /\ (DocumentInfo.userDocument documents documentId = None ->
      DocumentInfoActions.showDownload user documents documentId = false
      /\ DocumentInfoActions.showEdit user documents documentId = false).
Proof.
  unfold DocumentInfoActions.showDownload, DocumentInfoActions.showEdit,
    DocumentInfoActions.hasUserDocument.
  split; [|split; [|split]].
  - intros Hc. unfold DocumentInfo.isAuthor, DocumentInfo.isCoauthor,
      DocumentInfo.isHeadOutOfSync. rewrite Hc.
    now destruct (DocumentInfo.localDocument documents documentId).
  - intros c Hc.
    assert (Ha : DocumentInfo.isAuthor None documents documentId = false).
    { unfold DocumentInfo.isAuthor. now rewrite Hc. }
    assert (Hco : DocumentInfo.isCoauthor None documents documentId = false).
    { unfold DocumentInfo.isCoauthor. rewrite Hc.
      apply existsb_false_forall. reflexivity. }
    rewrite Ha, Hco. now rewrite !andb_false_r.
  - intros H. apply andb_true_iff in H as [-> ->]. reflexivity.
  - intros ->. auto.
Qed.

(** X18.  Nothing is lost on the way to the drawer: every cloud revision is
    listed as it is, author included; every local revision of the document is
    listed under its id; a local revision of another document is never
    merged in; and the list has one entry per merged revision, plus one when
    there are unsaved changes. *)
Theorem every_revision_is_listed
        (Date_getTime : string -> option Z) (documents : list UserDocument.t)
        (localRevisions : list LocalDocumentRevision.t) (documentId : string) :
  (forall c, In c (DocumentInfo.cloudDocumentRevisions documents documentId) ->
             In (RevisionObject.of_revision (UserDocumentRevision.Cloud c))
                (DocumentInfo.sortedRevisions Date_getTime documents localRevisions
                   documentId))
  /\ (forall r, In r localRevisions ->
                LocalDocumentRevision.documentId r = documentId ->
                In (Some (LocalDocumentRevision.id r))
                   (map RevisionObject.id
                        (DocumentInfo.sortedRevisions Date_getTime documents
                           localRevisions documentId)))
  /\ (forall r, In (UserDocumentRevision.Local r)
                   (DocumentInfo.revisions documents localRevisions documentId) ->
                In r localRevisions
                /\ LocalDocumentRevision.documentId r = documentId)
  /\ length (DocumentInfo.sortedRevisions Date_getTime documents localRevisions
               documentId)
     = (length (DocumentInfo.revisions documents localRevisions documentId)
        + if DocumentInfo.unsavedChanges documents localRevisions documentId
          then 1 else 0)%nat.
Proof.
  pose proof (merged_ids documents localRevisions documentId) as Hids.
  assert (Hperm : Permutation
            (DocumentInfo.sorted Date_getTime documents localRevisions documentId)
            (DocumentInfo.revisions documents localRevisions documentId))
    by apply Array_sort_perm.
  assert (Hmerged : DocumentInfo.revisions documents localRevisions documentId
            = map UserDocumentRevision.Cloud
                  (DocumentInfo.cloudDocumentRevisions documents documentId)
              ++ map UserDocumentRevision.Local
                   (DocumentInfo.freshLocals
                      (map UserDocumentRevision.id
                           (map UserDocumentRevision.Cloud
                                (DocumentInfo.cloudDocumentRevisions documents
                                   documentId)))
                      (DocumentInfo.localDocumentRevisions localRevisions
                         documentId))).
  { unfold DocumentInfo.revisions. now rewrite fold_pushLocal. }
  assert (Htail : forall x,
             In x (map RevisionObject.of_revision
                       (DocumentInfo.sorted Date_getTime documents localRevisions
                          documentId)) ->
             In x (DocumentInfo.sortedRevisions Date_getTime documents
                     localRevisions documentId)).
  { intros x Hx. unfold DocumentInfo.sortedRevisions.
    destruct (DocumentInfo.unsavedChanges _ _ _); [now right | exact Hx]. }
  split; [|split; [|split]].
  - intros c Hc. apply Htail, in_map.
    apply (Permutation_in _ (Permutation_sym Hperm)).
    rewrite Hmerged. apply in_or_app. left. now apply in_map.
  - intros r Hr Hdoc.
    assert (Hin : In (LocalDocumentRevision.id r)
                     (map UserDocumentRevision.id
                          (DocumentInfo.sorted Date_getTime documents
                             localRevisions documentId))).
    { apply (Permutation_in _ (Permutation_map _ (Permutation_sym Hperm))).
      rewrite Hids. apply in_app_iff. unfold DocumentInfo.freshLocals.
      apply (proj2 (firstOccurrences_keys LocalDocumentRevision.id _ _ _)).
      right. apply in_map. unfold DocumentInfo.localDocumentRevisions.
      apply filter_In. split; [exact Hr|]. now apply String.eqb_eq. }
    apply in_map_iff in Hin as (x & Hx & Hin).
    apply in_map_iff. exists (RevisionObject.of_revision x).
    split; [cbn; now rewrite Hx|]. apply Htail. now apply in_map.
  - intros r Hr. rewrite Hmerged in Hr. apply in_app_iff in Hr as [Hr|Hr].
    + apply in_map_iff in Hr as (c & Hc & _). discriminate Hc.
    + apply in_map_iff in Hr as (r' & [= ->] & Hr).
      apply firstOccurrences_incl in Hr.
      unfold DocumentInfo.localDocumentRevisions in Hr.
      apply filter_In in Hr as [Hr Hdoc]. split; [exact Hr|].
      now apply String.eqb_eq.
  - unfold DocumentInfo.sortedRevisions.
    destruct (DocumentInfo.unsavedChanges _ _ _); cbn [length];
      rewrite length_map, (Permutation_length Hperm); lia.
Qed.

(** ** Documents: what an import does and does not do *)

(** The one effect of a document that is imported: where it leads, and what
    it is. *)
Lemma accepted_effect (JSON_stringify : JSON -> string)
      (documents : list UserDocument.t) (v : JSON) (navigateTo : bool)
      (e : Documents.Effect) (i : string) :
  JS.prop v "id" = Some (JString i) ->
  Documents.addDocument JSON_stringify documents v navigateTo
  = ([e], JS.Normal tt) ->
  ImportFile.destination e
  = (if navigateTo then Some ("/edit/" ++ i)%string else None)
  /\ match e with
     | Documents.perform d =>
         Documents.action d = Documents.createLocalDocument v
         /\ Documents.collides documents v = false
     | Documents.alert title _ d =>
         title = "Document already exists"
         /\ Documents.action d
            = Documents.updateLocalDocument i (JSON_stringify v)
         /\ Documents.collides documents v = true
     | Documents.announce _ _ => False
     end.
Proof.
  intros Hid. rewrite (addDocument_string_id _ _ _ _ _ Hid).
  destruct (Documents.collides documents v).
  - destruct (JS.template (JS.prop v "name")); [|discriminate].
    intros [= <-]. cbn. auto.
  - intros [= <-]. cbn. auto.
Qed.

Lemma created_in (es : list Documents.Effect) (d : JSON) :
  In d (Documents.created es) ->
  exists e, In e es
            /\ match e with
               | Documents.perform p =>
                   Documents.action p = Documents.createLocalDocument d
               | _ => False
               end.
Proof.
  induction es as [|[t c|t c a|[[v|k p] n]] es IH]; cbn [Documents.created].
  - intros [].
  - intros Hd. destruct (IH Hd) as (e & He & Hshape).
    exists e. split; [now right | exact Hshape].
  - intros Hd. destruct (IH Hd) as (e & He & Hshape).
    exists e. split; [now right | exact Hshape].
  - intros [<-|Hd].
    + eexists. split; [now left | reflexivity].
    + destruct (IH Hd) as (e & He & Hshape).
      exists e. split; [now right | exact Hshape].
  - intros Hd. destruct (IH Hd) as (e & He & Hshape).
    exists e. split; [now right | exact Hshape].
Qed.

Lemma importAll_created (JSON_stringify : JSON -> string)
      (documents : list UserDocument.t) (values : list JSON) (d : JSON) :
  In d (Documents.created (Documents.importAll JSON_stringify documents values)) ->
  In d values /\ Documents.validId d = true.
Proof.
  intros Hd. apply created_in in Hd as (e & He & Hshape).
  apply importAll_in in He as (v & Hv & Hvalid & _ & He).
  destruct (validId_inv _ Hvalid) as (i & Hid & _).
  destruct (accepted_effect _ _ _ _ _ _ Hid He) as [_ Hwhat].
  destruct e as [t c|t c a|p]; try contradiction.
  destruct Hwhat as [Hcreate _]. rewrite Hcreate in Hshape.
  injection Hshape as <-. auto.
Qed.

(** X19.  Reading a file resolves to a document id exactly when the file is
    a single document whose id is a valid UUID, and then to that id: a bundle
    of documents resolves to nothing, whatever it imports. *)
Theorem loadFromFile_resolves_to_the_single_document
        (JSON_parse : string -> option JSON) (JSON_stringify : JSON -> string)
        (documents : list UserDocument.t) (content : string) (id : JSON) :
  snd (ImportFile.loadFromFile JSON_parse JSON_stringify documents content) = Some id
  <-> exists data i,
      JSON_parse content = Some data
      /\ JS.prop data "id" = Some (JString i)
      /\ uuid.test i = true
      /\ id = JString i.
Proof.
  unfold ImportFile.loadFromFile.
  pose proof (tryParseFile_cases JSON_parse JSON_stringify documents content)
    as Hcases.
  destruct (JSON_parse content) as [data|].
  - destruct (Documents.isNull data) eqn:Hnull.
    + rewrite Hcases. cbn. split; [discriminate|].
      intros (d & i & [= <-] & Hprop & _). destruct data; discriminate.
    + destruct (Documents.validId data) eqn:Hvalid.
      * rewrite Hcases. cbn [snd].
        destruct (validId_inv _ Hvalid) as (i & Hprop & Htest).
        rewrite Hprop. split.
        -- intros [= <-]. now exists data, i.
        -- intros (d & j & [= <-] & Hj & _ & ->). congruence.
      * destruct Hcases as (values & _ & ->). cbn [snd]. split; [discriminate|].
        intros (d & i & [= <-] & Hprop & Htest & _).
        unfold Documents.validId, uuid.validate in Hvalid.
        rewrite Hprop in Hvalid. congruence.
  - rewrite Hcases. cbn. split; [discriminate|].
    intros (d & i & Hd & _). discriminate.
Qed.

(** X20.  An import navigates only for a file that is a single document, and
    then to the edit page of that document; the documents of a bundle are
    imported without navigating, whether created or offered for overwrite. *)
Theorem only_a_single_document_navigates
        (JSON_parse : string -> option JSON) (JSON_stringify : JSON -> string)
        (documents : list UserDocument.t) (content : string) (e : Documents.Effect) :
  In e (fst (Documents.tryParseFile JSON_parse JSON_stringify documents content)) ->
  ImportFile.destination e = None
  \/ exists data i,
      JSON_parse content = Some data
      /\ JS.prop data "id" = Some (JString i)
      /\ uuid.test i = true
      /\ ImportFile.destination e = Some ("/edit/" ++ i)%string
      /\ fst (Documents.tryParseFile JSON_parse JSON_stringify documents content)
         = [e].
Proof.
  intros He.
  destruct (effects_origin _ _ _ _ _ He)
    as [->|[(v & Hvalid & _ & Hv)|(data & Hparse & Hvalid & _ & Hdata & Heq)]].
  - now left.
  - left. destruct (validId_inv _ Hvalid) as (i & Hid & _).
    now destruct (accepted_effect _ _ _ _ _ _ Hid Hv).
  - right. destruct (validId_inv _ Hvalid) as (i & Hid & Htest).
    exists data, i.
    destruct (accepted_effect _ _ _ _ _ _ Hid Hdata) as [Hdest _].
    rewrite Heq. auto.
Qed.

Lemma only_a_single_document_navigates_witness :
  let text := JSONText.stringify (Examples.notes Examples.uuid1) in
  let e := Documents.perform
             {| Documents.action :=
                  Documents.createLocalDocument (Examples.notes Examples.uuid1);
                Documents.thenNavigate := Some ("/edit/" ++ Examples.uuid1)%string |} in
  In e (fst (Documents.tryParseFile JSONText.parse JSONText.stringify [] text))
  /\ (ImportFile.destination e = None
      \/ exists data i,
          JSONText.parse text = Some data
          /\ JS.prop data "id" = Some (JString i)
          /\ uuid.test i = true
          /\ ImportFile.destination e = Some ("/edit/" ++ i)%string
          /\ fst (Documents.tryParseFile JSONText.parse JSONText.stringify [] text)
             = [e]).
Proof.
  intros text e.
  assert (H : In e (fst (Documents.tryParseFile JSONText.parse JSONText.stringify
                           [] text))) by (left; reflexivity).
  split; [exact H|].
  exact (only_a_single_document_navigates JSONText.parse JSONText.stringify []
           text e H).
Defined.

(** X21.  An import announces at most one notice, as its last effect.  After
    a notice it returns no document, with one exception: a file that is a
    single document with a valid id, which could not be offered for
    overwrite; nothing of it was imported, and yet it is the document
    returned. *)
Theorem notice_is_single_and_last
        (JSON_parse : string -> option JSON) (JSON_stringify : JSON -> string)
        (documents : list UserDocument.t) (content : string) :
  let result := Documents.tryParseFile JSON_parse JSON_stringify documents content in
  Documents.notices (fst result) = []
  \/ exists imported,
      fst result = imported ++ [Documents.invalidFile]
      /\ Documents.notices imported = []
      /\ (snd result = None
          \/ exists data,
              JSON_parse content = Some data
              /\ Documents.validId data = true
              /\ Documents.refused documents data = true
              /\ imported = []
              /\ snd result = Some data).
Proof.
  cbv zeta.
  pose proof (tryParseFile_cases JSON_parse JSON_stringify documents content)
    as Hcases.
  destruct (JSON_parse content) as [data|].
  - destruct (Documents.isNull data).
    + right. exists []. rewrite Hcases. auto.
    + destruct (Documents.validId data) eqn:Hvalid.
      * rewrite Hcases. cbn [fst snd].
        destruct (Documents.refused documents data) eqn:Hrefused.
        -- right. exists [].
           rewrite (addDocument_refused _ _ _ _ Hvalid Hrefused).
           split; [reflexivity|]. split; [reflexivity|].
           right. exists data. auto.
        -- left.
           destruct (addDocument_accepted JSON_stringify documents data true
                       Hvalid Hrefused) as (e & -> & Hnotice & _).
           cbn [fst]. now rewrite app_nil_r.
      * destruct Hcases as (values & _ & ->). cbn [fst snd].
        destruct (existsb (Documents.stops documents) values).
        -- right. eexists. split; [reflexivity|].
           split; [apply importAll_notices | now left].
        -- left. rewrite app_nil_r. apply importAll_notices.
  - right. exists []. rewrite Hcases. auto.
Qed.

(** X22.  An import never creates a document over a local one and never
    offers to overwrite what is not there: a document is created only when no
    listed local document has its id, the overwrite alert is raised only when
    one has, and either way the document's id is a valid UUID. *)
Theorem create_or_overwrite_by_collision
        (JSON_parse : string -> option JSON) (JSON_stringify : JSON -> string)
        (documents : list UserDocument.t) (content : string) (e : Documents.Effect) :
  In e (fst (Documents.tryParseFile JSON_parse JSON_stringify documents content)) ->
  match e with
  | Documents.perform d =>
      exists v, Documents.action d = Documents.createLocalDocument v
                /\ Documents.validId v = true
                /\ Documents.collides documents v = false
  | Documents.alert title _ d =>
      title = "Document already exists"
      /\ exists v i,
          Documents.action d = Documents.updateLocalDocument i (JSON_stringify v)
          /\ JS.prop v "id" = Some (JString i)
          /\ uuid.test i = true
          /\ Documents.collides documents v = true
  | Documents.announce _ _ => e = Documents.invalidFile
  end.
Proof.
  intros He.
  assert (Hadd : forall v navigateTo,
             Documents.validId v = true ->
             Documents.addDocument JSON_stringify documents v navigateTo
             = ([e], JS.Normal tt) ->
             match e with
             | Documents.perform d =>
                 exists v, Documents.action d = Documents.createLocalDocument v
                           /\ Documents.validId v = true
                           /\ Documents.collides documents v = false
             | Documents.alert title _ d =>
                 title = "Document already exists"
                 /\ exists v i,
                     Documents.action d
                     = Documents.updateLocalDocument i (JSON_stringify v)
                     /\ JS.prop v "id" = Some (JString i)
                     /\ uuid.test i = true
                     /\ Documents.collides documents v = true
             | Documents.announce _ _ => e = Documents.invalidFile
             end).
  { intros v navigateTo Hvalid Hv.
    destruct (validId_inv _ Hvalid) as (i & Hprop & Htest).
    destruct (accepted_effect _ _ _ _ _ _ Hprop Hv) as [_ Hwhat].
    destruct e as [t c|t c d|d]; [contradiction | |].
    - destruct Hwhat as (-> & Haction & Hcollides).
      split; [reflexivity|]. exists v, i. auto.
    - destruct Hwhat as (Haction & Hcollides). exists v. auto. }
  destruct (effects_origin _ _ _ _ _ He)
    as [->|[(v & Hvalid & _ & Hv)|(data & _ & Hvalid & _ & Hdata & _)]].
  - reflexivity.
  - now apply (Hadd v false).
  - now apply (Hadd data true).
Qed.

Lemma create_or_overwrite_by_collision_witness :
  let text := JSONText.stringify (JArray [Examples.notes Examples.uuid1]) in
  let e := Documents.perform
             {| Documents.action :=
                  Documents.createLocalDocument (Examples.notes Examples.uuid1);
                Documents.thenNavigate := None |} in
  In e (fst (Documents.tryParseFile JSONText.parse JSONText.stringify [] text))
  /\ exists v, Documents.createLocalDocument (Examples.notes Examples.uuid1)
               = Documents.createLocalDocument v
               /\ Documents.validId v = true
               /\ Documents.collides [] v = false.
Proof.
  intros text e.
  assert (H : In e (fst (Documents.tryParseFile JSONText.parse JSONText.stringify
                           [] text))) by (left; reflexivity).
  split; [exact H|].
  exact (create_or_overwrite_by_collision JSONText.parse JSONText.stringify []
           text e H).
Defined.

(** X23.  Restoring a backup drops what it cannot validate: the stored
    documents are visited in order, those whose id is a valid UUID are
    imported and the others are passed over without a word, up to the first
    that cannot be offered for overwrite (its id is that of a listed local
    document and its name cannot be converted to text), where the restore
    ends with the "Invalid file" notice.  Nothing navigates and no document is
    returned.  When no stored document is of that kind, all those with a
    valid id are imported and nothing is announced; on a device where none of
    them is a local document, exactly the stored documents with a valid id
    are created, in their order. *)
Theorem restore_keeps_the_valid_documents
        (JSON_parse : string -> option JSON) (JSON_stringify : JSON -> string)
        (documents : list UserDocument.t) (stored : list JSON) :
  Forall (fun d => Documents.isNull d = false) stored ->
  JSON_parse (JSON_stringify (JArray stored)) = Some (JArray stored) ->
  let result :=
    Documents.tryParseFile JSON_parse JSON_stringify documents
      (Documents.backup JSON_stringify stored) in
  fst result
  = Documents.importAll JSON_stringify documents
      (Documents.untilStop documents stored)
    ++ (if existsb (Documents.refused documents) stored
        then [Documents.invalidFile]
        else [])
  /\ snd result = None
  /\ (forall e, In e (fst result) -> ImportFile.destination e = None)
  /\ (forall d, In d (Documents.created (fst result)) ->
                In d stored /\ Documents.validId d = true)
  /\ (Forall (fun d => Documents.refused documents d = false) stored ->
      fst result = Documents.importAll JSON_stringify documents stored
      /\ Documents.notices (fst result) = [])
  /\ ((forall d u, In d stored -> In u documents -> Documents.hasLocal u = true ->
                   Documents.idOf d <> Some (UserDocument.id u)) ->
      Documents.created (fst result) = filter Documents.validId stored).
Proof.
  intros Hnonnull Hcodec result.
  assert (Hstops : existsb (Documents.stops documents) stored
                   = existsb (Documents.refused documents) stored).
  { clear Hcodec result. induction Hnonnull as [|d stored Hd _ IH];
      [reflexivity|]. cbn [existsb]. unfold Documents.stops at 1.
    now rewrite Hd, IH. }
  assert (Hresult : result
            = (Documents.importAll JSON_stringify documents
                 (Documents.untilStop documents stored)
               ++ (if existsb (Documents.refused documents) stored
                   then [Documents.invalidFile]
                   else []),
               None)).
  { unfold result, Documents.backup.
    pose proof (tryParseFile_cases JSON_parse JSON_stringify documents
                  (JSON_stringify (JArray stored))) as Hcases.
    rewrite Hcodec in Hcases. cbn in Hcases.
    destruct Hcases as (values & Hvalues & ->).
    injection Hvalues as <-. now rewrite Hstops. }
  assert (Hall : Forall (fun d => Documents.refused documents d = false) stored ->
                 result
                 = (Documents.importAll JSON_stringify documents stored, None)).
  { intros Hrefused. rewrite Hresult.
    assert (Hnone : Forall (fun d => Documents.stops documents d = false) stored).
    { rewrite Forall_forall in *. intros d Hd. unfold Documents.stops.
      now rewrite (Hnonnull d Hd), (Hrefused d Hd). }
    destruct (untilStop_all _ _ Hnone) as [-> Hex].
    rewrite <- Hstops, Hex. now rewrite app_nil_r. }
  split; [now rewrite Hresult|]. split; [now rewrite Hresult|].
  split; [|split; [|split]].
  - rewrite Hresult. cbn [fst]. intros e He.
    apply in_app_iff in He as [He|He].
    + apply importAll_in in He as (v & _ & Hvalid & _ & He).
      destruct (validId_inv _ Hvalid) as (i & Hid & _).
      now destruct (accepted_effect _ _ _ _ _ _ Hid He).
    + destruct (existsb (Documents.refused documents) stored);
        [destruct He as [<-|[]]; reflexivity | destruct He].
  - rewrite Hresult. cbn [fst]. intros d Hd.
    rewrite created_app in Hd. apply in_app_iff in Hd as [Hd|Hd].
    + apply importAll_created in Hd as [Hd Hvalid].
      split; [now apply (untilStop_incl documents) | exact Hvalid].
    + destruct (existsb (Documents.refused documents) stored); destruct Hd.
  - intros Hrefused. rewrite (Hall Hrefused). cbn [fst].
    split; [reflexivity | apply importAll_notices].
  - intros Hfresh.
    assert (Hrefused : Forall (fun d => Documents.refused documents d = false)
                              stored).
    { rewrite Forall_forall in *. intros d Hd. unfold Documents.refused.
      rewrite (collides_idOf documents d (Hnonnull d Hd)).
      - now rewrite andb_false_r.
      - intros u. now apply Hfresh. }
    rewrite (Hall Hrefused). cbn [fst]. unfold Documents.importAll.
    rewrite (importAll_fresh JSON_stringify documents).
    + apply created_performed.
    + apply Forall_forall. intros d Hd. now apply filter_In in Hd.
    + intros d u Hd. apply Hfresh. now apply filter_In in Hd.
Qed.

Lemma restore_keeps_the_valid_documents_witness :
  let draft := JObject [("id", JString "draft"); ("name", JString "Draft")] in
  let stored := [Examples.notes Examples.uuid1; draft; Examples.notes Examples.uuid2] in
  Forall (fun d => Documents.isNull d = false) stored
  /\ JSONText.parse (JSONText.stringify (JArray stored)) = Some (JArray stored)
  /\ Documents.created
       (fst (Documents.tryParseFile JSONText.parse JSONText.stringify []
               (Documents.backup JSONText.stringify stored)))
     = [Examples.notes Examples.uuid1; Examples.notes Examples.uuid2].
Proof.
  intros draft stored.
  assert (Hnonnull : Forall (fun d => Documents.isNull d = false) stored)
    by (repeat constructor).
  assert (Hcodec : JSONText.parse (JSONText.stringify (JArray stored))
                   = Some (JArray stored)) by (vm_compute; reflexivity).
  split; [exact Hnonnull|]. split; [exact Hcodec|].
  destruct (restore_keeps_the_valid_documents JSONText.parse JSONText.stringify
              [] stored Hnonnull Hcodec) as (_ & _ & _ & _ & _ & Hcreated).
  rewrite Hcreated; [reflexivity|]. intros d u _ [].
Defined.

(** ** Page metadata *)

(** X24.  The edit page gives nothing of a document away unless it is open
    to collaboration: for a document that is not, published or not, the
    metadata is the same whatever its name, date and author, and the image
    link carries the id, the fixed title and the sign-in line only. *)
Theorem edit_page_keeps_private_documents_private
        (JSON_stringify : JSON -> string) (encodeURIComponent : string -> string)
        (toLocaleString : string -> string)
        (findUserDocument findUserDocument' : string -> option PageMetadata.Document)
        (id : option (list string)) (i : string)
        (document document' : PageMetadata.Document) :
  PageMetadata.firstId id = Some i ->
  findUserDocument i = Some document ->
  findUserDocument' i = Some document' ->
  PageMetadata.collab document = false ->
  PageMetadata.collab document' = false ->
  PageMetadata.generateMetadata_edit JSON_stringify encodeURIComponent
    toLocaleString findUserDocument id
  = PageMetadata.generateMetadata_edit JSON_stringify encodeURIComponent
      toLocaleString findUserDocument' id
  /\ PageMetadata.generateMetadata_edit JSON_stringify encodeURIComponent
       toLocaleString findUserDocument id
     = {| PageMetadata.pageTitle := "Private Document | Math Editor";
          PageMetadata.pageDescription :=
            Some "if you have access, please sign in to edit it";
          PageMetadata.images :=
            Some [("/api/og?metadata="
                   ++ encodeURIComponent
                        (JSON_stringify
                           (JObject
                              [("id", JString i);
                               ("title", JString "Private Document | Math Editor");
                               ("subtitle",
                                JString "if you have access, please sign in to edit it")])))%string] |}.
Proof.
  intros Hid Hfound Hfound' Hcollab Hcollab'.
  unfold PageMetadata.generateMetadata_edit.
  rewrite Hid, Hfound, Hfound', Hcollab, Hcollab'. split; reflexivity.
Qed.

Lemma edit_page_keeps_private_documents_private_witness :
  let published :=
    {| PageMetadata.name := "Published notes";
       PageMetadata.updatedAt := "2024-02-02";
       PageMetadata.collab := false;
       PageMetadata.published := true;
       PageMetadata.author := PageMetadata.author MoreExamples.secret |} in
  PageMetadata.generateMetadata_edit JSONText.stringify (fun s => s) (fun s => s)
    (fun _ => Some MoreExamples.secret) (Some [Examples.uuid1])
  = PageMetadata.generateMetadata_edit JSONText.stringify (fun s => s) (fun s => s)
      (fun _ => Some published) (Some [Examples.uuid1]).
Proof.
  intros published.
  exact (proj1 (edit_page_keeps_private_documents_private
                  JSONText.stringify (fun s => s) (fun s => s)
                  (fun _ => Some MoreExamples.secret) (fun _ => Some published)
                  (Some [Examples.uuid1]) Examples.uuid1
                  MoreExamples.secret published
                  eq_refl eq_refl eq_refl eq_refl eq_refl)).
Defined.

(** X25.  The two pages agree on a document open to collaboration and part
    on one that is only published: the page for new documents shows its name,
    its date and, in the image link, its author; the edit page gives the
    fixed title and its sign-in line, and no author in the image link.  A
    document that is neither is private on both pages, each with its own
    sign-in line. *)
Theorem published_documents_show_on_the_new_page_only
        (JSON_stringify : JSON -> string) (encodeURIComponent : string -> string)
        (toLocaleString : string -> string)
        (findUserDocument : string -> option PageMetadata.Document)
        (findVersion : string -> option string -> option PageMetadata.Document)
        (id : option (list string)) (v : option string) (i : string)
        (document : PageMetadata.Document) :
  PageMetadata.firstId id = Some i ->
  findUserDocument i = Some document ->
  findVersion i v = Some document ->
  let edit := PageMetadata.generateMetadata_edit JSON_stringify encodeURIComponent
                toLocaleString findUserDocument id in
  let new := PageMetadata.generateMetadata_new JSON_stringify encodeURIComponent
               toLocaleString findVersion id v in
  let image (members : list (string * JSON)) :=
    ("/api/og?metadata=" ++ encodeURIComponent (JSON_stringify (JObject members)))%string in
  let updated :=
    ("Last updated: " ++ toLocaleString (PageMetadata.updatedAt document))%string in
  let author := PageMetadata.author document in
  let shown :=
    {| PageMetadata.pageTitle := (PageMetadata.name document ++ " | Math Editor")%string;
       PageMetadata.pageDescription := Some updated;
       PageMetadata.images :=
         Some [image
                 [("id", JString i);
                  ("title",
                   JString (PageMetadata.name document ++ " | Math Editor")%string);
                  ("subtitle", JString updated);
                  ("user",
                   JObject [("name", JString (PageMetadata.authorName author));
                            ("image", match PageMetadata.authorImage author with
                                      | Some picture => JString picture
                                      | None => JNull
                                      end);
                            ("email", JString (PageMetadata.authorEmail author))])]] |} in
  let private (line : string) :=
    {| PageMetadata.pageTitle := "Private Document | Math Editor";
       PageMetadata.pageDescription := Some line;
       PageMetadata.images :=
         Some [image [("id", JString i);
                      ("title", JString "Private Document | Math Editor");
                      ("subtitle", JString line)]] |} in
  (PageMetadata.collab document = true -> edit = shown /\ new = shown)
  /\ (PageMetadata.collab document = false ->
      PageMetadata.published document = true ->
      new = shown
      /\ edit = private "if you have access, please sign in to edit it")
  /\ (PageMetadata.collab document = false ->
      PageMetadata.published document = false ->
      edit = private "if you have access, please sign in to edit it"
      /\ new = private "if you have access, please sign in to fork it").
Proof.
  intros Hid Hfound Hversion edit new image updated author shown private.
  subst edit new.
  unfold PageMetadata.generateMetadata_edit, PageMetadata.generateMetadata_new.
  rewrite Hid, Hfound, Hversion.
  split; [|split].
  - intros ->. split; reflexivity.
  - intros -> ->. split; reflexivity.
  - intros -> ->. split; reflexivity.
Qed.

Lemma published_documents_show_on_the_new_page_only_witness :
  let published :=
    {| PageMetadata.name := "Published notes";
       PageMetadata.updatedAt := "2024-02-02";
       PageMetadata.collab := false;
       PageMetadata.published := true;
       PageMetadata.author := PageMetadata.author MoreExamples.secret |} in
  PageMetadata.pageTitle
    (PageMetadata.generateMetadata_edit JSONText.stringify (fun s => s) (fun s => s)
       (fun _ => Some published) (Some [Examples.uuid1]))
  = "Private Document | Math Editor"
  /\ PageMetadata.pageTitle
       (PageMetadata.generateMetadata_new JSONText.stringify (fun s => s)
          (fun s => s) (fun _ _ => Some published) (Some [Examples.uuid1]) None)
     = "Published notes | Math Editor".
Proof.
  intros published.
  destruct (published_documents_show_on_the_new_page_only
              JSONText.stringify (fun s => s) (fun s => s)
              (fun _ => Some published) (fun _ _ => Some published)
              (Some [Examples.uuid1]) None Examples.uuid1 published
              eq_refl eq_refl eq_refl) as (_ & H & _).
  destruct (H eq_refl eq_refl) as (-> & ->).
  split; reflexivity.
Defined.

(** X26.  Whatever the route and whatever the lookup returns, both pages
    give a title that ends in [Math Editor] and a description; the image
    link is there exactly when the route names a document, and then it is a
    single link to [/api/og]. *)
Theorem metadata_is_always_complete
        (JSON_stringify : JSON -> string) (encodeURIComponent : string -> string)
        (toLocaleString : string -> string)
        (findUserDocument : string -> option PageMetadata.Document)
        (findVersion : string -> option string -> option PageMetadata.Document)
        (id : option (list string)) (v : option string) (m : PageMetadata.Metadata) :
  m = PageMetadata.generateMetadata_edit JSON_stringify encodeURIComponent
        toLocaleString findUserDocument id
  \/ m = PageMetadata.generateMetadata_new JSON_stringify encodeURIComponent
           toLocaleString findVersion id v ->
  (exists prefix, PageMetadata.pageTitle m = (prefix ++ "Math Editor")%string)
  /\ (exists text, PageMetadata.pageDescription m = Some text)
  /\ match PageMetadata.firstId id with
     | Some _ =>
         exists metadata,
           PageMetadata.images m = Some [("/api/og?metadata=" ++ metadata)%string]
     | None => PageMetadata.images m = None
     end.
Proof.
  assert (Hname : forall n, (n ++ " | Math Editor" = (n ++ " | ") ++ "Math Editor")%string).
  { intros n. now rewrite append_assoc. }
  unfold PageMetadata.generateMetadata_edit, PageMetadata.generateMetadata_new.
  intros [->| ->]; destruct (PageMetadata.firstId id) as [i|].
  - destruct (findUserDocument i) as [d|]; [destruct (PageMetadata.collab d)|];
      cbn; (split; [|split]); eauto;
      first [ now exists "Private Document | " | now exists "Edit Document | " ].
  - cbn. (split; [|split]); eauto. now exists "Edit Document | ".
  - destruct (findVersion i v) as [d|];
      [destruct (PageMetadata.collab d || PageMetadata.published d)|];
      cbn; (split; [|split]); eauto;
      first [ now exists "Private Document | " | now exists "" ].
  - cbn. (split; [|split]); eauto. now exists "New Document | ".
Qed.

Lemma metadata_is_always_complete_witness :
  exists prefix,
    PageMetadata.pageTitle
      (PageMetadata.generateMetadata_new JSONText.stringify (fun s => s)
         (fun s => s) (fun _ _ => None) (Some [Examples.uuid1]) None)
    = (prefix ++ "Math Editor")%string.
Proof.
  exact (proj1 (metadata_is_always_complete
                  JSONText.stringify (fun s => s) (fun s => s)
                  (fun _ => None) (fun _ _ => None) (Some [Examples.uuid1]) None
                  _ (or_intror eq_refl))).
Defined.
